(** * Stream compaction of the wearable-thesis repository

    A shallow embedding of [src/strava/stream_jsonl_processor.py]: the
    normalisation of raw Strava streams, the resampling engine, the derived
    pace series, the quantile summaries, record assembly, and the batch
    (JSONL) utilities, followed by the properties proved about them.

    Conventions of the embedding:
    - Python values are the inductive [pyval]; [int] is [Z]; [float] is
      modelled by exact rationals [Q] (no rounding error, no nan/inf);
    - characters are [ascii] (code points below 256), text is [string];
    - a Python [dict] is an association list in insertion order (the order
      of the items decides which stream wins a shared quantile key and the
      order of the fields of a serialised record); the file system is a
      finite map from paths to contents;
    - a call returns an [outcome]: a value, a raised exception, or
      [OutOfFuel] when the bounded unrolling of a [while] loop is used up;
    - the [json] and [random] modules and the parser behind [float(str)]
      are parameters of the sections that use them. *)

From Stdlib Require Import ZArith QArith Qround Qabs Lqa Lia String Ascii List DecimalString.
From stdpp Require Import base option list gmap strings.
Import ListNotations.

Local Open Scope string_scope.
Local Open Scope list_scope.

(** ** Outcomes *)

Inductive pyexn :=
| TypeError | ValueError | AttributeError | IndexError | FileNotFoundError.

Inductive outcome (A : Type) :=
| Ret (a : A)
| Raise (e : pyexn)
| OutOfFuel.
Arguments Ret {A} a.
Arguments Raise {A} e.
Arguments OutOfFuel {A}.

#[global] Instance outcome_ret : MRet outcome := fun A a => Ret a.
#[global] Instance outcome_bind : MBind outcome := fun A B f m =>
  match m with
  | Ret a => f a
  | Raise e => Raise e
  | OutOfFuel => OutOfFuel
  end.

(** ** Python values *)

#[local] Set Warnings "-register-all".

Inductive pyval :=
| VNone
| VBool (b : bool)
| VInt (z : Z)
| VFloat (q : Q)
| VStr (s : string)
| VList (l : list pyval)
| VDict (d : list (string * pyval)).

Abbreviation dict V := (list (string * V)).

Module Dict.
Section Ops.
Context {V : Type}.

(** [d.get(k)] *)
Fixpoint get (k : string) (d : dict V) : option V :=
  match d with
  | [] => None
  | (k', v) :: d' => if String.eqb k k' then Some v else get k d'
  end.

(** [k in d] *)
Definition mem (k : string) (d : dict V) : bool :=
  match get k d with Some _ => true | None => false end.

(** [d[k] = v]: an existing key keeps its position, a new key goes last. *)
Fixpoint set (k : string) (v : V) (d : dict V) : dict V :=
  match d with
  | [] => [(k, v)]
  | (k', v') :: d' =>
      if String.eqb k k' then (k', v) :: d' else (k', v') :: set k v d'
  end.

(** [not d] *)
Definition is_empty (d : dict V) : bool :=
  match d with [] => true | _ => false end.

(** [d.pop(k, None)] *)
Fixpoint pop (k : string) (d : dict V) : dict V :=
  match d with
  | [] => []
  | (k', v') :: d' =>
      if String.eqb k k' then pop k d' else (k', v') :: pop k d'
  end.
End Ops.
End Dict.

(** ** Strings *)

Definition comma : ascii := ","%char.
Definition newline : ascii := "010"%char.
Definition carriage_return : ascii := "013"%char.

(** [str.isspace] on one character of the Latin-1 range. *)
Definition py_isspace (c : ascii) : bool :=
  let n := nat_of_ascii c in
  ((9 <=? n) && (n <=? 13) || (28 <=? n) && (n <=? 32)
   || (n =? 133) || (n =? 160))%nat.

Fixpoint py_lstrip (s : string) : string :=
  match s with
  | "" => ""
  | String c s' => if py_isspace c then py_lstrip s' else s
  end.

Fixpoint py_rstrip (s : string) : string :=
  match s with
  | "" => ""
  | String c s' =>
      match py_rstrip s' with
      | "" => if py_isspace c then "" else String c ""
      | r => String c r
      end
  end.

(** [s.strip()] *)
Definition py_strip (s : string) : string := py_rstrip (py_lstrip s).

Definition lower_char (c : ascii) : ascii :=
  let n := nat_of_ascii c in
  if ((65 <=? n) && (n <=? 90)
      || (192 <=? n) && (n <=? 222) && negb (n =? 215))%nat
  then ascii_of_nat (n + 32) else c.

(** [s.lower()] *)
Fixpoint py_lower (s : string) : string :=
  match s with
  | "" => ""
  | String c s' => String (lower_char c) (py_lower s')
  end.

(** [s.startswith(p)] *)
Definition py_startswith (s p : string) : bool := String.prefix p s.

(** [s.split(sep)] for a one-character separator. *)
Fixpoint py_split (sep : ascii) (s : string) : list string :=
  match s with
  | "" => [""]
  | String c s' =>
      if Ascii.eqb c sep then "" :: py_split sep s'
      else match py_split sep s' with
           | [] => [String c ""]
           | t :: ts => String c t :: ts
           end
  end.

(** [sep.join(parts)] *)
Definition py_join (sep : string) (parts : list string) : string :=
  String.concat sep parts.

(** [needle in hay] for strings. *)
Fixpoint py_contains (needle hay : string) : bool :=
  String.prefix needle hay
  || match hay with
     | "" => false
     | String _ hay' => py_contains needle hay'
     end.

(** ** Numbers *)

(** [str(n)] for an [int]. *)
Definition str_of_int (z : Z) : string := NilZero.string_of_int (Z.to_int z).

(** [round(x)] on a float: to the nearest integer, ties to the even one. *)
Definition py_round (x : Q) : Z :=
  let f := Qfloor x in
  match Qcompare (x - inject_Z f) (1 # 2) with
  | Lt => f
  | Gt => (f + 1)%Z
  | Eq => if Z.even f then f else (f + 1)%Z
  end.

(** [int(x)] on a float: truncation toward zero. *)
Definition py_int (x : Q) : Z :=
  if Qle_bool 0 x then Qfloor x else Qceiling x.

(** [f"{x:.2f}"] *)
Definition format_2f (x : Q) : string :=
  let n := py_round (x * inject_Z 100) in
  let a := Z.abs n in
  let frac := (a mod 100)%Z in
  ((if Qlt_le_dec x 0 then "-" else "")
   ++ str_of_int (a / 100)%Z ++ "."
   ++ (if (frac <? 10)%Z then "0" else "") ++ str_of_int frac)%string.

(** [bool(v)] *)
Definition py_truthy (v : pyval) : bool :=
  match v with
  | VNone => false
  | VBool b => b
  | VInt z => negb (z =? 0)%Z
  | VFloat q => negb (Qeq_bool q 0)
  | VStr s => negb (String.eqb s "")
  | VList l => match l with [] => false | _ => true end
  | VDict d => match d with [] => false | _ => true end
  end.

(** [value not in (None, "")] *)
Definition is_meaningful (v : pyval) : bool :=
  match v with
  | VNone => false
  | VStr s => negb (String.eqb s "")
  | _ => true
  end.

(** [_is_numeric_value]: [bool] is a subclass of [int] in Python. *)
Definition _is_numeric_value (value : pyval) : bool :=
  match value with
  | VBool _ | VInt _ | VFloat _ => true
  | _ => false
  end.

(** The number denoted by a numeric value. *)
Definition num_of (v : pyval) : option Q :=
  match v with
  | VBool b => Some (if b then 1 else 0)%Q
  | VInt z => Some (inject_Z z)
  | VFloat q => Some q
  | _ => None
  end.

(** [a - b]; only numbers can be subtracted. *)
Definition py_sub (a b : pyval) : outcome Q :=
  match num_of a, num_of b with
  | Some x, Some y => Ret (x - y)%Q
  | _, _ => Raise TypeError
  end.

(** [l[i]] *)
Definition py_index {A} (l : list A) (i : nat) : outcome A :=
  match l !! i with
  | Some x => Ret x
  | None => Raise IndexError
  end.

(** ** numpy *)

Module np.
Fixpoint insert_sorted (x : Q) (l : list Q) : list Q :=
  match l with
  | [] => [x]
  | y :: l' => if Qle_bool x y then x :: l else y :: insert_sorted x l'
  end.

Definition sort (l : list Q) : list Q := foldr insert_sorted [] l.

(** One level of [np.percentile] (default linear interpolation between
    order statistics), on a non-empty list. *)
Definition percentile1 (values : list Q) (level : Z) : Q :=
  let s := sort values in
  let n := length s in
  let pos := ((level # 100) * inject_Z (Z.of_nat (n - 1)))%Q in
  let lo := Z.to_nat (Qfloor pos) in
  let hi := Nat.min (lo + 1) (n - 1) in
  let a := nth lo s 0%Q in
  let b := nth hi s 0%Q in
  Qred (a + (pos - inject_Z (Qfloor pos)) * (b - a))%Q.

Definition percentile (values : list Q) (levels : list Z) : list Q :=
  map (percentile1 values) levels.

(** [np.round(x, 6)] *)
Definition round6 (x : Q) : Q :=
  Qred (inject_Z (py_round (x * inject_Z 1000000)) / inject_Z 1000000)%Q.

(** [np.mean] on a non-empty list, as an exact rational: it is the float64
    mean of the source wherever the sums involved are exact in binary64. *)
Definition mean (values : list Q) : Q :=
  Qred (foldr Qplus 0%Q values / inject_Z (Z.of_nat (length values)))%Q.
End np.

(** ** Stream normalisation *)

Definition QUANTILE_LEVELS : list Z := [5; 25; 50; 75; 95]%Z.
Definition CADENCE_MULTIPLIER : Z := 2.

(** One element of the list returned by the API client:
    [{'type': ..., 'data': [...]}]; a missing ['type'] is [None]. *)
Record RawStream := { stream_type : option string; stream_data : list pyval }.

Definition is_none (v : pyval) : bool :=
  match v with VNone => true | _ => false end.

Definition Qltb (x y : Q) : bool := negb (Qle_bool y x).

Definition _stream_key_for_quantiles (stream_type : string) : string :=
  let mapping :=
    [("heartrate", "hr_bpm"); ("altitude", "altitude_m");
     ("distance", "distance_m"); ("velocity_smooth", "velocity_smooth_ms");
     ("cadence", "cadence_spm"); ("time", "time_s")] in
  default stream_type (Dict.get stream_type mapping).

(** [name.strip().lower().startswith(prefix)], after the [if not name] guard. *)
Definition name_has_prefix (prefix : string) (activity_name : pyval) : outcome bool :=
  if negb (py_truthy activity_name) then Ret false
  else match activity_name with
       | VStr s => Ret (py_startswith (py_lower (py_strip s)) prefix)
       | _ => Raise AttributeError
       end.

Definition _is_running_activity : pyval -> outcome bool := name_has_prefix "running".
Definition _is_rest_activity : pyval -> outcome bool := name_has_prefix "rest".

Definition _extract_numeric_values (data : list pyval) : list Q :=
  omap (fun value => if _is_numeric_value value then num_of value else None) data.

Definition _convert_streams_to_dict (streams_data : list RawStream) : dict (list pyval) :=
  fold_left
    (fun streams_dict stream =>
       match stream_type stream, stream_data stream with
       | Some ty, (_ :: _) as data =>
           if String.eqb ty "" then streams_dict else Dict.set ty data streams_dict
       | _, _ => streams_dict
       end)
    streams_data [].

(** [[idx for idx, value in enumerate(moving_data) if bool(value)]] *)
Fixpoint truthy_indices (idx : nat) (moving_data : list pyval) : list nat :=
  match moving_data with
  | [] => []
  | value :: rest =>
      if py_truthy value then idx :: truthy_indices (S idx) rest
      else truthy_indices (S idx) rest
  end.

Definition filter_data (valid_indices : list nat) (data : list pyval) : list pyval :=
  omap (fun i => data !! i) valid_indices.

Definition _filter_by_moving (streams_dict : dict (list pyval)) : dict (list pyval) :=
  match Dict.get "moving" streams_dict with
  | None => streams_dict
  | Some moving_data =>
      if negb (existsb is_meaningful moving_data) then streams_dict
      else
        let valid_indices := truthy_indices 0 moving_data in
        match valid_indices with
        | [] => []
        | _ => map (fun '(stream_type, data) => (stream_type, filter_data valid_indices data))
                   streams_dict
        end
  end.

(** [value * CADENCE_MULTIPLIER] on a numeric value. *)
Definition times_multiplier (value : pyval) : pyval :=
  match value with
  | VBool b => VInt ((if b then 1 else 0) * CADENCE_MULTIPLIER)
  | VInt z => VInt (z * CADENCE_MULTIPLIER)
  | VFloat q => VFloat (q * inject_Z CADENCE_MULTIPLIER)
  | _ => value
  end.

Definition _double_cadence_values (streams_dict : dict (list pyval)) : dict (list pyval) :=
  match Dict.get "cadence" streams_dict with
  | Some data =>
      Dict.set "cadence"
        (map (fun value => if _is_numeric_value value then times_multiplier value else value) data)
        streams_dict
  | None => streams_dict
  end.

(** ** Quantile summaries *)

(** [{str(level): float(np.round(percentile_values[idx], 6)) for idx, level in ...}] *)
Definition quantile_dict (percentile_values : list Q) : dict Q :=
  zip_with (fun level p => (str_of_int level, np.round6 p)) QUANTILE_LEVELS percentile_values.

Definition _calculate_quantiles (streams_dict : dict (list pyval)) (include_velocity : bool)
  : dict (dict Q) :=
  fold_left
    (fun quantiles_result '(stream_type, data) =>
       match data with
       | [] => quantiles_result
       | _ =>
           let numeric_values := _extract_numeric_values data in
           match numeric_values with
           | [] => quantiles_result
           | _ =>
               let percentile_values := np.percentile numeric_values QUANTILE_LEVELS in
               let key_name := _stream_key_for_quantiles stream_type in
               if String.eqb key_name "velocity_smooth_ms" && negb include_velocity
               then quantiles_result
               else Dict.set key_name (quantile_dict percentile_values) quantiles_result
           end
       end)
    streams_dict [].

Definition _calculate_pace_quantiles (time_data : list Q) (distance_data : list pyval)
  : outcome (option (dict Q)) :=
  raw_pace_values ←
    foldl
      (fun acc i =>
         raw ← acc;
         ti ← py_index time_data i;
         tp ← py_index time_data (i - 1);
         let dt := (ti - tp)%Q in
         if Qle_bool dt 0 then Ret raw
         else
           match distance_data !! i, distance_data !! (i - 1) with
           | Some di, Some dp =>
               if is_none di || is_none dp then Ret raw
               else
                 dd ← py_sub di dp;
                 if Qle_bool dd 0 then Ret raw
                 else Ret (raw ++ [((dt / dd) * inject_Z 1000)%Q])
           | _, _ => Ret raw
           end)
      (Ret []) (seq 1 (length time_data - 1));
  match raw_pace_values with
  | [] => Ret None
  | _ => Ret (Some (quantile_dict (np.percentile raw_pace_values QUANTILE_LEVELS)))
  end.

(** ** Resampling engine *)

(** The [while current_time <= max_time] loop; [fuel] bounds its iterations.
    The accumulator is an exact rational: the rounding of the source's
    repeated float addition is not modelled, so a target can differ from the
    code's in its last place. *)
Fixpoint target_times_loop (fuel : nat) (current_time max_time interval_seconds : Q)
  : outcome (list Q) :=
  if Qle_bool current_time max_time then
    match fuel with
    | O => OutOfFuel
    | S fuel' =>
        rest ← target_times_loop fuel' (current_time + interval_seconds)%Q
                                 max_time interval_seconds;
        Ret (current_time :: rest)
    end
  else Ret [].

(** [min(range(len(time_data)), key=lambda i: abs(time_data[i] - target_time))]
    after its first element: a later index replaces the best one only when
    its key is strictly smaller. *)
Fixpoint closest_scan (target_time : Q) (best_idx : nat) (best_key : Q)
    (i : nat) (rest : list Q) : nat :=
  match rest with
  | [] => best_idx
  | t :: rest' =>
      let key := Qabs (t - target_time) in
      if Qltb key best_key then closest_scan target_time i key (S i) rest'
      else closest_scan target_time best_idx best_key (S i) rest'
  end.

Definition closest_idx (time_data : list Q) (target_time : Q) : outcome nat :=
  match time_data with
  | [] => Raise ValueError
  | t0 :: rest => Ret (closest_scan target_time 0 (Qabs (t0 - target_time)) 1 rest)
  end.

(** Remove duplicates while preserving order. *)
Fixpoint unique_from (seen : gset nat) (sampled_indices : list nat) : list nat :=
  match sampled_indices with
  | [] => []
  | idx :: rest =>
      if decide (idx ∈ seen) then unique_from seen rest
      else idx :: unique_from ({[idx]} ∪ seen) rest
  end.

Definition _find_sampling_indices (fuel : nat) (time_data : list Q) (interval_seconds : Q)
  : outcome (list nat) :=
  match last time_data with
  | None => Ret []
  | Some max_time =>
      target_times ← target_times_loop fuel 0%Q max_time interval_seconds;
      sampled_indices ← mapM (closest_idx time_data) target_times;
      Ret (unique_from ∅ sampled_indices)
  end.

(** ** Derived series and sampling *)

(** The shared tail of both branches of [_calculate_pace_values]:
    [str(int(round((dt / dd) * 1000)))] when [dd > 0 and dt > 0], else [""]. *)
Definition pace_token (dt dd : Q) : string :=
  if Qltb 0 dd && Qltb 0 dt
  then str_of_int (py_round ((dt / dd) * inject_Z 1000))
  else "".

Definition _calculate_pace_values (sampled_time : list Q) (sampled_distance : list pyval)
  : outcome (list string) :=
  mapM
    (fun i =>
       if (i =? 0)%nat then
         if (1 <? length sampled_time)%nat then
           d0 ← py_index sampled_distance 0;
           if is_none d0 then Ret ""
           else
             d1 ← py_index sampled_distance 1;
             if is_none d1 then Ret ""
             else
               t1 ← py_index sampled_time 1;
               t0 ← py_index sampled_time 0;
               dd ← py_sub d1 d0;
               Ret (pace_token (t1 - t0) dd)
         else Ret ""
       else
         ti ← py_index sampled_time i;
         tp ← py_index sampled_time (i - 1);
         di ← py_index sampled_distance i;
         if is_none di then Ret ""
         else
           dp ← py_index sampled_distance (i - 1);
           if is_none dp then Ret ""
           else
             dd ← py_sub di dp;
             Ret (pace_token (ti - tp) dd))
    (seq 0 (length sampled_time)).

(** [data[i] if i < len(data) and data[i] is not None else None] *)
Definition _sample_stream_data (data : list pyval) (indices : list nat) : list pyval :=
  map (fun i => default VNone (data !! i)) indices.

Definition _format_sampled_values (values : list pyval) (format_func : pyval -> outcome string)
  : outcome string :=
  formatted ← mapM (fun v => if is_none v then Ret "" else format_func v) values;
  Ret (py_join "," formatted).

(** The default [format_func]: [str(int(round(v)))]. *)
Definition format_rounded (v : pyval) : outcome string :=
  match v with
  | VNone => Ret ""
  | VBool b => Ret (str_of_int (if b then 1 else 0))
  | VInt z => Ret (str_of_int z)
  | VFloat q => Ret (str_of_int (py_round q))
  | _ => Raise TypeError
  end.

Section Pipeline.
(** Python's parser of a float literal held in a [str]; [None] when
    [float(s)] raises [ValueError]. *)
Variable float_of_str : string -> option Q.

(** [float(v)] *)
Definition py_float (v : pyval) : outcome Q :=
  match v with
  | VBool b => Ret (if b then 1 else 0)%Q
  | VInt z => Ret (inject_Z z)
  | VFloat q => Ret q
  | VStr s => match float_of_str s with Some q => Ret q | None => Raise ValueError end
  | _ => Raise TypeError
  end.

(** [f"{float(v):.2f}" if v is not None else ""] *)
Definition format_velocity (v : pyval) : outcome string :=
  if is_none v then Ret "" else q ← py_float v; Ret (format_2f q).

(** The part of [_sample_streams_common] after the sampling indices are
    known: the compact record built field by field. *)
Definition build_compact (streams_dict : dict (list pyval)) (time_data : list Q)
    (unique_indices : list nat) (interval_seconds : Q)
    (include_pace include_velocity : bool) : outcome (dict string) :=
  sampled_time ← mapM (py_index time_data) unique_indices;
  let result :=
    [("sampling", ("approx_" ++ str_of_int (py_int interval_seconds) ++ "s")%string);
     ("time_s_csv", py_join "," (map (fun t => str_of_int (py_round t)) sampled_time))] in
  result ←
    match Dict.get "distance" streams_dict with
    | Some distance =>
        if include_pace then
          let sampled_distance := _sample_stream_data distance unique_indices in
          pace_values ← _calculate_pace_values sampled_time sampled_distance;
          Ret (Dict.set "pace_s_per_km_csv" (py_join "," pace_values) result)
        else Ret result
    | None => Ret result
    end;
  result ←
    match Dict.get "heartrate" streams_dict with
    | Some heartrate =>
        let sampled_hr := _sample_stream_data heartrate unique_indices in
        csv ← _format_sampled_values sampled_hr format_rounded;
        Ret (Dict.set "hr_bpm_csv" csv result)
    | None => Ret result
    end;
  result ←
    match Dict.get "altitude" streams_dict with
    | Some altitude =>
        let sampled_alt := _sample_stream_data altitude unique_indices in
        csv ← _format_sampled_values sampled_alt format_rounded;
        Ret (Dict.set "alt_m_csv" csv result)
    | None => Ret result
    end;
  result ←
    match Dict.get "velocity_smooth" streams_dict with
    | Some velocity_smooth =>
        if include_velocity then
          let sampled_velocity := _sample_stream_data velocity_smooth unique_indices in
          csv ← _format_sampled_values sampled_velocity format_velocity;
          Ret (Dict.set "velocity_smooth_ms_csv" csv result)
        else Ret result
    | None => Ret result
    end;
  match Dict.get "cadence" streams_dict with
  | Some cadence =>
      let sampled_cadence := _sample_stream_data cadence unique_indices in
      csv ← _format_sampled_values sampled_cadence format_rounded;
      Ret (Dict.set "cadence_spm_csv" csv result)
  | None => Ret result
  end.

Definition _sample_streams_common (fuel : nat) (streams_data : list RawStream)
    (interval_seconds : Q) (filter_moving include_pace include_velocity : bool)
  : outcome (dict string * dict (dict Q)) :=
  match streams_data with
  | [] => Ret ([], [])
  | _ =>
      let streams_dict := _convert_streams_to_dict streams_data in
      let streams_dict :=
        if filter_moving then _filter_by_moving streams_dict else streams_dict in
      if filter_moving && Dict.is_empty streams_dict then Ret ([], [])
      else
          let streams_dict := Dict.pop "moving" streams_dict in
          let streams_dict := _double_cadence_values streams_dict in
          match Dict.get "time" streams_dict with
          | None | Some [] => Ret ([], [])
          | Some ((time_offset :: _) as time_data) =>
              time_data ←
                mapM (fun t => x ← py_float t; o ← py_float time_offset; Ret (x - o)%Q)
                     time_data;
              let streams_dict := Dict.set "time" (map VFloat time_data) streams_dict in
              let quantiles_result := _calculate_quantiles streams_dict include_velocity in
              quantiles_result ←
                match Dict.get "distance" streams_dict with
                | Some distance =>
                    if include_pace then
                      pace_quantiles ← _calculate_pace_quantiles time_data distance;
                      match pace_quantiles with
                      | Some pq => Ret (Dict.set "pace_s_per_km" pq quantiles_result)
                      | None => Ret quantiles_result
                      end
                    else Ret quantiles_result
                | None => Ret quantiles_result
                end;
              unique_indices ← _find_sampling_indices fuel time_data interval_seconds;
              match unique_indices with
              | [] => Ret ([], [])
              | _ =>
                  result ← build_compact streams_dict time_data unique_indices
                                         interval_seconds include_pace include_velocity;
                  Ret (result, quantiles_result)
              end
          end
  end.
End Pipeline.

(** ** Record assembly *)

Definition of_compact (compact_streams : dict string) : pyval :=
  VDict (map (fun '(k, csv) => (k, VStr csv)) compact_streams).

Definition of_quantiles (quantiles : dict (dict Q)) : pyval :=
  VDict (map (fun '(k, q) => (k, VDict (map (fun '(level, x) => (level, VFloat x)) q)))
             quantiles).

Section Assembly.
Variable float_of_str : string -> option Q.

(** [activity_data.get(key)] *)
Definition get_or_none (key : string) (activity_data : dict pyval) : pyval :=
  default VNone (Dict.get key activity_data).

(** The classification, sampling and field suppression shared by
    [create_streams_compact_json] and [create_activity_jsonl_object]. *)
Definition sample_for_activity (fuel : nat) (streams_data : list RawStream)
    (interval_seconds : Q) (activity_name : pyval)
  : outcome (dict string * dict (dict Q)) :=
  is_running ← _is_running_activity activity_name;
  is_rest ← _is_rest_activity activity_name;
  '(compact_streams, quantiles) ←
    _sample_streams_common float_of_str fuel streams_data interval_seconds
                           is_running is_running is_running;
  let quantiles :=
    if negb is_running then Dict.pop "distance_m" quantiles else quantiles in
  let compact_streams :=
    if is_rest : bool then Dict.pop "alt_m_csv" compact_streams else compact_streams in
  let quantiles :=
    if is_rest : bool then Dict.pop "altitude_m" quantiles else quantiles in
  Ret (compact_streams, quantiles).

Definition create_streams_compact_json (fuel : nat) (streams_data : list RawStream)
    (interval_seconds : Q) (activity_name : pyval) : outcome (dict pyval) :=
  '(compact_streams, quantiles) ←
    sample_for_activity fuel streams_data interval_seconds activity_name;
  Ret [("streams_compact", of_compact compact_streams);
       ("quantiles", of_quantiles quantiles)].

Definition create_activity_jsonl_object (fuel : nat) (activity_data : dict pyval)
    (streams_data : option (list RawStream)) (interval_seconds : Q)
  : outcome (dict pyval) :=
  let jsonl_obj :=
    [("activity_id", get_or_none "id" activity_data);
     ("name", get_or_none "name" activity_data);
     ("type", get_or_none "type" activity_data);
     ("start_date", get_or_none "start_date" activity_data);
     ("distance_m", get_or_none "distance" activity_data);
     ("moving_time_s", get_or_none "moving_time" activity_data);
     ("elapsed_time_s", get_or_none "elapsed_time" activity_data);
     ("total_elevation_gain_m", get_or_none "total_elevation_gain" activity_data);
     ("average_speed_ms", get_or_none "average_speed" activity_data);
     ("max_speed_ms", get_or_none "max_speed" activity_data);
     ("average_heartrate_bpm", get_or_none "average_heartrate" activity_data);
     ("max_heartrate_bpm", get_or_none "max_heartrate" activity_data);
     ("calories", get_or_none "calories" activity_data)] in
  jsonl_obj ←
    match streams_data with
    | None | Some [] => Ret jsonl_obj
    | Some streams_data =>
        let activity_name := get_or_none "name" activity_data in
        '(compact_streams, quantiles) ←
          sample_for_activity fuel streams_data interval_seconds activity_name;
        let jsonl_obj :=
          if Dict.is_empty compact_streams then jsonl_obj
          else Dict.set "streams_compact" (of_compact compact_streams) jsonl_obj in
        let jsonl_obj :=
          if Dict.is_empty quantiles then jsonl_obj
          else Dict.set "quantiles" (of_quantiles quantiles) jsonl_obj in
        Ret jsonl_obj
    end;
  Ret (List.filter (fun '(k, v) => negb (is_none v)) jsonl_obj).
End Assembly.

(** ** Files *)

Inductive io_event :=
| EvOpen (path mode : string)
| EvWrite (path text : string)
| EvPrint (text : string).

(** The part of the outside world the batch utilities touch: the text files
    by path, and the trace of I/O calls made so far (latest last). *)
Record world := { files : gmap string string; events : list io_event }.

Definition log (e : io_event) (w : world) : world :=
  {| files := files w; events := events w ++ [e] |}.

(** [open(path, 'w')]: the file is created or truncated. *)
Definition open_w (path : string) (w : world) : world :=
  log (EvOpen path "w") {| files := <[path := ""]> (files w); events := events w |}.

(** [f.write(text)] on a file opened for writing. *)
Definition write (path text : string) (w : world) : world :=
  log (EvWrite path text)
      {| files := <[path := (default "" (files w !! path) ++ text)%string]> (files w);
         events := events w |}.

(** Text-mode reading translates ["\r\n"] and ["\r"] to ["\n"]. *)
Fixpoint universal_newlines (s : string) : string :=
  match s with
  | "" => ""
  | String c s' =>
      if Ascii.eqb c carriage_return then
        match s' with
        | String c2 _ =>
            if Ascii.eqb c2 newline then universal_newlines s'
            else String newline (universal_newlines s')
        | "" => String newline ""
        end
      else String c (universal_newlines s')
  end.

(** [for line in f]: the lines with their terminators. *)
Fixpoint iter_lines (s : string) : list string :=
  match s with
  | "" => []
  | String c s' =>
      if Ascii.eqb c newline then String c "" :: iter_lines s'
      else match iter_lines s' with
           | [] => [String c ""]
           | line :: rest => String c line :: rest
           end
  end.

(** ** Batch serialisation and the heart-rate mutation utility *)

Section Batch.
(** The [json] module: [json.dumps(obj, ensure_ascii=False)] and
    [json.loads], [None] standing for [JSONDecodeError]. *)
Variable json_dumps : pyval -> string.
Variable json_loads : string -> option pyval.

(** The [random] module: generator states and [random.randint]. *)
Variable G : Type.
Variable randint : G -> Z -> Z -> Z * G.

Definition save_jsonl_file (jsonl_objects : list pyval) (filepath : string) (w : world)
  : world :=
  foldl (fun w obj =>
           let json_line := json_dumps obj in
           write filepath (json_line ++ String newline "") w)
        (open_w filepath w) jsonl_objects.

Definition load_jsonl_file (filepath : string) (w : world)
  : outcome (list pyval) * world :=
  let w := log (EvOpen filepath "r") w in
  match files w !! filepath with
  | None => (Raise FileNotFoundError, w)
  | Some content =>
      (foldl
         (fun acc line =>
            jsonl_objects ← acc;
            let line := py_strip line in
            if String.eqb line "" then Ret jsonl_objects
            else match json_loads line with
                 | Some obj => Ret (jsonl_objects ++ [obj])
                 | None => Raise ValueError
                 end)
         (Ret []) (iter_lines (universal_newlines content)),
       w)
  end.

(** [[str(random.randint(min_hr, max_hr)) for _ in hr_values]], as the
    integers drawn and the generator left behind. *)
Fixpoint draw_each {A} (min_hr max_hr : Z) (hr_values : list A) (g : G) : list Z * G :=
  match hr_values with
  | [] => ([], g)
  | _ :: rest =>
      let '(x, g) := randint g min_hr max_hr in
      let '(xs, g) := draw_each min_hr max_hr rest g in
      (x :: xs, g)
  end.

(** [max(numeric_hr)] on a non-empty list. *)
Definition py_max (l : list Z) : Z :=
  match l with
  | [] => 0%Z
  | x :: rest => foldl Z.max x rest
  end.

Definition is_str (s : string) (v : pyval) : bool :=
  match v with VStr s' => String.eqb s s' | _ => false end.

(** The body of the loop of [modify_heartrate_to_abnormal] after
    [obj = json.loads(line)], when [obj] is a dict. *)
Definition modify_dict (min_hr max_hr : Z) (modified_obj : dict pyval) (g : G)
  : outcome (dict pyval) * G :=
  match Dict.get "streams_compact" modified_obj with
  | None => (Ret modified_obj, g)
  | Some (VDict streams_compact) =>
      match Dict.get "hr_bpm_csv" streams_compact with
      | None => (Ret modified_obj, g)
      | Some hr_csv =>
          if py_truthy hr_csv then
            match hr_csv with
            | VStr hr_csv =>
                let hr_values :=
                  List.filter (fun val => negb (String.eqb val ""))
                              (map py_strip (py_split comma hr_csv)) in
                let '(numeric_hr, g) := draw_each min_hr max_hr hr_values g in
                let new_hr_values := map str_of_int numeric_hr in
                let streams_compact :=
                  Dict.set "hr_bpm_csv" (VStr (py_join "," new_hr_values)) streams_compact in
                let modified_obj :=
                  Dict.set "streams_compact" (VDict streams_compact) modified_obj in
                match numeric_hr with
                | [] => (Ret modified_obj, g)
                | _ =>
                    let percentile_values :=
                      np.percentile (map inject_Z numeric_hr) QUANTILE_LEVELS in
                    let modified_obj :=
                      if Dict.mem "quantiles" modified_obj then modified_obj
                      else Dict.set "quantiles" (VDict []) modified_obj in
                    match Dict.get "quantiles" modified_obj with
                    | Some (VDict quantiles) =>
                        let hr_bpm :=
                          VDict (map (fun '(level, x) => (level, VFloat x))
                                     (quantile_dict percentile_values)) in
                        let modified_obj :=
                          Dict.set "quantiles" (VDict (Dict.set "hr_bpm" hr_bpm quantiles))
                                   modified_obj in
                        let avg_hr := py_int (np.mean (map inject_Z numeric_hr)) in
                        let max_hr_value := py_max numeric_hr in
                        let modified_obj :=
                          if Dict.mem "average_heartrate_bpm" modified_obj
                          then Dict.set "average_heartrate_bpm" (VInt avg_hr) modified_obj
                          else modified_obj in
                        let modified_obj :=
                          if Dict.mem "max_heartrate_bpm" modified_obj
                          then Dict.set "max_heartrate_bpm" (VInt max_hr_value) modified_obj
                          else modified_obj in
                        (Ret modified_obj, g)
                    | _ => (Raise TypeError, g)
                    end
                end
            | _ => (Raise AttributeError, g)
            end
          else (Ret modified_obj, g)
      end
  | Some (VStr s) =>
      if py_contains "hr_bpm_csv" s then (Raise TypeError, g) else (Ret modified_obj, g)
  | Some (VList l) =>
      if existsb (is_str "hr_bpm_csv") l then (Raise TypeError, g) else (Ret modified_obj, g)
  | Some _ => (Raise TypeError, g)
  end.

(** One iteration of the loop, for any JSON value on the line. *)
Definition modify_object (min_hr max_hr : Z) (obj : pyval) (g : G) : outcome pyval * G :=
  match obj with
  | VDict d =>
      let '(r, g) := modify_dict min_hr max_hr d g in
      (d' ← r; Ret (VDict d'), g)
  | VList l =>
      if existsb (is_str "streams_compact") l then (Raise TypeError, g) else (Ret obj, g)
  | _ => (Raise AttributeError, g)
  end.

Definition modify_heartrate_to_abnormal (jsonl_filepath output_filepath : string)
    (min_hr max_hr : Z) (w : world) (g : G) : outcome unit * world * G :=
  if (max_hr <=? min_hr)%Z then (Raise ValueError, w, g)
  else
    let w := log (EvOpen jsonl_filepath "r") w in
    match files w !! jsonl_filepath with
    | None => (Raise FileNotFoundError, w, g)
    | Some content =>
        let '(modified_objects, g) :=
          foldl
            (fun '(acc, g) line =>
               match acc with
               | Ret modified_objects =>
                   let line := py_strip line in
                   if String.eqb line "" then (acc, g)
                   else match json_loads line with
                        | None => (Raise ValueError, g)
                        | Some obj =>
                            let '(r, g) := modify_object min_hr max_hr obj g in
                            (modified_obj ← r; Ret (modified_objects ++ [modified_obj]), g)
                        end
               | _ => (acc, g)
               end)
            (Ret [], g) (iter_lines (universal_newlines content)) in
        match modified_objects with
        | Ret modified_objects =>
            let w := save_jsonl_file modified_objects output_filepath w in
            let w :=
              log (EvPrint ("Modified " ++ str_of_int (Z.of_nat (length modified_objects))
                            ++ " activities. Saved to: " ++ output_filepath)%string) w in
            (Ret tt, w, g)
        | Raise e => (Raise e, w, g)
        | OutOfFuel => (OutOfFuel, w, g)
        end
    end.
End Batch.

(** ** Instances used to run the batch utilities on concrete records *)

(** A small JSON printer and parser in the layout of [json.dumps]
    (separators [", "] and [": "]), for integers, floats with at most six
    decimals, strings without escapes, lists and objects. *)
Module mini_json.
Definition quote : ascii := ascii_of_nat 34.

Definition quoted (s : string) : string := String quote (s ++ String quote "").

(** Drops the zeros at the end of a digit string, keeping one digit. *)
Fixpoint strip_zeros (s : string) : string :=
  match s with
  | "" => ""
  | String c s' =>
      match strip_zeros s' with
      | "" => String c ""
      | String c' r =>
          if Ascii.eqb c' "0" && String.eqb r "" then String c "" else String c (String c' r)
      end
  end.

(** A float as a decimal with one to six fractional digits. *)
Definition dumps_float (q : Q) : string :=
  let n := py_round (q * inject_Z 1000000) in
  let a := Z.abs n in
  let frac := (a mod 1000000)%Z in
  ((if (n <? 0)%Z then "-" else "")
   ++ str_of_int (a / 1000000)%Z ++ "."
   ++ strip_zeros (String.substring 1 6 (str_of_int (1000000 + frac)%Z)))%string.

Fixpoint dumps (v : pyval) : string :=
  match v with
  | VNone => "null"
  | VBool b => if b then "true" else "false"
  | VInt z => str_of_int z
  | VFloat q => dumps_float q
  | VStr s => quoted s
  | VList l => ("[" ++ py_join ", " (map dumps l) ++ "]")%string
  | VDict d =>
      ("{" ++ py_join ", " (map (fun kv => (quoted (fst kv) ++ ": " ++ dumps (snd kv))%string) d)
           ++ "}")%string
  end.

Definition is_digit (c : ascii) : bool :=
  let n := nat_of_ascii c in ((48 <=? n) && (n <=? 57))%nat.

Fixpoint skip_spaces (s : string) : string :=
  match s with
  | String c s' => if py_isspace c then skip_spaces s' else s
  | "" => ""
  end.

(** The digits at the head of [s], as a number with their count, and what
    follows them. *)
Fixpoint read_digits (acc : Z) (count : nat) (s : string) : option (Z * nat * string) :=
  match s with
  | String c s' =>
      if is_digit c
      then read_digits (10 * acc + Z.of_nat (nat_of_ascii c - 48))%Z (S count) s'
      else match count with O => None | _ => Some (acc, count, s) end
  | "" => match count with O => None | _ => Some (acc, count, s) end
  end.

(** The characters up to the closing quote, and what follows it. *)
Fixpoint read_string (s : string) : option (string * string) :=
  match s with
  | "" => None
  | String c s' =>
      if Ascii.eqb c quote then Some ("", s')
      else if Ascii.eqb c "\"%char then None
      else '(body, rest) ← read_string s'; Some (String c body, rest)
  end.

Definition read_number (negative : bool) (s : string) : option (pyval * string) :=
  '(n, _, rest) ← read_digits 0 0 s;
  let sign := if negative then (-1)%Z else 1%Z in
  match rest with
  | String "." rest' =>
      '(f, k, rest'') ← read_digits 0 0 rest';
      Some (VFloat (Qred (inject_Z (sign * (n * 10 ^ Z.of_nat k + f))
                          / inject_Z (10 ^ Z.of_nat k))), rest'')
  | _ => Some (VInt (sign * n), rest)
  end.

Fixpoint parse_value (fuel : nat) (s : string) : option (pyval * string) :=
  match fuel with
  | O => None
  | S fuel =>
      let parse_items :=
        fix parse_items (n : nat) (s : string) : option (list pyval * string) :=
          match n with
          | O => None
          | S n =>
              '(v, rest) ← parse_value fuel s;
              match skip_spaces rest with
              | String "," rest' =>
                  '(vs, rest'') ← parse_items n rest'; Some (v :: vs, rest'')
              | String "]" rest' => Some ([v], rest')
              | _ => None
              end
          end in
      let parse_members :=
        fix parse_members (n : nat) (s : string) : option (dict pyval * string) :=
          match n with
          | O => None
          | S n =>
              match skip_spaces s with
              | String c s1 =>
                  if Ascii.eqb c quote then
                    '(k, s2) ← read_string s1;
                    match skip_spaces s2 with
                    | String ":" s3 =>
                        '(v, rest) ← parse_value fuel s3;
                        match skip_spaces rest with
                        | String "," rest' =>
                            '(kvs, rest'') ← parse_members n rest';
                            Some ((k, v) :: kvs, rest'')
                        | String "}" rest' => Some ([(k, v)], rest')
                        | _ => None
                        end
                    | _ => None
                    end
                  else None
              | "" => None
              end
          end in
      match skip_spaces s with
      | String "n" (String "u" (String "l" (String "l" rest))) => Some (VNone, rest)
      | String "t" (String "r" (String "u" (String "e" rest))) => Some (VBool true, rest)
      | String "f" (String "a" (String "l" (String "s" (String "e" rest)))) =>
          Some (VBool false, rest)
      | String "-" rest => read_number true rest
      | String "[" rest =>
          match skip_spaces rest with
          | String "]" rest' => Some (VList [], rest')
          | _ => '(vs, rest') ← parse_items (String.length rest) rest; Some (VList vs, rest')
          end
      | String "{" rest =>
          match skip_spaces rest with
          | String "}" rest' => Some (VDict [], rest')
          | _ => '(kvs, rest') ← parse_members (String.length rest) rest; Some (VDict kvs, rest')
          end
      | String c rest =>
          if Ascii.eqb c quote then '(body, rest') ← read_string rest; Some (VStr body, rest')
          else read_number false (String c rest)
      | "" => None
      end
  end.

Definition loads (s : string) : option pyval :=
  match parse_value (String.length s) s with
  | Some (v, rest) => match skip_spaces rest with "" => Some v | _ => None end
  | None => None
  end.
End mini_json.

(** A linear congruential generator standing for [random]: the state is the
    seed, and [randint a b] maps it into [[a, b]]. *)
Module lcg.
Definition next (seed : Z) : Z := ((1103515245 * seed + 12345) mod 2147483648)%Z.

Definition randint (seed a b : Z) : Z * Z :=
  ((a + next seed mod (b - a + 1))%Z, next seed).
End lcg.

(** ** Vocabulary of the statements *)

(** A number of iterations that is always enough. *)
Definition enough_fuel (max_time interval_seconds : Q) : nat :=
  Z.to_nat (Qfloor (max_time / interval_seconds) + 1).


(** The streams of the scenario: eleven samples one second and ten metres apart. *)
Definition scenario_streams : list RawStream :=
  [ {| stream_type := Some "time";
       stream_data := map VInt [0; 1; 2; 3; 4; 5; 6; 7; 8; 9; 10]%Z |};
    {| stream_type := Some "distance";
       stream_data := map VInt [0; 10; 20; 30; 40; 50; 60; 70; 80; 90; 100]%Z |} ].

(** Every character of [s] satisfies [p]. *)
Fixpoint all_chars (p : ascii -> bool) (s : string) : bool :=
  match s with
  | "" => true
  | String c s' => p c && all_chars p s'
  end.

Definition no_comma (s : string) : bool :=
  all_chars (fun c => negb (Ascii.eqb c comma)) s.

(** The fields of a compact record that hold one token per resample point. *)
Definition csv_fields : list string :=
  ["time_s_csv"; "pace_s_per_km_csv"; "hr_bpm_csv"; "alt_m_csv";
   "velocity_smooth_ms_csv"; "cadence_spm_csv"].

(** The compact fields sampled directly from a source stream, with its name. *)
Definition sampled_fields : list (string * string) :=
  [("hr_bpm_csv", "heartrate"); ("alt_m_csv", "altitude");
   ("velocity_smooth_ms_csv", "velocity_smooth"); ("cadence_spm_csv", "cadence")].

(** Every [_csv] field of [result] has [n] comma-separated entries. *)
Definition aligned (n : nat) (result : dict string) : Prop :=
  forall field csv,
    In field csv_fields -> Dict.get field result = Some csv ->
    length (py_split comma csv) = n.

(** The value of [data] at index [i] is missing. *)
Definition missing_at (data : list pyval) (i : nat) : Prop :=
  data !! i = None \/ data !! i = Some VNone.

(** A missing value of a source stream at a resample index shows as an
    empty token at that position of the field sampled from it. *)
Definition marks_missing (streams_dict : dict (list pyval)) (unique_indices : list nat)
    (result : dict string) : Prop :=
  forall field source csv data j i,
    In (field, source) sampled_fields ->
    Dict.get field result = Some csv ->
    Dict.get source streams_dict = Some data ->
    unique_indices !! j = Some i ->
    missing_at data i ->
    py_split comma csv !! j = Some "".

(** The record the scenario produces when pace is included. *)
Definition scenario_result : dict string * dict (dict Q) :=
  Eval vm_compute in
    match _sample_streams_common (fun _ => None) 3 scenario_streams 5 true true true with
    | Ret r => r
    | _ => ([], [])
    end.

(** A resting activity recorded with time, heart-rate and altitude streams. *)
Definition rest_activity : dict pyval :=
  [("id", VInt 12); ("name", VStr "Rest 12 (Apple JD)"); ("type", VStr "Workout");
   ("elapsed_time", VInt 4)].

Definition rest_streams : list RawStream :=
  [ {| stream_type := Some "time"; stream_data := map VInt [0; 1; 2; 3; 4]%Z |};
    {| stream_type := Some "heartrate"; stream_data := map VInt [58; 57; 57; 56; 58]%Z |};
    {| stream_type := Some "altitude";
       stream_data := [VFloat (1203 # 10); VFloat (1203 # 10); VFloat (1204 # 10);
                       VFloat (1204 # 10); VFloat (1204 # 10)] |} ].

(** The record assembled for it with a two-second grid. *)
Definition rest_record : dict pyval :=
  Eval vm_compute in
    match create_activity_jsonl_object (fun _ => None) 3 rest_activity (Some rest_streams) 2 with
    | Ret record => record
    | _ => []
    end.

(** No line break inside [s]. *)
Definition one_line (s : string) : bool :=
  all_chars (fun c => negb (Ascii.eqb c newline) && negb (Ascii.eqb c carriage_return)) s.

(** [s] starts with a character that [strip] keeps. *)
Definition starts_visible (s : string) : bool :=
  match s with
  | String c _ => negb (py_isspace c)
  | "" => false
  end.

(** [s] ends with a character that [strip] keeps. *)
Fixpoint ends_visible (s : string) : bool :=
  match s with
  | "" => false
  | String c "" => negb (py_isspace c)
  | String _ s' => ends_visible s'
  end.

(** A record the [json] module serialises faithfully: decoding its text
    gives the record back, and the text is a single line delimited by
    visible characters (for an object, the braces). *)
Definition well_formed_record (json_dumps : pyval -> string)
    (json_loads : string -> option pyval) (record : pyval) : Prop :=
  json_loads (json_dumps record) = Some record
  /\ one_line (json_dumps record) = true
  /\ starts_visible (json_dumps record) = true
  /\ ends_visible (json_dumps record) = true.

(** The text of a batch file: one serialised record per line. *)
Definition batch_text (json_dumps : pyval -> string) (records : list pyval) : string :=
  foldr (fun record text => (json_dumps record ++ String newline text)%string) "" records.

Definition empty_world : world := {| files := ∅; events := [] |}.

(** Two records of a batch, the first with compact streams. *)
Definition sample_batch : list pyval :=
  [ VDict [("activity_id", VInt 7); ("name", VStr "Running 3 (Apple JD)");
           ("average_heartrate_bpm", VFloat (2981 # 20)); ("max_heartrate_bpm", VInt 160);
           ("streams_compact",
            VDict [("sampling", VStr "approx_5s"); ("time_s_csv", VStr "0,5");
                   ("hr_bpm_csv", VStr "140,160")])];
    VDict [("activity_id", VInt 8); ("name", VStr "Rest 1 (Apple JD)")] ].

(** The tokens of a heart-rate field that [modify_heartrate_to_abnormal]
    replaces: the ones that are not empty once stripped. *)
Definition hr_tokens (hr_csv : string) : list string :=
  List.filter (fun val => negb (String.eqb val "")) (map py_strip (py_split comma hr_csv)).

(** The sum of a list of integers. *)
Definition sum_of (l : list Z) : Z := foldr Z.add 0%Z l.

(** The quantile summary of a list of integer heart rates, as a value. *)
Definition hr_quantiles (numeric_hr : list Z) : pyval :=
  VDict (map (fun '(level, x) => (level, VFloat x))
             (quantile_dict (np.percentile (map inject_Z numeric_hr) QUANTILE_LEVELS))).

(** A record with heart-rate scalars and a two-sample heart-rate series. *)
Definition hr_record : dict pyval :=
  [("activity_id", VInt 7); ("average_heartrate_bpm", VFloat 150);
   ("max_heartrate_bpm", VInt 160);
   ("streams_compact", VDict [("time_s_csv", VStr "0,5"); ("hr_bpm_csv", VStr "140,160")])].

(** A record whose heart-rate series has a missing sample in the middle. *)
Definition gap_record : dict pyval :=
  [("activity_id", VInt 9);
   ("streams_compact", VDict [("time_s_csv", VStr "0,5,10"); ("hr_bpm_csv", VStr "140,,160")])].

From Stdlib Require Import Sorted.

(** ** The remaining entry points of the module *)

Section EntryPoints.
Variable float_of_str : string -> option Q.

Definition sample_streams_at_intervals (fuel : nat) (streams_data : list RawStream)
    (interval_seconds : Q) : outcome (dict string * dict (dict Q)) :=
  _sample_streams_common float_of_str fuel streams_data interval_seconds true true true.

Definition sample_streams_without_moving_filter (fuel : nat) (streams_data : list RawStream)
    (interval_seconds : Q) : outcome (dict string * dict (dict Q)) :=
  _sample_streams_common float_of_str fuel streams_data interval_seconds false false false.

(** The integer key that [activity_id] finds in a dict keyed by integers
    ([True == 1] and [7.0 == 7] hash alike; a list or a dict is unhashable). *)
Definition int_key (activity_id : pyval) : outcome (option Z) :=
  match activity_id with
  | VInt z => Ret (Some z)
  | VBool b => Ret (Some (if b then 1 else 0)%Z)
  | VFloat q => Ret (if Qeq_bool q (inject_Z (Qfloor q)) then Some (Qfloor q) else None)
  | VNone | VStr _ => Ret None
  | VList _ | VDict _ => Raise TypeError
  end.

(** [streams_dict.get(activity_id) if streams_dict else None] *)
Definition streams_of (streams_dict : option (gmap Z (list RawStream))) (activity_id : pyval)
  : outcome (option (list RawStream)) :=
  match streams_dict with
  | Some m =>
      if decide (m = ∅) then Ret None
      else key ← int_key activity_id; Ret (key ≫= (fun k => m !! k))
  | None => Ret None
  end.

Definition combine_activities_to_jsonl (fuel : nat) (activities : list (dict pyval))
    (streams_dict : option (gmap Z (list RawStream))) (interval_seconds : Q)
  : outcome (list (dict pyval)) :=
  mapM
    (fun activity =>
       let activity_id := get_or_none "id" activity in
       streams_data ← streams_of streams_dict activity_id;
       create_activity_jsonl_object float_of_str fuel activity streams_data interval_seconds)
    activities.
End EntryPoints.

(** ** Vocabulary of the further statements *)

(** The values of [data] at the positions where [mask] is truthy. *)
Fixpoint keep_where (mask data : list pyval) : list pyval :=
  match mask, data with
  | m :: mask', x :: data' =>
      if py_truthy m then x :: keep_where mask' data' else keep_where mask' data'
  | _, _ => []
  end.

(** [stream] can be stored under the key [k]. *)
Definition usable (k : string) (stream : RawStream) : bool :=
  match stream_type stream, stream_data stream with
  | Some ty, _ :: _ => String.eqb ty k
  | _, _ => false
  end.

(** A value that is a number or [None]. *)
Definition numeric_or_none (v : pyval) : bool := _is_numeric_value v || is_none v.

(** The keys a compact record can hold. *)
Definition compact_keys : list string := "sampling" :: csv_fields.

(** The scalar fields of a record, with the key of the activity they copy. *)
Definition scalar_fields : list (string * string) :=
  [("activity_id", "id"); ("name", "name"); ("type", "type");
   ("start_date", "start_date"); ("distance_m", "distance");
   ("moving_time_s", "moving_time"); ("elapsed_time_s", "elapsed_time");
   ("total_elevation_gain_m", "total_elevation_gain");
   ("average_speed_ms", "average_speed"); ("max_speed_ms", "max_speed");
   ("average_heartrate_bpm", "average_heartrate");
   ("max_heartrate_bpm", "max_heartrate"); ("calories", "calories")].

(** The values of a time series never decrease. *)
Definition nondecreasing (time_data : list Q) : Prop :=
  forall i j t_i t_j,
    i <= j -> time_data !! i = Some t_i -> time_data !! j = Some t_j -> (t_i <= t_j)%Q.

(** The StreamSet of an activity after conversion, the optional moving
    filter, the removal of the moving stream and cadence doubling. *)
Definition normalised_streams (streams_data : list RawStream) (filter_moving : bool)
  : dict (list pyval) :=
  _double_cadence_values
    (Dict.pop "moving"
       (if filter_moving then _filter_by_moving (_convert_streams_to_dict streams_data)
        else _convert_streams_to_dict streams_data)).

(** The fields of a compact record that depend on a source stream. *)
Definition field_sources : list (string * string) :=
  ("pace_s_per_km_csv", "distance") :: sampled_fields.

(** Whether the flags of the pipeline allow [field]. *)
Definition field_enabled (field : string) (include_pace include_velocity : bool) : bool :=
  if String.eqb field "pace_s_per_km_csv" then include_pace
  else if String.eqb field "velocity_smooth_ms_csv" then include_velocity
  else true.

(** What the scenario gives when sampled without the moving filter. *)
Definition scenario_result_unfiltered : dict string * dict (dict Q) :=
  Eval vm_compute in
    match sample_streams_without_moving_filter (fun _ => None) 3 scenario_streams 5 with
    | Ret r => r
    | _ => ([], [])
    end.

(** A value that is there and is not [None]. *)
Definition present (value : option pyval) : option pyval :=
  value ≫= (fun v => if is_none v then None else Some v).

(** What the scenario gives for an activity named as a walk. *)
Definition scenario_walk : dict string * dict (dict Q) :=
  Eval vm_compute in
    match sample_for_activity (fun _ => None) 3 scenario_streams 5 (VStr "Walk 2 (Polar)") with
    | Ret r => r
    | _ => ([], [])
    end.

(** The lines of a file that [load_jsonl_file] parses: stripped, the blank
    ones left out. *)
Definition nonblank_lines (content : string) : list string :=
  List.filter (fun line => negb (String.eqb line ""))
              (map py_strip (iter_lines (universal_newlines content))).

(** The record of an activity without streams: its scalar fields, renamed,
    those without a value left out. *)
Definition metadata_record (activity : dict pyval) : dict pyval :=
  List.filter (fun '(_, v) => negb (is_none v))
              (map (fun '(out, inp) => (out, get_or_none inp activity)) scalar_fields).

(** A batch file with blank lines and surrounding spaces. *)
Definition ragged_world : world :=
  {| files :=
       {[ "ragged.jsonl" :=
            String newline
              ("  7 " ++ String carriage_return
                 (String newline (String newline ("[null, true]" ++ String newline "   ")))) ]};
     events := [] |}.

(** The record [hr_record] after its heart rates were redrawn from 210..240. *)
Definition hr_record_modified : dict pyval :=
  Eval vm_compute in
    match fst (modify_dict Z lcg.randint 210 240 hr_record 1%Z) with
    | Ret modified_obj => modified_obj
    | _ => []
    end.

(** Two activities, the second without an identifier. *)
Definition two_activities : list (dict pyval) :=
  [ [("id", VInt 7); ("name", VStr "Running 3 (Apple JD)"); ("distance", VFloat 5000);
     ("map", VDict [("polyline", VStr "abc")])];
    [("name", VNone); ("calories", VInt 120)] ].

(** Streams as the API delivers them: every value a number or [None], and
    numbers only in a time stream. *)
Definition well_typed (streams_data : list RawStream) : Prop :=
  Forall (fun stream =>
            Forall (fun v => numeric_or_none v = true) (stream_data stream)
            /\ (stream_type stream = Some "time" ->
                Forall (fun v => _is_numeric_value v = true) (stream_data stream)))
         streams_data.

(** A name the classification accepts: a string or a falsy value. *)
Definition classifiable (activity_name : pyval) : bool :=
  match activity_name with
  | VStr _ => true
  | _ => negb (py_truthy activity_name)
  end.

(** The data of the raw stream that supplies the key [k]: the last stream
    of that type whose data is not empty. *)
Definition supplied (k : string) (streams_data : list RawStream) : option (list pyval) :=
  stream_data <$> last (List.filter (usable k) streams_data).

(** The series of a raw stream as the sampler indexes it: cut down to the
    positions where the athlete moved when the moving filter applies, the raw
    series otherwise. *)
Definition series_seen (filter_moving : bool) (streams_data : list RawStream)
    (data : list pyval) : list pyval :=
  match supplied "moving" streams_data with
  | Some moving_data =>
      if filter_moving && existsb py_truthy moving_data
      then keep_where moving_data data
      else data
  | None => data
  end.

(** Streams with gaps: the altitude stream is shorter than the time stream,
    the heart-rate and cadence streams hold a [None], and the athlete stood
    still at the second sample. *)
Definition gappy_streams : list RawStream :=
  [ {| stream_type := Some "time"; stream_data := map VInt [10; 11; 12; 13; 14; 15]%Z |};
    {| stream_type := Some "moving";
       stream_data := map VBool [true; false; true; true; true; true] |};
    {| stream_type := Some "distance";
       stream_data := [VInt 0; VInt 3; VInt 6; VNone; VInt 12; VInt 15] |};
    {| stream_type := Some "heartrate";
       stream_data := [VInt 100; VInt 101; VInt 102; VNone; VInt 104; VInt 105] |};
    {| stream_type := Some "cadence";
       stream_data := [VInt 80; VNone; VNone; VInt 83; VInt 84; VInt 85] |};
    {| stream_type := Some "altitude"; stream_data := [VFloat (15 # 2)] |} ].

(** What the pipeline gives for them on a one-second grid, moving filter on. *)
Definition gappy_result : dict string * dict (dict Q) :=
  Eval vm_compute in
    match _sample_streams_common (fun _ => None) 6 gappy_streams 1 true true true with
    | Ret r => r
    | _ => ([], [])
    end.

(** Integers small enough for binary64 to hold every partial sum of them
    exactly: for such values the mean the code computes in floating point,
    truncated, is the exact mean truncated. *)
Definition float_exact (values : list Z) : Prop :=
  Forall (fun x => (Z.abs x * Z.of_nat (length values) < 2 ^ 53)%Z) values.

(** [modified] is [obj] with its heart-rate scalars refreshed: when [obj] is
    a record with a heart-rate series of at least one value, [modified] is a
    record whose series is a list [new_hr] of integers, whose average, if
    [obj] has one, is the quotient of their sum by their count truncated
    toward zero, and whose maximum, if [obj] has one, is the largest of them. *)
Definition scalars_refreshed (obj modified : pyval) : Prop :=
  forall record streams_compact hr_csv,
    obj = VDict record ->
    Dict.get "streams_compact" record = Some (VDict streams_compact) ->
    Dict.get "hr_bpm_csv" streams_compact = Some (VStr hr_csv) ->
    hr_tokens hr_csv <> [] ->
    exists record' streams_compact' new_hr,
      modified = VDict record'
      /\ length new_hr = length (hr_tokens hr_csv)
      /\ Dict.get "streams_compact" record' = Some (VDict streams_compact')
      /\ Dict.get "hr_bpm_csv" streams_compact'
         = Some (VStr (py_join "," (map str_of_int new_hr)))
      /\ (float_exact new_hr ->
          Dict.mem "average_heartrate_bpm" record = true ->
          Dict.get "average_heartrate_bpm" record'
          = Some (VInt (Z.quot (sum_of new_hr) (Z.of_nat (length new_hr)))))
      /\ (Dict.mem "max_heartrate_bpm" record = true ->
          exists m, Dict.get "max_heartrate_bpm" record' = Some (VInt m)
                    /\ In m new_hr /\ Forall (fun x => (x <= m)%Z) new_hr).

(** A batch file holding [sample_batch]. *)
Definition batch_world : world :=
  save_jsonl_file mini_json.dumps sample_batch "activities.jsonl" empty_world.

(** A batch file holding the record with a missing heart-rate sample. *)
Definition gap_world : world :=
  save_jsonl_file mini_json.dumps [VDict gap_record] "gaps.jsonl" empty_world.
(** * Properties *)

(** ** Evaluation of the embedding on small inputs *)

Example py_round_ties : map py_round [1 # 2; 3 # 2; 5 # 2; -(1 # 2); 7 # 4]%Q = [0; 2; 2; 0; 2]%Z.
Proof. reflexivity. Qed.

Example format_2f_ex : map format_2f [3 # 1; 1 # 3; -(1 # 1000); 12346 # 1000]%Q
                       = ["3.00"; "0.33"; "-0.00"; "12.35"].
Proof. vm_compute. reflexivity. Qed.

Example py_split_ex : py_split comma "140,,160" = ["140"; ""; "160"].
Proof. reflexivity. Qed.

Example percentile_ex :
  np.percentile [1; 2; 3; 4]%Q [5; 25; 50; 75; 95]%Z
  = [23 # 20; 7 # 4; 5 # 2; 13 # 4; 77 # 20]%Q.
Proof. vm_compute. reflexivity. Qed.

Example find_sampling_indices_ex :
  _find_sampling_indices 10 (map inject_Z [0; 1; 2; 3; 4; 5; 6; 7; 8; 9; 10]%Z) 5%Q
  = Ret [0; 5; 10]%nat.
Proof. vm_compute. reflexivity. Qed.

Example iter_lines_ex :
  iter_lines
    (universal_newlines
       ("a" ++ String carriage_return
                 (String newline ("b" ++ String newline (String newline "c")))))
  = [String "a" (String newline ""); String "b" (String newline "");
     String newline ""; "c"].
Proof. reflexivity. Qed.

Example mini_json_ex :
  let r := VDict [("activity_id", VInt 7); ("name", VStr "Rest 12 (Apple JD)");
                  ("max_speed_ms", VFloat (13 # 4)); ("p5", VFloat (-(4203 # 20)));
                  ("streams_compact", VDict [("hr_bpm_csv", VStr "140,,160")]);
                  ("tags", VList [VNone; VBool true; VInt (-4)])] in
  mini_json.loads (mini_json.dumps r) = Some r
  /\ String.length (mini_json.dumps r) = 158%nat.
Proof. vm_compute. split; reflexivity. Qed.

(** ** The outcome monad *)

Lemma bind_Ret {A B} (m : outcome A) (f : A -> outcome B) (b : B) :
  m ≫= f = Ret b <-> exists a, m = Ret a /\ f a = Ret b.
Proof.
  destruct m as [a| |]; simpl; split; try (intros [? [? ?]]); try discriminate; eauto.
  congruence.
Qed.

Lemma mapM_Ret {A B} (f : A -> outcome B) (l : list A) (k : list B) :
  mapM f l = Ret k <-> Forall2 (fun x y => f x = Ret y) l k.
Proof.
  revert k. induction l as [|x l IH]; intros k; simpl.
  - split.
    + intros [= <-]. constructor.
    + intros H. inversion H. reflexivity.
  - rewrite bind_Ret. split.
    + intros (y & Hy & Hk). apply bind_Ret in Hk as (ys & Hys & [= <-]).
      constructor; [assumption | by apply IH].
    + intros H. inversion H as [|? y ? ys Hy Hys]; subst.
      exists y. split; [assumption|]. apply bind_Ret. exists ys.
      split; [by apply IH | reflexivity].
Qed.

Lemma mapM_Ret_length {A B} (f : A -> outcome B) (l : list A) (k : list B) :
  mapM f l = Ret k -> length k = length l.
Proof. intros H%mapM_Ret. symmetry. eapply Forall2_length, H. Qed.

Lemma mapM_total {A B} (f : A -> outcome B) (l : list A) :
  Forall (fun x => exists y, f x = Ret y) l -> exists k, mapM f l = Ret k.
Proof.
  induction 1 as [|x l [y Hy] _ [k Hk]]; simpl.
  - eexists; reflexivity.
  - exists (y :: k). rewrite Hy. simpl. rewrite Hk. reflexivity.
Qed.

(** ** The resampling engine *)

Lemma Qle_bool_false (x y : Q) : Qle_bool x y = false <-> (y < x)%Q.
Proof.
  split.
  - intros H. apply Qnot_le_lt. intros Hle%Qle_bool_iff. congruence.
  - intros H. destruct (Qle_bool x y) eqn:E; [|reflexivity].
    apply Qle_bool_iff in E. lra.
Qed.

Lemma Qltb_true (x y : Q) : Qltb x y = true <-> (x < y)%Q.
Proof. unfold Qltb. rewrite negb_true_iff. apply Qle_bool_false. Qed.

(** The loop stops: each iteration moves [current_time] one interval
    closer to [max_time]. *)
Lemma target_times_loop_stops (fuel : nat) (current_time max_time interval_seconds : Q) :
  (0 < interval_seconds)%Q ->
  (max_time - current_time < inject_Z (Z.of_nat fuel) * interval_seconds)%Q ->
  exists target_times,
    target_times_loop fuel current_time max_time interval_seconds = Ret target_times.
Proof.
  intros Hpos. revert current_time.
  induction fuel as [|fuel IH]; intros current_time Hfuel; simpl.
  - destruct (Qle_bool current_time max_time) eqn:E; [|eauto].
    apply Qle_bool_iff in E. change (inject_Z (Z.of_nat 0)) with 0%Q in Hfuel. lra.
  - destruct (Qle_bool current_time max_time) eqn:E; [|eauto].
    destruct (IH (current_time + interval_seconds)%Q) as [rest Hrest].
    + rewrite Nat2Z.inj_succ, <- Z.add_1_r, inject_Z_plus in Hfuel.
      change (inject_Z 1) with 1%Q in Hfuel. lra.
    + rewrite Hrest. simpl. eauto.
Qed.

(** More fuel does not change a finished loop. *)
Lemma target_times_loop_mono (fuel fuel' : nat) (current_time max_time interval_seconds : Q)
    (target_times : list Q) :
  target_times_loop fuel current_time max_time interval_seconds = Ret target_times ->
  fuel <= fuel' ->
  target_times_loop fuel' current_time max_time interval_seconds = Ret target_times.
Proof.
  revert fuel' current_time target_times.
  induction fuel as [|fuel IH]; intros fuel' current_time target_times; simpl.
  - destruct (Qle_bool current_time max_time) eqn:E; [discriminate|].
    intros [= <-] _. destruct fuel'; simpl; rewrite E; reflexivity.
  - destruct (Qle_bool current_time max_time) eqn:E.
    + intros (rest & Hrest & [= <-])%bind_Ret Hle.
      destruct fuel' as [|fuel']; [lia|]. simpl. rewrite E.
      rewrite (IH fuel' _ rest); [reflexivity | assumption | lia].
    + intros [= <-] _. destruct fuel'; simpl; rewrite E; reflexivity.
Qed.

Lemma enough_fuel_spec (max_time interval_seconds : Q) :
  (0 < interval_seconds)%Q ->
  (max_time - 0 < inject_Z (Z.of_nat (enough_fuel max_time interval_seconds)) * interval_seconds)%Q.
Proof.
  intros Hpos. unfold enough_fuel.
  pose proof (Qlt_floor (max_time / interval_seconds)) as Hfl.
  set (n := (Qfloor (max_time / interval_seconds) + 1)%Z) in *.
  assert (Hmax : (max_time < inject_Z n * interval_seconds)%Q).
  { assert (Heq : (max_time == max_time / interval_seconds * interval_seconds)%Q)
      by (field; lra).
    rewrite Heq at 1. apply Qmult_lt_compat_r; assumption. }
  destruct (Z.le_gt_cases 0 n) as [Hn|Hn].
  - rewrite Z2Nat.id by assumption. lra.
  - assert (Hneg : (inject_Z n <= 0)%Q).
    { change 0%Q with (inject_Z 0). rewrite <- Zle_Qle. lia. }
    replace (Z.to_nat n) with 0%nat by lia. change (inject_Z (Z.of_nat 0)) with 0%Q.
    assert (inject_Z n * interval_seconds <= 0)%Q by nra. lra.
Qed.

Lemma closest_scan_lt (target_time : Q) (rest : list Q) (best_idx : nat) (best_key : Q) (i : nat) :
  best_idx < i ->
  closest_scan target_time best_idx best_key i rest < i + length rest.
Proof.
  revert best_idx best_key i.
  induction rest as [|t rest IH]; intros best_idx best_key i Hlt;
    cbn [closest_scan length].
  - lia.
  - destruct (Qltb _ best_key).
    + pose proof (IH i (Qabs (t - target_time)) (S i) ltac:(lia)). lia.
    + pose proof (IH best_idx best_key (S i) ltac:(lia)). lia.
Qed.

Lemma closest_idx_lt (time_data : list Q) (target_time : Q) (i : nat) :
  closest_idx time_data target_time = Ret i -> i < length time_data.
Proof.
  destruct time_data as [|t0 rest]; cbn [closest_idx length]; [discriminate|].
  intros [= <-].
  exact (closest_scan_lt target_time rest 0 (Qabs (t0 - target_time)) 1 ltac:(lia)).
Qed.

Lemma closest_idx_total (time_data : list Q) (target_time : Q) :
  time_data <> [] -> exists i, closest_idx time_data target_time = Ret i.
Proof. destruct time_data; [congruence|]. simpl. eauto. Qed.

Lemma unique_from_spec (sampled_indices : list nat) (seen : gset nat) :
  NoDup (unique_from seen sampled_indices)
  /\ forall i, i ∈ unique_from seen sampled_indices -> i ∈ sampled_indices /\ i ∉ seen.
Proof.
  revert seen. induction sampled_indices as [|idx rest IH]; intros seen; simpl.
  - split; [constructor | intros i Hi; inversion Hi].
  - destruct (decide (idx ∈ seen)) as [Hin|Hnin].
    + destruct (IH seen) as [Hnd Hsub]. split; [assumption|].
      intros i Hi. destruct (Hsub i Hi). split; [by constructor | assumption].
    + destruct (IH ({[idx]} ∪ seen)) as [Hnd Hsub]. split.
      * apply NoDup_cons. split; [|assumption].
        intros Hi. destruct (Hsub idx Hi) as [_ Hnot].
        apply Hnot, elem_of_union_l, elem_of_singleton. reflexivity.
      * intros i [->|Hi]%elem_of_cons; [split; [by left | assumption]|].
        destruct (Hsub i Hi) as [Hrest Hnot]. split; [by right|].
        intros Hseen. apply Hnot, elem_of_union_r, Hseen.
Qed.

Lemma last_Some_nonempty {A} (l : list A) (x : A) : last l = Some x -> l <> [].
Proof. destruct l; [discriminate | congruence]. Qed.

(** The indices returned once the targets are known. *)
Lemma find_sampling_indices_sound (fuel : nat) (time_data : list Q) (interval_seconds : Q)
    (unique_indices : list nat) :
  _find_sampling_indices fuel time_data interval_seconds = Ret unique_indices ->
  Forall (fun i => i < length time_data) unique_indices /\ NoDup unique_indices.
Proof.
  unfold _find_sampling_indices. destruct (last time_data) as [max_time|].
  - intros (target_times & _ & (sampled & Hs & [= <-])%bind_Ret)%bind_Ret.
    destruct (unique_from_spec sampled ∅) as [Hnd Hsub]. split; [|assumption].
    apply Forall_forall. intros i Hi. destruct (Hsub i Hi) as [Hin _].
    apply mapM_Ret in Hs.
    destruct (proj1 (list_elem_of_lookup _ _) Hin) as [j Hj].
    destruct (Forall2_lookup_r _ _ _ _ _ Hs Hj) as (t & _ & Ht).
    eapply closest_idx_lt, Ht.
  - intros [= <-]. split; constructor.
Qed.


Lemma single_target (fuel : nat) (max_time interval_seconds : Q) :
  (0 <= max_time)%Q ->
  (max_time < interval_seconds)%Q ->
  1 <= fuel ->
  target_times_loop fuel 0 max_time interval_seconds = Ret [0%Q].
Proof.
  intros Hnonneg Hlt Hfuel. destruct fuel as [|fuel]; [lia|].
  cbn [target_times_loop]. apply Qle_bool_iff in Hnonneg. rewrite Hnonneg.
  assert (Hstop : Qle_bool (0 + interval_seconds) max_time = false)
    by (apply Qle_bool_false; lra).
  assert (Hrest : target_times_loop fuel (0 + interval_seconds) max_time interval_seconds = Ret []).
  { destruct fuel; cbn [target_times_loop]; rewrite Hstop; reflexivity. }
  rewrite Hrest. reflexivity.
Qed.

Lemma find_sampling_indices_single_target
    (fuel : nat) (time_data : list Q) (max_time interval_seconds : Q) :
  last time_data = Some max_time ->
  (0 <= max_time)%Q ->
  (max_time < interval_seconds)%Q ->
  1 <= fuel ->
  _find_sampling_indices fuel time_data interval_seconds
  = (i ← closest_idx time_data 0; Ret [i]).
Proof.
  intros Hlast Hnonneg Hlt Hfuel. unfold _find_sampling_indices.
  rewrite Hlast, (single_target _ _ _ Hnonneg Hlt Hfuel).
  cbn [mbind outcome_bind mapM].
  destruct (closest_idx time_data 0) as [i| |]; reflexivity.
Qed.

(** C5, as amended. When the last observed time is not negative and the
    interval is strictly larger than it, the only target timestamp is 0,
    and exactly one sample index is returned. *)
Theorem one_sample_when_interval_exceeds_duration
    (fuel : nat) (time_data : list Q) (max_time interval_seconds : Q) :
  last time_data = Some max_time ->
  (0 <= max_time)%Q ->
  (max_time < interval_seconds)%Q ->
  1 <= fuel ->
  exists i, _find_sampling_indices fuel time_data interval_seconds = Ret [i].
Proof.
  intros Hlast Hnonneg Hlt Hfuel.
  rewrite (find_sampling_indices_single_target _ _ _ _ Hlast Hnonneg Hlt Hfuel).
  destruct (closest_idx_total time_data 0) as [i Hi];
    [eapply last_Some_nonempty, Hlast|].
  rewrite Hi. exists i. reflexivity.
Qed.

Lemma one_sample_when_interval_exceeds_duration_witness :
  exists i, _find_sampling_indices 1 [0; 1; 2; 3]%Q 5 = Ret [i].
Proof.
  apply (one_sample_when_interval_exceeds_duration 1 [0; 1; 2; 3]%Q 3 5);
    [reflexivity | discriminate | reflexivity | lia].
Defined.

Lemma closest_scan_keeps_exact (rest : list Q) (best_idx : nat) (best_key : Q) (i : nat) :
  (best_key == 0)%Q -> closest_scan 0 best_idx best_key i rest = best_idx.
Proof.
  intros Hkey. revert i. induction rest as [|t rest IH]; intros i; cbn [closest_scan].
  - reflexivity.
  - destruct (Qltb (Qabs (t - 0)) best_key) eqn:E; [|apply IH].
    apply Qltb_true in E. pose proof (Qabs_nonneg (t - 0)). lra.
Qed.

(** On a rebased series that one index is the first position. *)
Lemma one_sample_is_first (fuel : nat) (t0 : Q) (rest : list Q) (max_time interval_seconds : Q) :
  (t0 == 0)%Q ->
  last (t0 :: rest) = Some max_time ->
  (0 <= max_time)%Q ->
  (max_time < interval_seconds)%Q ->
  1 <= fuel ->
  _find_sampling_indices fuel (t0 :: rest) interval_seconds = Ret [0].
Proof.
  intros Ht0 Hlast Hnonneg Hlt Hfuel.
  rewrite (find_sampling_indices_single_target _ _ _ _ Hlast Hnonneg Hlt Hfuel).
  cbn [closest_idx]. rewrite closest_scan_keeps_exact; [reflexivity|].
  assert (Heq : (t0 - 0 == 0)%Q) by lra. rewrite Heq. reflexivity.
Qed.

(** C5, as stated, fails on a rebased series whose last time is negative:
    no target timestamp is produced and no index is returned. *)
Lemma no_sample_when_last_time_negative :
  ~ (forall (time_data : list Q) (max_time interval_seconds : Q),
       head time_data = Some 0%Q ->
       last time_data = Some max_time ->
       (max_time < interval_seconds)%Q ->
       exists fuel i, _find_sampling_indices fuel time_data interval_seconds = Ret [i]).
Proof.
  intros H.
  destruct (H [0; -2]%Q (-2)%Q 5%Q eq_refl eq_refl eq_refl) as (fuel & i & Hi).
  destruct fuel; discriminate Hi.
Qed.



(** ** The per-sample pace series *)

Lemma py_index_lookup {A} (l : list A) (i : nat) (x : A) :
  l !! i = Some x -> py_index l i = Ret x.
Proof. unfold py_index. intros ->. reflexivity. Qed.





(** Paces that differ from one sample to the next: 5 s over 50 m, again
    5 s over 50 m seen from position 1, then 5 s over 25 m; a step without
    progress and a missing distance give empty tokens. *)
Example calculate_pace_values_ex :
  _calculate_pace_values [0; 5; 10; 15; 20]%Q [VInt 0; VInt 50; VInt 75; VInt 75; VNone]
  = Ret ["100"; "100"; "200"; ""; ""].
Proof. vm_compute. reflexivity. Qed.

(** ** Dictionaries *)

Section DictFacts.
Context {V : Type}.
Implicit Types (d : dict V) (k : string) (v : V).

Lemma get_set_eq k v d : Dict.get k (Dict.set k v d) = Some v.
Proof.
  induction d as [|[k' v'] d IH]; cbn [Dict.set Dict.get].
  - rewrite String.eqb_refl. reflexivity.
  - destruct (String.eqb_spec k k') as [->|Hne]; cbn [Dict.get].
    + rewrite String.eqb_refl. reflexivity.
    + destruct (String.eqb_spec k k'); [contradiction | exact IH].
Qed.

Lemma get_set_ne k k' v d : k <> k' -> Dict.get k (Dict.set k' v d) = Dict.get k d.
Proof.
  intros Hne. induction d as [|[k0 v0] d IH]; cbn [Dict.set Dict.get].
  - destruct (String.eqb_spec k k'); [contradiction | reflexivity].
  - destruct (String.eqb_spec k' k0) as [->|Hne0]; cbn [Dict.get].
    + destruct (String.eqb_spec k k0); [contradiction | reflexivity].
    + destruct (String.eqb_spec k k0); [reflexivity | exact IH].
Qed.

Lemma get_pop_eq k d : Dict.get k (Dict.pop k d) = None.
Proof.
  induction d as [|[k' v'] d IH]; cbn [Dict.pop Dict.get]; [reflexivity|].
  destruct (String.eqb_spec k k') as [->|Hne]; [exact IH|].
  cbn [Dict.get]. destruct (String.eqb_spec k k'); [contradiction | exact IH].
Qed.

Lemma get_pop_ne k k' d : k <> k' -> Dict.get k (Dict.pop k' d) = Dict.get k d.
Proof.
  intros Hne. induction d as [|[k0 v0] d IH]; cbn [Dict.pop Dict.get]; [reflexivity|].
  destruct (String.eqb_spec k' k0) as [->|Hne0].
  - destruct (String.eqb_spec k k0); [contradiction | exact IH].
  - cbn [Dict.get]. destruct (String.eqb_spec k k0); [reflexivity | exact IH].
Qed.

Lemma get_Some_In k v d : Dict.get k d = Some v -> In (k, v) d.
Proof.
  induction d as [|[k' v'] d IH]; cbn [Dict.get]; [discriminate|].
  destruct (String.eqb_spec k k') as [->|Hne].
  - intros [= ->]. left. reflexivity.
  - intros H. right. exact (IH H).
Qed.

Lemma In_set k v k' v' d :
  In (k, v) (Dict.set k' v' d) -> (k = k' /\ v = v') \/ In (k, v) d.
Proof.
  induction d as [|[k0 v0] d IH]; cbn [Dict.set].
  - intros [[= -> ->]|[]]. left. split; reflexivity.
  - destruct (String.eqb_spec k' k0) as [->|Hne].
    + intros [[= -> ->]|H]; [left; split; reflexivity | right; right; exact H].
    + intros [H|H]; [right; left; exact H|].
      destruct (IH H) as [?|?]; [left; assumption | right; right; assumption].
Qed.

Lemma mem_true k d : Dict.mem k d = true <-> exists v, Dict.get k d = Some v.
Proof.
  unfold Dict.mem. destruct (Dict.get k d) as [v|].
  - split; [eauto | reflexivity].
  - split; [discriminate | intros [? [=]]].
Qed.
End DictFacts.

Lemma get_map_values {V W : Type} (f : V -> W) (k : string) (d : dict V) :
  Dict.get k (map (fun '(k', v) => (k', f v)) d) = f <$> Dict.get k d.
Proof.
  induction d as [|[k' v'] d IH]; cbn [map Dict.get]; [reflexivity|].
  destruct (String.eqb k k'); [reflexivity | exact IH].
Qed.

(** ** The moving filter *)

Lemma truthy_indices_all_falsy (moving_data : list pyval) (idx : nat) :
  Forall (fun value => py_truthy value = false) moving_data ->
  truthy_indices idx moving_data = [].
Proof.
  intros H. revert idx. induction H as [|value rest Hv _ IH]; intros idx;
    cbn [truthy_indices]; [reflexivity|].
  rewrite Hv. apply IH.
Qed.

(** C2, as amended. With a moving stream whose values are all falsy, the
    filter returns the empty StreamSet when at least one value is
    meaningful (neither [None] nor the empty string), and returns the
    StreamSet unchanged otherwise. *)
Theorem filter_by_moving_all_falsy (streams_dict : dict (list pyval)) (moving_data : list pyval) :
  Dict.get "moving" streams_dict = Some moving_data ->
  Forall (fun value => py_truthy value = false) moving_data ->
  _filter_by_moving streams_dict
  = if existsb is_meaningful moving_data then [] else streams_dict.
Proof.
  intros Hget Hfalsy. unfold _filter_by_moving. rewrite Hget.
  destruct (existsb is_meaningful moving_data); cbn [negb]; [|reflexivity].
  rewrite (truthy_indices_all_falsy _ _ Hfalsy). reflexivity.
Qed.

Lemma filter_by_moving_all_falsy_witness :
  _filter_by_moving [("moving", [VBool false; VInt 0; VNone]); ("time", [VInt 3; VInt 4; VInt 5])]
  = [].
Proof.
  apply (filter_by_moving_all_falsy
           [("moving", [VBool false; VInt 0; VNone]); ("time", [VInt 3; VInt 4; VInt 5])]
           [VBool false; VInt 0; VNone]).
  - reflexivity.
  - repeat constructor.
Defined.

(** C2, as stated, fails when the moving values are all [None] or empty:
    the StreamSet passes through unchanged. *)
Lemma filter_by_moving_keeps_null_mask :
  ~ (forall (streams_dict : dict (list pyval)) (moving_data : list pyval),
       Dict.get "moving" streams_dict = Some moving_data ->
       Forall (fun value => py_truthy value = false) moving_data ->
       _filter_by_moving streams_dict = []).
Proof.
  intros H.
  specialize (H [("moving", [VNone; VStr ""]); ("time", [VInt 0; VInt 1])]
                [VNone; VStr ""] eq_refl).
  discriminate H. repeat constructor.
Qed.

(** ** Comma-separated fields *)

Lemma all_chars_app (p : ascii -> bool) (s1 s2 : string) :
  all_chars p (s1 ++ s2)%string = all_chars p s1 && all_chars p s2.
Proof.
  induction s1 as [|c s1 IH]; simpl; [reflexivity|].
  rewrite IH, andb_assoc. reflexivity.
Qed.

Lemma all_chars_uint (p : ascii -> bool) (d : Decimal.uint) :
  all_chars p "0123456789" = true -> all_chars p (NilEmpty.string_of_uint d) = true.
Proof.
  cbn [all_chars]. intros H. repeat (apply andb_prop in H as [? H]).
  induction d; cbn [NilEmpty.string_of_uint all_chars];
    rewrite ?IHd, ?andb_true_r; auto.
Qed.

Lemma all_chars_str_of_int (p : ascii -> bool) (z : Z) :
  all_chars p "-0123456789" = true -> all_chars p (str_of_int z) = true.
Proof.
  intros H. change "-0123456789" with (String "-" "0123456789") in H.
  cbn [all_chars] in H. apply andb_prop in H as [Hminus Hdigits].
  assert (Hu : forall d, all_chars p (NilZero.string_of_uint d) = true).
  { intros d. unfold NilZero.string_of_uint.
    destruct d; try (apply all_chars_uint; exact Hdigits).
    cbn [all_chars]. apply andb_prop in Hdigits as [-> _]. reflexivity. }
  unfold str_of_int, NilZero.string_of_int.
  destruct (Z.to_int z); [apply Hu|].
  cbn [all_chars]. rewrite Hminus. apply Hu.
Qed.

Lemma no_comma_str_of_int (z : Z) : no_comma (str_of_int z) = true.
Proof. apply all_chars_str_of_int. reflexivity. Qed.

Lemma no_comma_format_2f (x : Q) : no_comma (format_2f x) = true.
Proof.
  unfold format_2f. cbv zeta. unfold no_comma. rewrite !all_chars_app.
  pose proof no_comma_str_of_int as Hint. unfold no_comma in Hint. rewrite !Hint.
  destruct (Qlt_le_dec x 0), (_ <? 10)%Z; reflexivity.
Qed.

Lemma no_comma_pace_token (dt dd : Q) : no_comma (pace_token dt dd) = true.
Proof.
  unfold pace_token. destruct (_ && _); [apply no_comma_str_of_int | reflexivity].
Qed.

Lemma py_split_no_comma (s : string) : no_comma s = true -> py_split comma s = [s].
Proof.
  induction s as [|c s IH]; cbn [py_split no_comma all_chars]; [reflexivity|].
  intros [Hc Hs]%andb_prop. apply negb_true_iff in Hc. rewrite Hc.
  rewrite (IH Hs). reflexivity.
Qed.

Lemma py_split_cons (s rest : string) :
  no_comma s = true ->
  py_split comma (s ++ "," ++ rest)%string = s :: py_split comma rest.
Proof.
  induction s as [|c s IH]; simpl.
  - intros _. reflexivity.
  - intros [Hc Hs]%andb_prop. apply negb_true_iff in Hc. rewrite Hc.
    simpl in IH. rewrite (IH Hs). reflexivity.
Qed.

(** Splitting a joined list of comma-free tokens gives the tokens back. *)
Lemma py_split_join (tokens : list string) :
  tokens <> [] ->
  Forall (fun t => no_comma t = true) tokens ->
  py_split comma (py_join "," tokens) = tokens.
Proof.
  intros Hne Hall. induction Hall as [|t rest Ht Hrest IH]; [congruence|].
  unfold py_join in *. destruct rest as [|t' rest'].
  - cbn [String.concat]. apply py_split_no_comma, Ht.
  - change (String.concat "," (t :: t' :: rest'))
      with (t ++ "," ++ String.concat "," (t' :: rest'))%string.
    rewrite (py_split_cons _ _ Ht), IH; [reflexivity | discriminate].
Qed.

Lemma format_rounded_no_comma (v : pyval) (tok : string) :
  format_rounded v = Ret tok -> no_comma tok = true.
Proof.
  destruct v; cbn [format_rounded]; intros [= <-];
    try apply no_comma_str_of_int; reflexivity.
Qed.

Lemma format_velocity_no_comma (float_of_str : string -> option Q) (v : pyval) (tok : string) :
  format_velocity float_of_str v = Ret tok -> no_comma tok = true.
Proof.
  unfold format_velocity. destruct (is_none v); [intros [= <-]; reflexivity|].
  intros (q & _ & [= <-])%bind_Ret. apply no_comma_format_2f.
Qed.

(** The tokens of a formatted stream: one per sampled value, the empty
    token exactly at the missing values when the formatter never returns it. *)
Lemma format_sampled_values_tokens (values : list pyval)
    (format_func : pyval -> outcome string) (csv : string) :
  values <> [] ->
  (forall v tok, format_func v = Ret tok -> no_comma tok = true) ->
  _format_sampled_values values format_func = Ret csv ->
  length (py_split comma csv) = length values
  /\ forall j, values !! j = Some VNone -> py_split comma csv !! j = Some "".
Proof.
  intros Hne Hfmt. unfold _format_sampled_values.
  intros (formatted & Hf & [= <-])%bind_Ret.
  pose proof (mapM_Ret_length _ _ _ Hf) as Hlen.
  apply mapM_Ret in Hf.
  rewrite py_split_join.
  - split; [assumption|]. intros j Hj.
    destruct (Forall2_lookup_l _ _ _ _ _ Hf Hj) as (tok & Htok & Htokv).
    cbn [is_none] in Htokv. injection Htokv as <-. exact Htok.
  - destruct formatted; [destruct values; [congruence | discriminate] | discriminate].
  - apply Forall_forall. intros tok Htok.
    destruct (proj1 (list_elem_of_lookup _ _) Htok) as [j Hj].
    destruct (Forall2_lookup_r _ _ _ _ _ Hf Hj) as (v & _ & Hv).
    destruct (is_none v); [injection Hv as <-; reflexivity | eapply Hfmt, Hv].
Qed.

Lemma sample_stream_data_length (data : list pyval) (indices : list nat) :
  length (_sample_stream_data data indices) = length indices.
Proof. unfold _sample_stream_data. apply length_map. Qed.

(** A sampled value is missing when the index is beyond the stream or the
    stream holds [None] there. *)
Lemma sample_stream_data_missing (data : list pyval) (indices : list nat) (j i : nat) :
  indices !! j = Some i ->
  data !! i = None \/ data !! i = Some VNone ->
  _sample_stream_data data indices !! j = Some VNone.
Proof.
  intros Hj Hmissing. unfold _sample_stream_data.
  rewrite list_lookup_fmap, Hj. cbn [fmap option_fmap option_map].
  destruct Hmissing as [-> | ->]; reflexivity.
Qed.

(** ** Alignment of the compact record *)

Lemma aligned_set (n : nat) (result : dict string) (k v : string) :
  aligned n result ->
  length (py_split comma v) = n ->
  aligned n (Dict.set k v result).
Proof.
  intros Hres Hv field csv Hfield Hget.
  destruct (String.eqb_spec field k) as [->|Hne].
  - rewrite get_set_eq in Hget. injection Hget as <-. exact Hv.
  - rewrite get_set_ne in Hget by exact Hne. eapply Hres; eassumption.
Qed.

Lemma marks_missing_set (streams_dict : dict (list pyval)) (unique_indices : list nat)
    (result : dict string) (k v : string) :
  marks_missing streams_dict unique_indices result ->
  (forall source data j i,
     In (k, source) sampled_fields ->
     Dict.get source streams_dict = Some data ->
     unique_indices !! j = Some i -> missing_at data i ->
     py_split comma v !! j = Some "") ->
  marks_missing streams_dict unique_indices (Dict.set k v result).
Proof.
  intros Hres Hv field source csv data j i Hfield Hget Hsrc Hj Hmiss.
  destruct (String.eqb_spec field k) as [->|Hne].
  - rewrite get_set_eq in Hget. injection Hget as <-. eapply Hv; eassumption.
  - rewrite get_set_ne in Hget by exact Hne. eapply Hres; eassumption.
Qed.

(** Inverts the first step of a computation known to return. *)
Ltac invert_ret H :=
  repeat match type of H with
    | mbind _ _ = Ret _ =>
        let x := fresh "x" in let Hx := fresh "Hx" in
        apply bind_Ret in H as (x & Hx & H)
    | (if ?b then _ else _) = Ret _ => destruct b eqn:?
    | Ret _ = Ret _ => injection H as H
    | Raise _ = Ret _ => discriminate H
    | OutOfFuel = Ret _ => discriminate H
    end.

Lemma pace_values_no_comma (sampled_time : list Q) (sampled_distance : list pyval)
    (pace_values : list string) :
  _calculate_pace_values sampled_time sampled_distance = Ret pace_values ->
  length pace_values = length sampled_time
  /\ Forall (fun tok => no_comma tok = true) pace_values.
Proof.
  unfold _calculate_pace_values. intros H.
  pose proof (mapM_Ret_length _ _ _ H) as Hlen. rewrite length_seq in Hlen.
  split; [assumption|]. apply mapM_Ret in H.
  apply Forall_forall. intros tok Htok.
  destruct (proj1 (list_elem_of_lookup _ _) Htok) as [j Hj].
  destruct (Forall2_lookup_r _ _ _ _ _ H Hj) as (i & _ & Hi).
  invert_ret Hi; subst; try reflexivity; apply no_comma_pace_token.
Qed.

Lemma sampled_field_tokens (streams_dict : dict (list pyval)) (unique_indices : list nat)
    (format_func : pyval -> outcome string) (field source : string)
    (data : list pyval) (csv : string) :
  unique_indices <> [] ->
  (forall v tok, format_func v = Ret tok -> no_comma tok = true) ->
  Dict.get source streams_dict = Some data ->
  (forall source', In (field, source') sampled_fields -> source' = source) ->
  _format_sampled_values (_sample_stream_data data unique_indices) format_func = Ret csv ->
  length (py_split comma csv) = length unique_indices
  /\ (forall source' data' j i,
        In (field, source') sampled_fields ->
        Dict.get source' streams_dict = Some data' ->
        unique_indices !! j = Some i -> missing_at data' i ->
        py_split comma csv !! j = Some "").
Proof.
  intros Hne Hfmt Hsrc Honly Hcsv.
  assert (Hvalues : _sample_stream_data data unique_indices <> [])
    by (destruct unique_indices; [congruence | discriminate]).
  destruct (format_sampled_values_tokens _ _ _ Hvalues Hfmt Hcsv) as [Hlen Hmiss].
  rewrite sample_stream_data_length in Hlen. split; [assumption|].
  intros source' data' j i Hin Hsrc' Hj Hmissing.
  rewrite (Honly _ Hin), Hsrc in Hsrc'. injection Hsrc' as <-.
  eapply Hmiss, sample_stream_data_missing; eassumption.
Qed.

Lemma source_of_field (field source source' : string) :
  In (field, source) sampled_fields ->
  In (field, source') sampled_fields -> source' = source.
Proof.
  unfold sampled_fields. cbn [In].
  intros [H|[H|[H|[H|[]]]]] [H'|[H'|[H'|[H'|[]]]]]; congruence.
Qed.

Lemma build_compact_aligned (float_of_str : string -> option Q)
    (streams_dict : dict (list pyval)) (time_data : list Q) (unique_indices : list nat)
    (interval_seconds : Q) (include_pace include_velocity : bool) (compact : dict string) :
  unique_indices <> [] ->
  build_compact float_of_str streams_dict time_data unique_indices interval_seconds
                include_pace include_velocity = Ret compact ->
  aligned (length unique_indices) compact
  /\ marks_missing streams_dict unique_indices compact.
Proof.
  intros Hne H. unfold build_compact in H.
  apply bind_Ret in H as (sampled_time & Htime & H).
  pose proof (mapM_Ret_length _ _ _ Htime) as Hlen.
  apply bind_Ret in H as (r1 & H1 & H).
  apply bind_Ret in H as (r2 & H2 & H).
  apply bind_Ret in H as (r3 & H3 & H).
  apply bind_Ret in H as (r4 & H4 & H).
  (* the record holding the sampling tag and the time series *)
  match type of H1 with
  | context [Dict.get "distance" _] => idtac
  end.
  set (r0 := [("sampling", _); ("time_s_csv", _)]) in H1.
  assert (H0 : aligned (length unique_indices) r0
               /\ marks_missing streams_dict unique_indices r0).
  { split.
    - intros field csv Hfield Hget. unfold csv_fields in Hfield. cbn [In] in Hfield.
      repeat (destruct Hfield as [<-|Hfield]); try contradiction;
        cbn in Hget; try discriminate Hget.
      injection Hget as <-. rewrite py_split_join.
      + rewrite length_map. exact Hlen.
      + destruct sampled_time; [destruct unique_indices; [congruence|discriminate]|discriminate].
      + apply Forall_forall. intros tok (t & -> & _)%list_elem_of_fmap.
        apply no_comma_str_of_int.
    - intros field source csv data j i Hfield Hget. unfold sampled_fields in Hfield.
      cbn [In] in Hfield.
      repeat (destruct Hfield as [Hfield|Hfield]); try contradiction;
        injection Hfield as <- <-; discriminate Hget. }
  clearbody r0.
  (* pace *)
  assert (Hr1 : aligned (length unique_indices) r1
                /\ marks_missing streams_dict unique_indices r1).
  { destruct (Dict.get "distance" streams_dict) as [distance|];
      [destruct include_pace|]; try (injection H1 as <-; exact H0).
    apply bind_Ret in H1 as (pace_values & Hpace & [= <-]).
    apply pace_values_no_comma in Hpace as [Hplen Hpall].
    destruct H0 as [Ha Hm]. split.
    - apply aligned_set; [exact Ha|]. rewrite py_split_join; [lia| |exact Hpall].
      destruct pace_values; [|discriminate].
      destruct unique_indices; [congruence | cbn [length] in Hlen, Hplen; lia].
    - apply marks_missing_set; [exact Hm|].
      intros source data j i Hin. unfold sampled_fields in Hin. cbn [In] in Hin.
      repeat (destruct Hin as [Hin|Hin]); try contradiction; discriminate Hin. }
  clear H0 H1.
  (* the four sampled streams *)
  assert (Hstep : forall source field format_func r r',
             In (field, source) sampled_fields ->
             (forall v tok, format_func v = Ret tok -> no_comma tok = true) ->
             aligned (length unique_indices) r /\ marks_missing streams_dict unique_indices r ->
             match Dict.get source streams_dict with
             | Some data =>
                 csv ← _format_sampled_values (_sample_stream_data data unique_indices)
                                              format_func;
                 Ret (Dict.set field csv r)
             | None => Ret r
             end = Ret r' ->
             aligned (length unique_indices) r' /\ marks_missing streams_dict unique_indices r').
  { intros source field format_func r r' Hin Hfmt [Ha Hm] Hr.
    destruct (Dict.get source streams_dict) as [data|] eqn:Hsrc;
      [|injection Hr as <-; split; assumption].
    apply bind_Ret in Hr as (csv & Hcsv & [= <-]).
    destruct (sampled_field_tokens streams_dict unique_indices format_func field source
                data csv Hne Hfmt Hsrc
                (fun source' => source_of_field field source source' Hin) Hcsv) as [Hl Hmiss].
    split; [apply aligned_set | apply marks_missing_set]; assumption. }
  assert (Hr2 : aligned (length unique_indices) r2
                /\ marks_missing streams_dict unique_indices r2).
  { eapply (Hstep "heartrate" "hr_bpm_csv" format_rounded r1 r2);
      [cbn; tauto | exact format_rounded_no_comma | exact Hr1 | exact H2]. }
  assert (Hr3 : aligned (length unique_indices) r3
                /\ marks_missing streams_dict unique_indices r3).
  { eapply (Hstep "altitude" "alt_m_csv" format_rounded r2 r3);
      [cbn; tauto | exact format_rounded_no_comma | exact Hr2 | exact H3]. }
  assert (Hr4 : aligned (length unique_indices) r4
                /\ marks_missing streams_dict unique_indices r4).
  { destruct include_velocity.
    - eapply (Hstep "velocity_smooth" "velocity_smooth_ms_csv"
                (format_velocity float_of_str) r3 r4);
        [cbn; tauto | exact (format_velocity_no_comma float_of_str) | exact Hr3|].
      destruct (Dict.get "velocity_smooth" streams_dict); exact H4.
    - destruct (Dict.get "velocity_smooth" streams_dict);
        injection H4 as <-; exact Hr3. }
  eapply (Hstep "cadence" "cadence_spm_csv" format_rounded r4 compact);
    [cbn; tauto | exact format_rounded_no_comma | exact Hr4 | exact H].
Qed.

(** ** Record assembly *)

Lemma space_is_not_upper (c : ascii) : py_isspace c = true -> lower_char c = c.
Proof.
  destruct c as [[] [] [] [] [] [] [] []]; vm_compute; intros H;
    first [reflexivity | discriminate H].
Qed.

Lemma py_rstrip_cons (c : ascii) (s : string) :
  py_isspace c = false -> py_rstrip (String c s) = String c (py_rstrip s).
Proof. intros H. cbn [py_rstrip]. rewrite H. destruct (py_rstrip s); reflexivity. Qed.

(** Trimming the end of a string keeps a prefix made of visible characters. *)
Lemma prefix_lower_rstrip (p s : string) :
  all_chars (fun c => negb (py_isspace c)) p = true ->
  String.prefix p (py_lower s) = true ->
  String.prefix p (py_lower (py_rstrip s)) = true.
Proof.
  revert s. induction p as [|a p IH]; intros s Hvisible Hprefix;
    [destruct (py_lower (py_rstrip s)); reflexivity|].
  cbn [all_chars] in Hvisible. apply andb_prop in Hvisible as [Ha Hp].
  apply negb_true_iff in Ha.
  destruct s as [|c s]; [discriminate Hprefix|].
  cbn [py_lower String.prefix] in Hprefix.
  destruct (ascii_dec a (lower_char c)) as [->|]; [|discriminate Hprefix].
  assert (Hc : py_isspace c = false).
  { destruct (py_isspace c) eqn:E; [|reflexivity].
    rewrite (space_is_not_upper c E) in Ha. congruence. }
  rewrite (py_rstrip_cons _ _ Hc). cbn [py_lower String.prefix].
  destruct (ascii_dec (lower_char c) (lower_char c)); [|congruence].
  apply IH; assumption.
Qed.

Lemma rest_name_is_rest (name : string) :
  py_startswith (py_lower (py_lstrip name)) "rest" = true ->
  _is_rest_activity (VStr name) = Ret true.
Proof.
  intros H. unfold _is_rest_activity, name_has_prefix. cbn [py_truthy].
  destruct (String.eqb_spec name "") as [->|_]; [discriminate H|].
  cbn [negb]. f_equal. unfold py_startswith, py_strip in *.
  apply prefix_lower_rstrip; [reflexivity | exact H].
Qed.

Lemma is_running_of_str (name : string) :
  exists is_running, _is_running_activity (VStr name) = Ret is_running.
Proof.
  unfold _is_running_activity, name_has_prefix.
  destruct (negb (py_truthy (VStr name))); eauto.
Qed.

(** What reaches the record of a resting activity has no altitude. *)
Lemma sample_for_rest_activity (float_of_str : string -> option Q) (fuel : nat)
    (streams_data : list RawStream) (interval_seconds : Q) (name : string)
    (compact_streams : dict string) (quantiles : dict (dict Q)) :
  py_startswith (py_lower (py_lstrip name)) "rest" = true ->
  sample_for_activity float_of_str fuel streams_data interval_seconds (VStr name)
  = Ret (compact_streams, quantiles) ->
  Dict.get "alt_m_csv" compact_streams = None
  /\ Dict.get "altitude_m" quantiles = None.
Proof.
  intros Hname. unfold sample_for_activity.
  destruct (is_running_of_str name) as [is_running ->].
  rewrite (rest_name_is_rest _ Hname). cbn [mbind outcome_bind].
  intros ([compact0 quantiles0] & _ & [= <- <-])%bind_Ret.
  split; apply get_pop_eq.
Qed.

Lemma get_filter_In {V : Type} (p : string * V -> bool) (k : string) (v : V) (d : dict V) :
  Dict.get k (List.filter p d) = Some v -> In (k, v) d.
Proof. intros H%get_Some_In. apply List.filter_In in H as [H _]. exact H. Qed.

(** C8. For an activity whose name, trimmed on the left and lowercased,
    starts with "rest", the assembled record has no [alt_m_csv] key in its
    compact streams and no [altitude_m] key in its quantile summary,
    whatever streams were supplied. *)
Theorem rest_activity_has_no_altitude (float_of_str : string -> option Q) (fuel : nat)
    (activity_data : dict pyval) (streams_data : option (list RawStream))
    (interval_seconds : Q) (name : string) (record : dict pyval) :
  Dict.get "name" activity_data = Some (VStr name) ->
  py_startswith (py_lower (py_lstrip name)) "rest" = true ->
  create_activity_jsonl_object float_of_str fuel activity_data streams_data interval_seconds
  = Ret record ->
  (forall v, Dict.get "streams_compact" record = Some v ->
             exists compact, v = VDict compact /\ Dict.get "alt_m_csv" compact = None)
  /\ (forall v, Dict.get "quantiles" record = Some v ->
                exists quantiles, v = VDict quantiles /\ Dict.get "altitude_m" quantiles = None).
Proof.
  intros Hget Hname. unfold create_activity_jsonl_object.
  set (base := [("activity_id", _); ("name", _); ("type", _); ("start_date", _);
                ("distance_m", _); ("moving_time_s", _); ("elapsed_time_s", _);
                ("total_elevation_gain_m", _); ("average_speed_ms", _);
                ("max_speed_ms", _); ("average_heartrate_bpm", _);
                ("max_heartrate_bpm", _); ("calories", _)]).
  assert (Hbase : forall k v, In (k, v) base ->
                              k <> "streams_compact" /\ k <> "quantiles").
  { intros k v Hin. subst base. cbn [In] in Hin.
    repeat (destruct Hin as [Hin|Hin]); try contradiction;
      injection Hin as <- _; split; discriminate. }
  clearbody base.
  intros (jsonl_obj & Hobj & [= <-])%bind_Ret.
  assert (Hfields :
    forall k v, In (k, v) jsonl_obj ->
      (k <> "streams_compact" /\ k <> "quantiles")
      \/ (exists compact, k = "streams_compact" /\ v = of_compact compact
                          /\ Dict.get "alt_m_csv" compact = None)
      \/ (exists quantiles, k = "quantiles" /\ v = of_quantiles quantiles
                            /\ Dict.get "altitude_m" quantiles = None)).
  { destruct streams_data as [[|stream streams]|];
      try (injection Hobj as <-; intros k v Hin; left; eapply Hbase, Hin).
    unfold get_or_none in Hobj. rewrite Hget in Hobj. cbn [default] in Hobj.
    apply bind_Ret in Hobj as ([compact quantiles] & Hsample & [= <-]).
    apply sample_for_rest_activity in Hsample as [Halt Hq]; [|exact Hname].
    intros k v Hin.
    assert (Hin' : In (k, v) (if Dict.is_empty compact then base
                              else Dict.set "streams_compact" (of_compact compact) base)
                   \/ (k = "quantiles" /\ v = of_quantiles quantiles)).
    { destruct (Dict.is_empty quantiles); [left; exact Hin|].
      apply In_set in Hin as [[-> ->]|Hin]; [right; split; reflexivity | left; exact Hin]. }
    destruct Hin' as [Hin'|[-> ->]]; [|right; right; eauto].
    assert (Hin'' : In (k, v) base \/ (k = "streams_compact" /\ v = of_compact compact)).
    { destruct (Dict.is_empty compact); [left; exact Hin'|].
      apply In_set in Hin' as [[-> ->]|Hin']; [right; split; reflexivity | left; exact Hin']. }
    destruct Hin'' as [Hin''|[-> ->]]; [left; eapply Hbase, Hin'' | right; left; eauto]. }
  split; intros v Hv; apply get_filter_In, Hfields in Hv.
  - destruct Hv as [[Hne _]|[(compact & _ & -> & Halt)|(quantiles & [=] & _)]];
      [congruence|].
    exists (map (fun '(k, csv) => (k, VStr csv)) compact). split; [reflexivity|].
    rewrite get_map_values, Halt. reflexivity.
  - destruct Hv as [[_ Hne]|[(compact & [=] & _)|(quantiles & _ & -> & Hq)]];
      [congruence|].
    eexists. split; [reflexivity|].
    rewrite get_map_values, Hq. reflexivity.
Qed.

Lemma rest_activity_has_no_altitude_witness :
  (forall v, Dict.get "streams_compact" rest_record = Some v ->
             exists compact, v = VDict compact /\ Dict.get "alt_m_csv" compact = None)
  /\ (forall v, Dict.get "quantiles" rest_record = Some v ->
                exists quantiles, v = VDict quantiles /\ Dict.get "altitude_m" quantiles = None).
Proof.
  apply (rest_activity_has_no_altitude (fun _ => None) 3 rest_activity (Some rest_streams) 2
           "Rest 12 (Apple JD)" rest_record).
  - reflexivity.
  - reflexivity.
  - vm_compute. reflexivity.
Defined.

Example rest_record_value :
  Dict.get "streams_compact" rest_record
  = Some (VDict [("sampling", VStr "approx_2s"); ("time_s_csv", VStr "0,2,4");
                 ("hr_bpm_csv", VStr "58,57,58")])
  /\ (exists quantiles,
        Dict.get "quantiles" rest_record = Some (VDict quantiles)
        /\ map fst quantiles = ["time_s"; "hr_bpm"]).
Proof. split; [reflexivity | eexists; split; reflexivity]. Qed.

(** ** Batch files *)

Section BatchFacts.
Variable json_dumps : pyval -> string.
Variable json_loads : string -> option pyval.

Lemma append_assoc (a b c : string) : ((a ++ b) ++ c = a ++ (b ++ c))%string.
Proof.
  induction a as [|x a IH]; [reflexivity|].
  change (String x ((a ++ b) ++ c) = String x (a ++ (b ++ c)))%string.
  rewrite IH. reflexivity.
Qed.

Lemma append_empty_r (a : string) : (a ++ "")%string = a.
Proof.
  induction a as [|x a IH]; [reflexivity|].
  change (String x (a ++ "") = String x a)%string. rewrite IH. reflexivity.
Qed.

Lemma files_log (e : io_event) (w : world) : files (log e w) = files w.
Proof. reflexivity. Qed.

(** Writing the records one after the other leaves the batch text in the file. *)
Lemma save_appends (records : list pyval) (filepath text : string) (w : world) :
  files w !! filepath = Some text ->
  files (foldl (fun w obj => write filepath (json_dumps obj ++ String newline "") w) w records)
    !! filepath
  = Some (text ++ batch_text json_dumps records)%string.
Proof.
  revert text w. induction records as [|record records IH]; intros text w Hw; cbn [foldl].
  - cbn [batch_text foldr]. rewrite Hw, append_empty_r. reflexivity.
  - rewrite (IH (text ++ (json_dumps record ++ String newline ""))%string).
    + apply (f_equal Some). cbn [batch_text foldr]. rewrite !append_assoc. reflexivity.
    + unfold write. rewrite files_log. cbn [files]. rewrite lookup_insert_eq, Hw.
      reflexivity.
Qed.

Lemma save_jsonl_file_content (records : list pyval) (filepath : string) (w : world) :
  files (save_jsonl_file json_dumps records filepath w) !! filepath
  = Some (batch_text json_dumps records).
Proof.
  unfold save_jsonl_file.
  rewrite (save_appends records filepath "" (open_w filepath w)); [reflexivity|].
  unfold open_w. rewrite files_log. cbn [files]. apply lookup_insert_eq.
Qed.

Lemma universal_newlines_id (s : string) :
  all_chars (fun c => negb (Ascii.eqb c carriage_return)) s = true ->
  universal_newlines s = s.
Proof.
  induction s as [|c s IH]; cbn [all_chars universal_newlines]; [reflexivity|].
  intros [Hc Hs]%andb_prop. apply negb_true_iff in Hc. rewrite Hc, (IH Hs). reflexivity.
Qed.

Lemma one_line_no_cr (s : string) :
  one_line s = true -> all_chars (fun c => negb (Ascii.eqb c carriage_return)) s = true.
Proof.
  unfold one_line. induction s as [|c s IH]; cbn [all_chars]; [reflexivity|].
  intros [[_ Hc]%andb_prop Hs]%andb_prop. rewrite Hc, (IH Hs). reflexivity.
Qed.

Lemma batch_text_no_cr (records : list pyval) :
  Forall (fun record => one_line (json_dumps record) = true) records ->
  all_chars (fun c => negb (Ascii.eqb c carriage_return)) (batch_text json_dumps records) = true.
Proof.
  induction 1 as [|record records Hr _ IH]; cbn [batch_text foldr]; [reflexivity|].
  rewrite all_chars_app, (one_line_no_cr _ Hr). cbn [all_chars andb].
  fold (batch_text json_dumps records). rewrite IH. reflexivity.
Qed.

Lemma iter_lines_first (s rest : string) :
  one_line s = true ->
  iter_lines (s ++ String newline rest) = (s ++ String newline "")%string :: iter_lines rest.
Proof.
  unfold one_line. induction s as [|c s IH]; intros Hs.
  - reflexivity.
  - cbn [all_chars] in Hs. apply andb_prop in Hs as [[Hc _]%andb_prop Hs].
    apply negb_true_iff in Hc.
    change (iter_lines (String c (s ++ String newline rest)) =
            String c (s ++ String newline "") :: iter_lines rest).
    cbn [iter_lines]. rewrite Hc, (IH Hs). reflexivity.
Qed.

Lemma iter_lines_batch_text (records : list pyval) :
  Forall (fun record => one_line (json_dumps record) = true) records ->
  iter_lines (batch_text json_dumps records)
  = map (fun record => (json_dumps record ++ String newline "")%string) records.
Proof.
  induction 1 as [|record records Hr _ IH]; cbn [batch_text foldr map]; [reflexivity|].
  fold (batch_text json_dumps records). rewrite (iter_lines_first _ _ Hr), IH. reflexivity.
Qed.

Lemma py_rstrip_line (s : string) :
  ends_visible s = true -> py_rstrip (s ++ String newline "") = s.
Proof.
  induction s as [|c s IH]; [discriminate|].
  destruct s as [|c' s'].
  - intros Hc. cbn [ends_visible] in Hc. apply negb_true_iff in Hc.
    change (py_rstrip (String c (String newline "")) = String c "").
    cbn [py_rstrip]. change (py_isspace newline) with true. cbn iota.
    rewrite Hc. reflexivity.
  - intros Hs. change (ends_visible (String c' s') = true) in Hs.
    change (py_rstrip (String c (String c' s' ++ String newline "")) = String c (String c' s')).
    cbn [py_rstrip]. cbn [py_rstrip] in IH. rewrite (IH Hs). reflexivity.
Qed.

Lemma py_strip_line (s : string) :
  starts_visible s = true -> ends_visible s = true ->
  py_strip (s ++ String newline "") = s.
Proof.
  intros Hstart Hend. unfold py_strip.
  destruct s as [|c s]; [discriminate|]. cbn [starts_visible] in Hstart.
  apply negb_true_iff in Hstart.
  change (py_rstrip (py_lstrip (String c (s ++ String newline ""))) = String c s).
  cbn [py_lstrip]. rewrite Hstart. apply (py_rstrip_line (String c s) Hend).
Qed.

(** Reading back the lines of well-formed records appends them in order. *)
Lemma load_lines (records acc : list pyval) :
  Forall (well_formed_record json_dumps json_loads) records ->
  foldl (fun acc line =>
           jsonl_objects ← acc;
           let line := py_strip line in
           if String.eqb line "" then Ret jsonl_objects
           else match json_loads line with
                | Some obj => Ret (jsonl_objects ++ [obj])
                | None => Raise ValueError
                end)
        (Ret acc)
        (map (fun record => (json_dumps record ++ String newline "")%string) records)
  = Ret (acc ++ records).
Proof.
  intros H. revert acc.
  induction H as [|record records (Hload & _ & Hstart & Hend) _ IH]; intros acc;
    cbn [map foldl].
  - rewrite app_nil_r. reflexivity.
  - cbn [mbind outcome_bind]. rewrite (py_strip_line _ Hstart Hend).
    destruct (String.eqb_spec (json_dumps record) "") as [Hempty|_];
      [rewrite Hempty in Hstart; discriminate Hstart|].
    rewrite Hload, IH, <- app_assoc. reflexivity.
Qed.

(** C4. Loading the batch file written by [save_jsonl_file] from a list of
    well-formed records returns the records, in order. *)
Theorem load_after_save (records : list pyval) (filepath : string) (w : world) :
  Forall (well_formed_record json_dumps json_loads) records ->
  fst (load_jsonl_file json_loads filepath (save_jsonl_file json_dumps records filepath w))
  = Ret records.
Proof.
  intros Hwf. unfold load_jsonl_file. rewrite files_log, save_jsonl_file_content.
  cbn [fst].
  assert (Hlines : Forall (fun record => one_line (json_dumps record) = true) records).
  { eapply Forall_impl; [exact Hwf|]. intros record (_ & Hline & _). exact Hline. }
  rewrite (universal_newlines_id _ (batch_text_no_cr _ Hlines)),
    (iter_lines_batch_text _ Hlines).
  apply (load_lines records [] Hwf).
Qed.
End BatchFacts.

Lemma load_after_save_witness :
  fst (load_jsonl_file mini_json.loads "activities.jsonl"
         (save_jsonl_file mini_json.dumps sample_batch "activities.jsonl" empty_world))
  = Ret sample_batch.
Proof.
  apply (load_after_save mini_json.dumps mini_json.loads sample_batch
           "activities.jsonl" empty_world).
  repeat constructor; vm_compute; reflexivity.
Defined.

(** ** The heart-rate mutation utility *)

(** C9. With [min_hr >= max_hr] the call raises [ValueError] at once: the
    files and the I/O trace are those of the initial world (nothing was
    opened, read or written) and no random number was drawn. *)
Theorem modify_heartrate_rejects_empty_range
    (json_dumps : pyval -> string) (json_loads : string -> option pyval)
    (G : Type) (randint : G -> Z -> Z -> Z * G)
    (jsonl_filepath output_filepath : string) (min_hr max_hr : Z) (w : world) (g : G) :
  (min_hr >= max_hr)%Z ->
  modify_heartrate_to_abnormal json_dumps json_loads G randint
                               jsonl_filepath output_filepath min_hr max_hr w g
  = (Raise ValueError, w, g).
Proof.
  intros Hrange. unfold modify_heartrate_to_abnormal.
  destruct (Z.leb_spec max_hr min_hr) as [_|Hlt]; [reflexivity | lia].
Qed.

Lemma modify_heartrate_rejects_empty_range_witness :
  modify_heartrate_to_abnormal mini_json.dumps mini_json.loads Z lcg.randint
    "activities.jsonl" "abnormal.jsonl" 240 210
    (save_jsonl_file mini_json.dumps sample_batch "activities.jsonl" empty_world) 1%Z
  = (Raise ValueError,
     save_jsonl_file mini_json.dumps sample_batch "activities.jsonl" empty_world, 1%Z).
Proof.
  apply (modify_heartrate_rejects_empty_range mini_json.dumps mini_json.loads Z lcg.randint
           "activities.jsonl" "abnormal.jsonl" 240 210). lia.
Defined.

Lemma sum_inject_Z (l : list Z) :
  (foldr Qplus 0 (map inject_Z l) == inject_Z (sum_of l))%Q.
Proof.
  induction l as [|x l IH]; cbn [map foldr sum_of]; [reflexivity|].
  rewrite IH, inject_Z_plus. reflexivity.
Qed.

(** [int(np.mean(values))] is the quotient of the sum by the count,
    truncated toward zero. *)
Lemma py_int_mean (l : list Z) :
  l <> [] ->
  py_int (np.mean (map inject_Z l)) = Z.quot (sum_of l) (Z.of_nat (length l)).
Proof.
  intros Hne.
  assert (Hn : (0 < Z.of_nat (length l))%Z) by (destruct l; [congruence | cbn [length]; lia]).
  set (n := Z.of_nat (length l)) in *. set (S := sum_of l).
  assert (Hmean : (np.mean (map inject_Z l) == inject_Z S / inject_Z n)%Q).
  { unfold np.mean. rewrite Qred_correct, sum_inject_Z, length_map. reflexivity. }
  assert (Hnq : (0 < inject_Z n)%Q) by (change 0%Q with (inject_Z 0); rewrite <- Zlt_Qlt; exact Hn).
  unfold py_int. destruct (Z.le_gt_cases 0 S) as [Hs|Hs].
  - assert (Hle : Qle_bool 0 (np.mean (map inject_Z l)) = true).
    { apply Qle_bool_iff. rewrite Hmean. apply Qle_shift_div_l; [exact Hnq|].
      rewrite Qmult_0_l. change 0%Q with (inject_Z 0). rewrite <- Zle_Qle. exact Hs. }
    rewrite Hle, (Qfloor_comp _ _ Hmean), <- Zdiv_Qdiv.
    symmetry. apply Z.quot_div_nonneg; assumption.
  - assert (Hle : Qle_bool 0 (np.mean (map inject_Z l)) = false).
    { apply Qle_bool_false. rewrite Hmean. apply Qlt_shift_div_r; [exact Hnq|].
      rewrite Qmult_0_l. change 0%Q with (inject_Z 0). rewrite <- Zlt_Qlt. exact Hs. }
    rewrite Hle. unfold Qceiling.
    assert (Hneg : (- np.mean (map inject_Z l) == inject_Z (- S) / inject_Z n)%Q).
    { rewrite Hmean, inject_Z_opp. field. lra. }
    rewrite (Qfloor_comp _ _ Hneg), <- Zdiv_Qdiv.
    rewrite <- Z.quot_div_nonneg by lia.
    rewrite Z.quot_opp_l by lia. lia.
Qed.

Lemma foldl_max_spec (rest : list Z) (x : Z) :
  In (foldl Z.max x rest) (x :: rest)
  /\ Forall (fun y => (y <= foldl Z.max x rest)%Z) (x :: rest).
Proof.
  revert x. induction rest as [|y rest IH]; intros x; cbn [foldl].
  - split; [left; reflexivity | repeat constructor; lia].
  - destruct (IH (Z.max x y)) as [Hin Hall].
    inversion Hall as [|? ? Hxy Hrest]; subst. split.
    + destruct Hin as [Hin|Hin]; [|right; right; exact Hin].
      rewrite <- Hin. destruct (Z.max_spec x y) as [[_ ->]|[_ ->]];
        [right; left; reflexivity | left; reflexivity].
    + constructor; [lia|]. constructor; [lia | exact Hrest].
Qed.

(** [max(values)] is an element of the list and bounds every element. *)
Lemma py_max_spec (l : list Z) :
  l <> [] -> In (py_max l) l /\ Forall (fun y => (y <= py_max l)%Z) l.
Proof. destruct l as [|x rest]; [congruence|]. intros _. apply foldl_max_spec. Qed.

Section ModifyFacts.
Variable G : Type.
Variable randint : G -> Z -> Z -> Z * G.

Lemma draw_each_length {A} (min_hr max_hr : Z) (hr_values : list A) (g : G) :
  length (fst (draw_each G randint min_hr max_hr hr_values g)) = length hr_values.
Proof.
  revert g. induction hr_values as [|v rest IH]; intros g; cbn [draw_each]; [reflexivity|].
  destruct (randint g min_hr max_hr) as [x g1]. specialize (IH g1).
  destruct (draw_each G randint min_hr max_hr rest g1) as [xs g2].
  cbn [fst length] in *. rewrite IH. reflexivity.
Qed.

Lemma draw_each_range {A} (min_hr max_hr : Z) (hr_values : list A) (g : G) :
  (forall g a b, (a <= b)%Z -> (a <= fst (randint g a b) <= b)%Z) ->
  (min_hr <= max_hr)%Z ->
  Forall (fun x => (min_hr <= x <= max_hr)%Z)
         (fst (draw_each G randint min_hr max_hr hr_values g)).
Proof.
  intros Hrange Hle. revert g.
  induction hr_values as [|v rest IH]; intros g; cbn [draw_each]; [constructor|].
  pose proof (Hrange g min_hr max_hr Hle) as Hx.
  destruct (randint g min_hr max_hr) as [x g1]. specialize (IH g1).
  destruct (draw_each G randint min_hr max_hr rest g1) as [xs g2].
  cbn [fst] in *. constructor; assumption.
Qed.

Lemma mem_set_ne {V} (k k' : string) (v : V) (d : dict V) :
  k <> k' -> Dict.mem k (Dict.set k' v d) = Dict.mem k d.
Proof. intros Hne. unfold Dict.mem. rewrite get_set_ne by exact Hne. reflexivity. Qed.

Lemma get_refresh_ne {V} (k k' : string) (v : V) (d : dict V) :
  k <> k' ->
  Dict.get k (if Dict.mem k' d then Dict.set k' v d else d) = Dict.get k d.
Proof. intros Hne. destruct (Dict.mem k' d); [apply get_set_ne, Hne | reflexivity]. Qed.

Lemma get_refresh_eq {V} (k : string) (v : V) (d : dict V) :
  Dict.mem k d = true ->
  Dict.get k (if Dict.mem k d then Dict.set k v d else d) = Some v.
Proof. intros ->. apply get_set_eq. Qed.

(** What [modify_heartrate_to_abnormal] does to one record that has a
    heart-rate series with at least one value, and whose quantile summary,
    if any, is an object: the series becomes the drawn integers, the summary
    is recomputed from them, and the scalars present are refreshed. *)
Lemma modify_dict_spec (min_hr max_hr : Z) (obj : dict pyval) (g : G)
    (streams_compact : dict pyval) (hr_csv : string) :
  Dict.get "streams_compact" obj = Some (VDict streams_compact) ->
  Dict.get "hr_bpm_csv" streams_compact = Some (VStr hr_csv) ->
  hr_tokens hr_csv <> [] ->
  (Dict.get "quantiles" obj = None
   \/ exists quantiles, Dict.get "quantiles" obj = Some (VDict quantiles)) ->
  let numeric_hr := fst (draw_each G randint min_hr max_hr (hr_tokens hr_csv) g) in
  exists obj',
    modify_dict G randint min_hr max_hr obj g
    = (Ret obj', snd (draw_each G randint min_hr max_hr (hr_tokens hr_csv) g))
    /\ Dict.get "streams_compact" obj'
       = Some (VDict (Dict.set "hr_bpm_csv" (VStr (py_join "," (map str_of_int numeric_hr)))
                               streams_compact))
    /\ (exists quantiles,
          Dict.get "quantiles" obj' = Some (VDict quantiles)
          /\ Dict.get "hr_bpm" quantiles = Some (hr_quantiles numeric_hr))
    /\ (Dict.mem "average_heartrate_bpm" obj = true ->
        Dict.get "average_heartrate_bpm" obj'
        = Some (VInt (py_int (np.mean (map inject_Z numeric_hr)))))
    /\ (Dict.mem "max_heartrate_bpm" obj = true ->
        Dict.get "max_heartrate_bpm" obj' = Some (VInt (py_max numeric_hr))).
Proof.
  intros Hsc Hhr Htokens Hq numeric_hr.
  unfold modify_dict. rewrite Hsc, Hhr.
  assert (Htruthy : py_truthy (VStr hr_csv) = true).
  { cbn [py_truthy]. destruct (String.eqb_spec hr_csv "") as [->|_]; [|reflexivity].
    exfalso. apply Htokens. reflexivity. }
  rewrite Htruthy. fold (hr_tokens hr_csv).
  pose proof (draw_each_length min_hr max_hr (hr_tokens hr_csv) g) as Hlen.
  fold numeric_hr in Hlen. subst numeric_hr.
  destruct (draw_each G randint min_hr max_hr (hr_tokens hr_csv) g) as [numeric_hr g'].
  cbn [fst snd] in *.
  destruct numeric_hr as [|x rest];
    [destruct (hr_tokens hr_csv); [congruence | discriminate Hlen]|].
  set (numeric_hr := x :: rest) in *.
  set (o1 := Dict.set "streams_compact" _ obj).
  assert (Hq1 : Dict.mem "quantiles" o1 = Dict.mem "quantiles" obj)
    by (apply mem_set_ne; discriminate).
  set (o2 := if Dict.mem "quantiles" o1 then o1 else Dict.set "quantiles" (VDict []) o1).
  assert (Hq2 : exists quantiles, Dict.get "quantiles" o2 = Some (VDict quantiles)).
  { subst o2. rewrite Hq1. unfold Dict.mem. destruct Hq as [Hnone|[quantiles Hsome]].
    - rewrite Hnone. exists []. apply get_set_eq.
    - rewrite Hsome. exists quantiles. subst o1. rewrite get_set_ne by discriminate.
      exact Hsome. }
  destruct Hq2 as [quantiles Hq2]. rewrite Hq2.
  fold (hr_quantiles numeric_hr).
  set (o3 := Dict.set "quantiles" _ o2).
  assert (Hkeep : forall k, k <> "streams_compact" -> k <> "quantiles" ->
                            Dict.mem k o3 = Dict.mem k obj).
  { intros k Hk1 Hk2. subst o3. rewrite mem_set_ne by exact Hk2.
    subst o2. destruct (Dict.mem "quantiles" o1);
      [|rewrite mem_set_ne by exact Hk2]; subst o1; apply mem_set_ne, Hk1. }
  eexists. split; [reflexivity|]. split; [|split; [|split]].
  - rewrite !get_refresh_ne by discriminate. subst o3.
    rewrite get_set_ne by discriminate.
    assert (Ho2 : Dict.get "streams_compact" o2 = Dict.get "streams_compact" o1).
    { subst o2. destruct (Dict.mem "quantiles" o1); [reflexivity|].
      apply get_set_ne. discriminate. }
    rewrite Ho2. subst o1. apply get_set_eq.
  - eexists. split; [|apply get_set_eq].
    rewrite !get_refresh_ne by discriminate. subst o3. apply get_set_eq.
  - intros Havg. rewrite get_refresh_ne by discriminate.
    apply get_refresh_eq. rewrite Hkeep by discriminate. exact Havg.
  - intros Hmax. apply get_refresh_eq.
    assert (Hm : forall v, Dict.mem "max_heartrate_bpm"
                   (if Dict.mem "average_heartrate_bpm" o3
                    then Dict.set "average_heartrate_bpm" v o3 else o3)
                 = Dict.mem "max_heartrate_bpm" o3).
    { intros v. destruct (Dict.mem "average_heartrate_bpm" o3); [|reflexivity].
      apply mem_set_ne. discriminate. }
    rewrite Hm, Hkeep by discriminate. exact Hmax.
Qed.
End ModifyFacts.

Lemma lcg_randint_range (seed a b : Z) :
  (a <= b)%Z -> (a <= fst (lcg.randint seed a b) <= b)%Z.
Proof.
  intros Hab. unfold lcg.randint. cbn [fst].
  pose proof (Z.mod_pos_bound (lcg.next seed) (b - a + 1)). lia.
Qed.

(** A heart-rate series with a missing sample, ["140,,160"], has three
    comma-separated entries; whatever the generator and the bounds, the
    rewritten series has two: the empty token is dropped, not kept in place. *)
Lemma modify_dict_gap (G : Type) (randint : G -> Z -> Z -> Z * G)
    (min_hr max_hr : Z) (g : G) :
  exists obj' g' streams_compact' hr_csv',
    modify_dict G randint min_hr max_hr gap_record g = (Ret obj', g')
    /\ Dict.get "streams_compact" obj' = Some (VDict streams_compact')
    /\ Dict.get "hr_bpm_csv" streams_compact' = Some (VStr hr_csv')
    /\ length (py_split comma "140,,160") = 3
    /\ length (py_split comma hr_csv') = 2.
Proof.
  destruct (modify_dict_spec G randint min_hr max_hr gap_record g
              [("time_s_csv", VStr "0,5,10"); ("hr_bpm_csv", VStr "140,,160")] "140,,160"
              eq_refl eq_refl ltac:(discriminate) (or_introl eq_refl))
    as (obj' & Hrun & Hcsv & _).
  pose proof (draw_each_length G randint min_hr max_hr (hr_tokens "140,,160") g) as Hlen.
  destruct (fst (draw_each G randint min_hr max_hr (hr_tokens "140,,160") g))
    as [|x [|y [|z rest]]]; try discriminate Hlen.
  eexists obj', _, _, _. split; [exact Hrun|]. split; [exact Hcsv|].
  split; [apply get_set_eq|]. split; [reflexivity|].
  rewrite py_split_join; [reflexivity | discriminate|].
  repeat constructor; apply no_comma_str_of_int.
Qed.

(** The rewritten series of any record with at least one non-empty token:
    one integer per non-empty token of the original, each drawn within the
    bounds, and a quantile summary computed from those integers. *)
Lemma modify_dict_tokens (G : Type) (randint : G -> Z -> Z -> Z * G)
    (min_hr max_hr : Z) (obj : dict pyval) (g : G)
    (streams_compact : dict pyval) (hr_csv : string) :
  (forall g a b, (a <= b)%Z -> (a <= fst (randint g a b) <= b)%Z) ->
  (min_hr < max_hr)%Z ->
  Dict.get "streams_compact" obj = Some (VDict streams_compact) ->
  Dict.get "hr_bpm_csv" streams_compact = Some (VStr hr_csv) ->
  hr_tokens hr_csv <> [] ->
  (Dict.get "quantiles" obj = None
   \/ exists quantiles, Dict.get "quantiles" obj = Some (VDict quantiles)) ->
  exists obj' g' new_hr streams_compact' quantiles hr_csv',
    modify_dict G randint min_hr max_hr obj g = (Ret obj', g')
    /\ Dict.get "streams_compact" obj' = Some (VDict streams_compact')
    /\ Dict.get "hr_bpm_csv" streams_compact' = Some (VStr hr_csv')
    /\ py_split comma hr_csv' = map str_of_int new_hr
    /\ length new_hr = length (hr_tokens hr_csv)
    /\ Forall (fun x => (min_hr <= x <= max_hr)%Z) new_hr
    /\ Dict.get "quantiles" obj' = Some (VDict quantiles)
    /\ Dict.get "hr_bpm" quantiles = Some (hr_quantiles new_hr).
Proof.
  intros Hrange Hlt Hsc Hhr Htokens Hq.
  destruct (modify_dict_spec G randint min_hr max_hr obj g _ _ Hsc Hhr Htokens Hq)
    as (obj' & Hrun & Hcsv & (quantiles & Hquant & Hbpm) & _).
  pose proof (draw_each_length G randint min_hr max_hr (hr_tokens hr_csv) g) as Hlen.
  pose proof (draw_each_range G randint min_hr max_hr (hr_tokens hr_csv) g Hrange
                ltac:(lia)) as Hin.
  set (new_hr := fst (draw_each G randint min_hr max_hr (hr_tokens hr_csv) g)) in *.
  exists obj', (snd (draw_each G randint min_hr max_hr (hr_tokens hr_csv) g)), new_hr.
  eexists _, quantiles, _. split; [exact Hrun|]. split; [exact Hcsv|].
  split; [apply get_set_eq|].
  split; [|split; [exact Hlen | split; [exact Hin | split; assumption]]].
  apply py_split_join.
  - destruct new_hr; [|discriminate].
    destruct (hr_tokens hr_csv); [congruence | discriminate Hlen].
  - apply Forall_forall. intros tok (x & -> & _)%list_elem_of_fmap.
    apply no_comma_str_of_int.
Qed.

(** The scenario evaluated: three integers within the bounds, and the
    median of the summary is their median, not 150. *)
Example modify_scenario_140_150_160 :
  exists obj' g' quantiles hr_bpm,
    modify_dict Z lcg.randint 210 240
      [("streams_compact", VDict [("hr_bpm_csv", VStr "140,150,160")])] 1%Z = (Ret obj', g')
    /\ Dict.get "streams_compact" obj' = Some (VDict [("hr_bpm_csv", VStr "216,221,212")])
    /\ Dict.get "quantiles" obj' = Some (VDict quantiles)
    /\ Dict.get "hr_bpm" quantiles = Some (VDict hr_bpm)
    /\ Dict.get "50" hr_bpm = Some (VFloat 216).
Proof.
  eexists _, _, _, _. split; [vm_compute; reflexivity|]. repeat split; reflexivity.
Qed.

(** The whole utility on a batch file: the input file is left as it was,
    the output file holds the rewritten records. *)
Example modify_heartrate_end_to_end :
  let w0 := save_jsonl_file mini_json.dumps sample_batch "activities.jsonl" empty_world in
  let '(r, w, _) :=
    modify_heartrate_to_abnormal mini_json.dumps mini_json.loads Z lcg.randint
      "activities.jsonl" "abnormal.jsonl" 210 240 w0 1%Z in
  r = Ret tt
  /\ files w !! "activities.jsonl" = files w0 !! "activities.jsonl"
  /\ (exists first,
        fst (load_jsonl_file mini_json.loads "abnormal.jsonl" w)
        = Ret [VDict first; VDict [("activity_id", VInt 8); ("name", VStr "Rest 1 (Apple JD)")]]
        /\ Dict.get "average_heartrate_bpm" first = Some (VInt 218)
        /\ Dict.get "max_heartrate_bpm" first = Some (VInt 221)
        /\ Dict.get "streams_compact" first
           = Some (VDict [("sampling", VStr "approx_5s"); ("time_s_csv", VStr "0,5");
                          ("hr_bpm_csv", VStr "216,221")])).
Proof.
  vm_compute. split; [reflexivity|]. split; [reflexivity|].
  eexists. repeat split; reflexivity.
Qed.

(** * Further properties of the module *)

(** ** Stream normalisation *)

Lemma convert_step (streams_data : list RawStream) (stream : RawStream) :
  _convert_streams_to_dict (streams_data ++ [stream])
  = match stream_type stream, stream_data stream with
    | Some ty, (_ :: _) as data =>
        if String.eqb ty "" then _convert_streams_to_dict streams_data
        else Dict.set ty data (_convert_streams_to_dict streams_data)
    | _, _ => _convert_streams_to_dict streams_data
    end.
Proof. unfold _convert_streams_to_dict. rewrite fold_left_app. reflexivity. Qed.

Lemma convert_streams_get (streams_data : list RawStream) (k : string) :
  k <> "" ->
  Dict.get k (_convert_streams_to_dict streams_data)
  = stream_data <$> last (List.filter (usable k) streams_data).
Proof.
  intros Hk. induction streams_data as [|stream streams_data IH] using rev_ind.
  - reflexivity.
  - rewrite convert_step, List.filter_app. cbn [List.filter]. unfold usable at 2.
    destruct (stream_type stream) as [ty|], (stream_data stream) as [|x data] eqn:Hdata;
      try (rewrite app_nil_r; exact IH).
    destruct (String.eqb_spec ty "") as [->|Hty].
    + destruct (String.eqb_spec "" k) as [E|_]; [congruence|].
      rewrite app_nil_r. exact IH.
    + destruct (String.eqb_spec ty k) as [->|Hne].
      * rewrite get_set_eq, last_snoc. cbn. rewrite Hdata. reflexivity.
      * rewrite get_set_ne by congruence. rewrite app_nil_r. exact IH.
Qed.

(** X1. The StreamSet built from the raw streams holds, under each non-empty
    key, the data of the last raw stream of that type whose data is not
    empty, and nothing under a key no such stream has. *)
Theorem convert_streams_lookup (streams_data : list RawStream) (k : string) :
  k <> "" ->
  Dict.get k (_convert_streams_to_dict streams_data)
  = stream_data <$> last (List.filter (usable k) streams_data).
Proof. exact (convert_streams_get streams_data k). Qed.

Lemma convert_streams_lookup_witness :
  Dict.get "time"
    (_convert_streams_to_dict
       [ {| stream_type := Some "time"; stream_data := [VInt 0; VInt 1] |};
         {| stream_type := Some "time"; stream_data := [] |};
         {| stream_type := Some "time"; stream_data := [VInt 5] |};
         {| stream_type := None; stream_data := [VInt 9] |} ])
  = stream_data
      <$> last (List.filter (usable "time")
                  [ {| stream_type := Some "time"; stream_data := [VInt 0; VInt 1] |};
                    {| stream_type := Some "time"; stream_data := [] |};
                    {| stream_type := Some "time"; stream_data := [VInt 5] |};
                    {| stream_type := None; stream_data := [VInt 9] |} ]).
Proof. apply convert_streams_lookup. discriminate. Defined.

Lemma convert_streams_get_nonempty (streams_data : list RawStream) (k : string)
    (data : list pyval) :
  Dict.get k (_convert_streams_to_dict streams_data) = Some data ->
  k <> "" /\ data <> [].
Proof.
  induction streams_data as [|stream streams_data IH] using rev_ind.
  - discriminate.
  - rewrite convert_step.
    destruct (stream_type stream) as [ty|], (stream_data stream) as [|x rest];
      try exact IH.
    destruct (String.eqb_spec ty "") as [->|Hty]; [exact IH|].
    destruct (String.eqb_spec k ty) as [->|Hne].
    + rewrite get_set_eq. intros [= <-]. split; [exact Hty | discriminate].
    + rewrite get_set_ne by exact Hne. exact IH.
Qed.

(** X2. No stream is ever stored with an empty list or under an empty key. *)
Theorem convert_streams_never_empty (streams_data : list RawStream) (k : string)
    (data : list pyval) :
  Dict.get k (_convert_streams_to_dict streams_data) = Some data ->
  k <> "" /\ data <> [].
Proof. exact (convert_streams_get_nonempty streams_data k data). Qed.

Lemma convert_streams_never_empty_witness :
  "heartrate" <> "" /\ [VInt 120] <> [].
Proof.
  apply (convert_streams_never_empty
           [ {| stream_type := Some "heartrate"; stream_data := [VInt 120] |};
             {| stream_type := Some "altitude"; stream_data := [] |} ]
           "heartrate" [VInt 120]).
  reflexivity.
Defined.

(** *** The moving filter *)

Lemma filter_data_beyond (mask l : list pyval) (idx : nat) :
  length l <= idx -> omap (fun i => l !! i) (truthy_indices idx mask) = [].
Proof.
  revert idx. induction mask as [|m mask IH]; intros idx Hidx;
    cbn [truthy_indices]; [reflexivity|].
  destruct (py_truthy m); [|apply IH; lia].
  cbn [omap list_omap]. rewrite lookup_ge_None_2 by exact Hidx. apply IH. lia.
Qed.

Lemma filter_data_keep_where (mask data pre : list pyval) :
  omap (fun i => (pre ++ data) !! i) (truthy_indices (length pre) mask)
  = keep_where mask data.
Proof.
  revert data pre. induction mask as [|m mask IH]; intros data pre; [reflexivity|].
  destruct data as [|x data].
  - rewrite filter_data_beyond by (rewrite app_nil_r; lia). reflexivity.
  - cbn [truthy_indices keep_where].
    specialize (IH data (pre ++ [x])).
    rewrite length_app in IH. cbn [length] in IH.
    replace (length pre + 1) with (S (length pre)) in IH by lia.
    rewrite <- app_assoc in IH. cbn [app] in IH.
    destruct (py_truthy m); [|exact IH].
    cbn [omap list_omap]. rewrite IH, list_lookup_middle by reflexivity. reflexivity.
Qed.

Lemma truthy_indices_nil (mask : list pyval) (idx : nat) :
  truthy_indices idx mask = [] <-> existsb py_truthy mask = false.
Proof.
  revert idx. induction mask as [|m mask IH]; intros idx; cbn [truthy_indices existsb].
  - split; reflexivity.
  - destruct (py_truthy m); cbn [orb]; [split; discriminate | apply IH].
Qed.

Lemma filter_by_moving_keep_where (streams_dict : dict (list pyval))
    (moving_data : list pyval) :
  Dict.get "moving" streams_dict = Some moving_data ->
  existsb py_truthy moving_data = true ->
  _filter_by_moving streams_dict
  = map (fun '(stream_type, data) => (stream_type, keep_where moving_data data)) streams_dict.
Proof.
  intros Hget Htruthy. unfold _filter_by_moving. rewrite Hget.
  assert (Hmeaning : existsb is_meaningful moving_data = true).
  { apply existsb_exists in Htruthy as (v & Hin & Hv). apply existsb_exists.
    exists v. split; [exact Hin|]. destruct v; try reflexivity; try discriminate Hv.
    exact Hv. }
  rewrite Hmeaning. cbn [negb].
  destruct (truthy_indices 0 moving_data) as [|i rest] eqn:Hidx.
  - apply truthy_indices_nil in Hidx. congruence.
  - rewrite <- Hidx. apply map_ext. intros [k data]. f_equal.
    unfold filter_data. exact (filter_data_keep_where moving_data data []).
Qed.

(** X3. When the moving stream holds a truthy value, every stream (the moving
    stream included) is cut down to its values at the positions where the
    moving stream is truthy; positions beyond either list are dropped. *)
Theorem filter_by_moving_keeps_truthy_positions (streams_dict : dict (list pyval))
    (moving_data : list pyval) :
  Dict.get "moving" streams_dict = Some moving_data ->
  existsb py_truthy moving_data = true ->
  _filter_by_moving streams_dict
  = map (fun '(stream_type, data) => (stream_type, keep_where moving_data data)) streams_dict.
Proof. exact (filter_by_moving_keep_where streams_dict moving_data). Qed.

Lemma filter_by_moving_keeps_truthy_positions_witness :
  _filter_by_moving [("moving", [VBool true; VBool false; VBool true]);
                     ("time", [VInt 0; VInt 1; VInt 2; VInt 3]);
                     ("heartrate", [VInt 90; VNone])]
  = map (fun '(stream_type, data) =>
           (stream_type, keep_where [VBool true; VBool false; VBool true] data))
        [("moving", [VBool true; VBool false; VBool true]);
         ("time", [VInt 0; VInt 1; VInt 2; VInt 3]);
         ("heartrate", [VInt 90; VNone])].
Proof.
  apply (filter_by_moving_keeps_truthy_positions _ [VBool true; VBool false; VBool true]);
    reflexivity.
Defined.

Lemma keep_where_all_truthy (mask data : list pyval) :
  Forall (fun m => py_truthy m = true) mask ->
  keep_where mask data = take (length mask) data.
Proof.
  intros H. revert data. induction H as [|m mask Hm _ IH]; intros data;
    cbn [keep_where length take].
  - destruct data; reflexivity.
  - destruct data as [|x data]; [reflexivity|]. rewrite Hm, IH. reflexivity.
Qed.

(** X4. An athlete who moved the whole time loses nothing: when every moving
    value is truthy and no stream is longer than the moving stream, the
    filter returns the StreamSet as it is. *)
Theorem filter_by_moving_identity_when_always_moving (streams_dict : dict (list pyval))
    (moving_data : list pyval) :
  Dict.get "moving" streams_dict = Some moving_data ->
  Forall (fun m => py_truthy m = true) moving_data ->
  Forall (fun kv => length (snd kv) <= length moving_data) streams_dict ->
  _filter_by_moving streams_dict = streams_dict.
Proof.
  intros Hget Hall Hlen.
  destruct moving_data as [|m moving_data].
  - unfold _filter_by_moving. rewrite Hget. reflexivity.
  - rewrite (filter_by_moving_keep_where _ _ Hget).
    + clear Hget. induction Hlen as [|[k data] rest Hk _ IH]; cbn [map]; [reflexivity|].
      rewrite IH, (keep_where_all_truthy _ _ Hall), take_ge by exact Hk. reflexivity.
    + inversion Hall as [|? ? Hm _]; subst. cbn [existsb]. rewrite Hm. reflexivity.
Qed.

Lemma filter_by_moving_identity_when_always_moving_witness :
  _filter_by_moving [("moving", [VBool true; VInt 1]); ("time", [VInt 0; VInt 1])]
  = [("moving", [VBool true; VInt 1]); ("time", [VInt 0; VInt 1])].
Proof.
  apply (filter_by_moving_identity_when_always_moving _ [VBool true; VInt 1]).
  - reflexivity.
  - repeat constructor.
  - repeat constructor.
Defined.

(** *** Cadence doubling *)

(** X5. Doubling touches the cadence stream only, keeps its length, leaves its
    non-numeric entries ([None] among them) as they are and turns each
    number into twice its value. *)
Theorem double_cadence_values_spec (streams_dict : dict (list pyval)) :
  (forall k, k <> "cadence" ->
             Dict.get k (_double_cadence_values streams_dict) = Dict.get k streams_dict)
  /\ (forall data,
        Dict.get "cadence" streams_dict = Some data ->
        exists doubled,
          Dict.get "cadence" (_double_cadence_values streams_dict) = Some doubled
          /\ length doubled = length data
          /\ forall i v,
               data !! i = Some v ->
               exists v', doubled !! i = Some v'
                          /\ match num_of v with
                             | Some x => exists y, num_of v' = Some y /\ (y == 2 * x)%Q
                             | None => v' = v
                             end).
Proof.
  unfold _double_cadence_values. split.
  - intros k Hk. destruct (Dict.get "cadence" streams_dict); [|reflexivity].
    apply get_set_ne, Hk.
  - intros data ->. eexists. split; [apply get_set_eq|]. split; [apply length_map|].
    intros i v Hv. rewrite list_lookup_fmap, Hv. eexists. split; [reflexivity|].
    destruct v as [|b|z|q|s|l|d]; cbn [_is_numeric_value times_multiplier num_of];
      try reflexivity.
    + eexists. split; [reflexivity|]. destruct b; reflexivity.
    + eexists. split; [reflexivity|]. unfold CADENCE_MULTIPLIER.
      rewrite inject_Z_mult. change (inject_Z 2) with 2%Q. ring.
    + eexists. split; [reflexivity|]. unfold CADENCE_MULTIPLIER.
      change (inject_Z 2) with 2%Q. ring.
Qed.

(** ** Quantile summaries *)

Lemma calculate_quantiles_step (streams_dict : dict (list pyval)) (include_velocity : bool)
    (ty : string) (data : list pyval) :
  _calculate_quantiles (streams_dict ++ [(ty, data)]) include_velocity
  = match _extract_numeric_values data with
    | [] => _calculate_quantiles streams_dict include_velocity
    | _ =>
        if String.eqb (_stream_key_for_quantiles ty) "velocity_smooth_ms"
           && negb include_velocity
        then _calculate_quantiles streams_dict include_velocity
        else Dict.set (_stream_key_for_quantiles ty)
               (quantile_dict (np.percentile (_extract_numeric_values data) QUANTILE_LEVELS))
               (_calculate_quantiles streams_dict include_velocity)
    end.
Proof.
  unfold _calculate_quantiles. rewrite fold_left_app. cbn [fold_left].
  destruct data as [|x data]; [reflexivity|].
  destruct (_extract_numeric_values (x :: data)); reflexivity.
Qed.

Lemma quantile_dict_levels (values : list Q) :
  map fst (quantile_dict (np.percentile values QUANTILE_LEVELS))
  = ["5"; "25"; "50"; "75"; "95"].
Proof. reflexivity. Qed.

Lemma calculate_quantiles_mem (streams_dict : dict (list pyval))
    (include_velocity : bool) (key : string) :
  Dict.mem key (_calculate_quantiles streams_dict include_velocity) = true
  <-> (exists ty data,
         In (ty, data) streams_dict
         /\ _stream_key_for_quantiles ty = key
         /\ _extract_numeric_values data <> [])
      /\ (key = "velocity_smooth_ms" -> include_velocity = true).
Proof.
  induction streams_dict as [|[ty data] streams_dict IH] using rev_ind.
  - cbn. split; [discriminate | intros [(? & ? & [] & _) _]].
  - rewrite calculate_quantiles_step.
    assert (Hold : forall P : Prop,
              (exists ty' data', In (ty', data') streams_dict /\ P) ->
              exists ty' data', In (ty', data') (streams_dict ++ [(ty, data)]) /\ P).
    { intros P (ty' & data' & Hin & HP). exists ty', data'.
      split; [apply in_or_app; left; exact Hin | exact HP]. }
    destruct (_extract_numeric_values data) as [|x xs] eqn:Hnum.
    + rewrite IH. split.
      * intros [(ty' & data' & Hin & Hkey & Hne) Hv]. split; [|exact Hv].
        exists ty', data'. split; [apply in_or_app; left; exact Hin | split; assumption].
      * intros [(ty' & data' & Hin & Hkey & Hne) Hv]. split; [|exact Hv].
        apply in_app_or in Hin as [Hin|[[= -> ->]|[]]]; [|congruence].
        exists ty', data'. repeat split; assumption.
    + destruct (String.eqb_spec (_stream_key_for_quantiles ty) "velocity_smooth_ms")
        as [Hvel|Hvel]; destruct include_velocity; cbn [negb andb].
      * destruct (String.eqb_spec key (_stream_key_for_quantiles ty)) as [->|Hne].
        -- unfold Dict.mem. rewrite get_set_eq. split; [|reflexivity]. intros _.
           split; [|reflexivity]. exists ty, data.
           split; [apply in_or_app; right; left; reflexivity|]. split; [reflexivity|].
           rewrite Hnum. discriminate.
        -- unfold Dict.mem. rewrite get_set_ne by exact Hne. fold (Dict.mem key
             (_calculate_quantiles streams_dict true)). rewrite IH. split.
           ++ intros [(ty' & data' & Hin & Hkey & Hne') Hv]. split; [|exact Hv].
              exists ty', data'. split; [apply in_or_app; left; exact Hin | split; assumption].
           ++ intros [(ty' & data' & Hin & Hkey & Hne') Hv]. split; [|exact Hv].
              apply in_app_or in Hin as [Hin|[[= -> ->]|[]]]; [|congruence].
              exists ty', data'. repeat split; assumption.
      * rewrite IH. split.
        -- intros [(ty' & data' & Hin & Hkey & Hne') Hv]. split; [|exact Hv].
           exists ty', data'. split; [apply in_or_app; left; exact Hin | split; assumption].
        -- intros [(ty' & data' & Hin & Hkey & Hne') Hv]. split; [|exact Hv].
           apply in_app_or in Hin as [Hin|[[= -> ->]|[]]].
           ++ exists ty', data'. repeat split; assumption.
           ++ rewrite Hvel in Hkey. subst key. specialize (Hv eq_refl). discriminate.
      * destruct (String.eqb_spec key (_stream_key_for_quantiles ty)) as [->|Hne].
        -- unfold Dict.mem. rewrite get_set_eq. split; [|reflexivity]. intros _.
           split; [|reflexivity]. exists ty, data.
           split; [apply in_or_app; right; left; reflexivity|]. split; [reflexivity|].
           rewrite Hnum. discriminate.
        -- unfold Dict.mem. rewrite get_set_ne by exact Hne. fold (Dict.mem key
             (_calculate_quantiles streams_dict true)). rewrite IH. split.
           ++ intros [(ty' & data' & Hin & Hkey & Hne') Hv]. split; [|exact Hv].
              exists ty', data'. split; [apply in_or_app; left; exact Hin | split; assumption].
           ++ intros [(ty' & data' & Hin & Hkey & Hne') Hv]. split; [|exact Hv].
              apply in_app_or in Hin as [Hin|[[= -> ->]|[]]]; [|congruence].
              exists ty', data'. repeat split; assumption.
      * destruct (String.eqb_spec key (_stream_key_for_quantiles ty)) as [->|Hne].
        -- unfold Dict.mem. rewrite get_set_eq. split; [|reflexivity]. intros _.
           split; [|intros E; congruence]. exists ty, data.
           split; [apply in_or_app; right; left; reflexivity|]. split; [reflexivity|].
           rewrite Hnum. discriminate.
        -- unfold Dict.mem. rewrite get_set_ne by exact Hne. fold (Dict.mem key
             (_calculate_quantiles streams_dict false)). rewrite IH. split.
           ++ intros [(ty' & data' & Hin & Hkey & Hne') Hv]. split; [|exact Hv].
              exists ty', data'. split; [apply in_or_app; left; exact Hin | split; assumption].
           ++ intros [(ty' & data' & Hin & Hkey & Hne') Hv]. split; [|exact Hv].
              apply in_app_or in Hin as [Hin|[[= -> ->]|[]]]; [|congruence].
              exists ty', data'. repeat split; assumption.
Qed.

(** X6. The summary has an entry under a key exactly when some stream that is
    renamed to that key holds at least one number, velocity being left out
    unless it is included; a stream without numbers adds nothing. *)
Theorem calculate_quantiles_entries (streams_dict : dict (list pyval))
    (include_velocity : bool) (key : string) :
  Dict.mem key (_calculate_quantiles streams_dict include_velocity) = true
  <-> (exists ty data,
         In (ty, data) streams_dict
         /\ _stream_key_for_quantiles ty = key
         /\ _extract_numeric_values data <> [])
      /\ (key = "velocity_smooth_ms" -> include_velocity = true).
Proof. exact (calculate_quantiles_mem streams_dict include_velocity key). Qed.

Lemma calculate_quantiles_levels (streams_dict : dict (list pyval))
    (include_velocity : bool) (key : string) (q : dict Q) :
  Dict.get key (_calculate_quantiles streams_dict include_velocity) = Some q ->
  map fst q = ["5"; "25"; "50"; "75"; "95"].
Proof.
  induction streams_dict as [|[ty data] streams_dict IH] using rev_ind; [discriminate|].
  rewrite calculate_quantiles_step.
  destruct (_extract_numeric_values data) as [|x xs]; [exact IH|].
  destruct (_ && _); [exact IH|].
  destruct (String.eqb_spec key (_stream_key_for_quantiles ty)) as [->|Hne].
  - rewrite get_set_eq. intros [= <-]. apply quantile_dict_levels.
  - rewrite get_set_ne by exact Hne. exact IH.
Qed.

(** ** The resampling engine, continued *)

Lemma closest_scan_spec (target_time : Q) (rest pre : list Q) (best_idx : nat) (t_best : Q) :
  (pre ++ rest) !! best_idx = Some t_best ->
  best_idx < length pre ->
  (forall k t, pre !! k = Some t ->
               (Qabs (t_best - target_time) <= Qabs (t - target_time))%Q) ->
  (forall k t, k < best_idx -> pre !! k = Some t ->
               (Qabs (t_best - target_time) < Qabs (t - target_time))%Q) ->
  exists t_r,
    (pre ++ rest)
      !! closest_scan target_time best_idx (Qabs (t_best - target_time)) (length pre) rest
    = Some t_r
    /\ (forall k t, (pre ++ rest) !! k = Some t ->
                    (Qabs (t_r - target_time) <= Qabs (t - target_time))%Q)
    /\ (forall k t,
          k < closest_scan target_time best_idx (Qabs (t_best - target_time))
                           (length pre) rest ->
          (pre ++ rest) !! k = Some t ->
          (Qabs (t_r - target_time) < Qabs (t - target_time))%Q).
Proof.
  revert pre best_idx t_best.
  induction rest as [|t rest IH]; intros pre best_idx t_best Hbest Hlt Hmin Hfirst;
    cbn [closest_scan].
  - rewrite app_nil_r in *. exists t_best. split; [exact Hbest|]. split; assumption.
  - assert (Happ : pre ++ t :: rest = (pre ++ [t]) ++ rest)
      by (rewrite <- app_assoc; reflexivity).
    assert (Hlen : length (pre ++ [t]) = S (length pre))
      by (rewrite length_app; cbn [length]; lia).
    destruct (Qltb (Qabs (t - target_time)) (Qabs (t_best - target_time))) eqn:E.
    + apply Qltb_true in E. rewrite Happ, <- Hlen.
      apply IH.
      * rewrite <- Happ. apply list_lookup_middle. reflexivity.
      * lia.
      * intros k t' Hk. apply lookup_app_Some in Hk as [Hk|[_ Hk]].
        -- specialize (Hmin k t' Hk). lra.
        -- apply list_lookup_singleton_Some in Hk as [_ <-]. lra.
      * intros k t' Hklt Hk. rewrite lookup_app_l in Hk by exact Hklt.
        specialize (Hmin k t' Hk). lra.
    + assert (Hge : (Qabs (t_best - target_time) <= Qabs (t - target_time))%Q).
      { apply Qnot_lt_le. intros Hc%Qltb_true. congruence. }
      rewrite Happ, <- Hlen. apply IH.
      * rewrite <- Happ. exact Hbest.
      * lia.
      * intros k t' Hk. apply lookup_app_Some in Hk as [Hk|[_ Hk]].
        -- exact (Hmin k t' Hk).
        -- apply list_lookup_singleton_Some in Hk as [_ <-]. exact Hge.
      * intros k t' Hklt Hk. rewrite lookup_app_l in Hk by lia.
        exact (Hfirst k t' Hklt Hk).
Qed.

Lemma closest_idx_spec (time_data : list Q) (target_time : Q) (r : nat) :
  closest_idx time_data target_time = Ret r ->
  exists t_r,
    time_data !! r = Some t_r
    /\ (forall k t, time_data !! k = Some t ->
                    (Qabs (t_r - target_time) <= Qabs (t - target_time))%Q)
    /\ (forall k t, k < r -> time_data !! k = Some t ->
                    (Qabs (t_r - target_time) < Qabs (t - target_time))%Q).
Proof.
  destruct time_data as [|t0 rest]; [discriminate|]. cbn [closest_idx]. intros [= <-].
  apply (closest_scan_spec target_time rest [t0] 0 t0).
  - reflexivity.
  - cbn [length]. lia.
  - intros k t Hk. apply list_lookup_singleton_Some in Hk as [_ <-]. lra.
  - intros k t Hk. lia.
Qed.

(** X7. The index chosen for a target time is the first one whose time is
    closest to the target: no time is closer, and every earlier time is
    strictly farther. *)
Theorem closest_idx_is_first_minimum (time_data : list Q) (target_time : Q) (r : nat) :
  closest_idx time_data target_time = Ret r ->
  exists t_r,
    time_data !! r = Some t_r
    /\ (forall k t, time_data !! k = Some t ->
                    (Qabs (t_r - target_time) <= Qabs (t - target_time))%Q)
    /\ (forall k t, k < r -> time_data !! k = Some t ->
                    (Qabs (t_r - target_time) < Qabs (t - target_time))%Q).
Proof. exact (closest_idx_spec time_data target_time r). Qed.

Lemma closest_idx_is_first_minimum_witness :
  exists t_r,
    [0; 4; 6; 10]%Q !! 1 = Some t_r
    /\ (forall k t, [0; 4; 6; 10]%Q !! k = Some t -> (Qabs (t_r - 5) <= Qabs (t - 5))%Q)
    /\ (forall k t, k < 1 -> [0; 4; 6; 10]%Q !! k = Some t ->
                    (Qabs (t_r - 5) < Qabs (t - 5))%Q).
Proof. apply (closest_idx_is_first_minimum [0; 4; 6; 10]%Q 5 1). reflexivity. Defined.

(** On a series that never decreases, a later target never gets an earlier index. *)
Lemma closest_idx_monotone (time_data : list Q) (a b : Q) (r_a r_b : nat) :
  nondecreasing time_data ->
  (a <= b)%Q ->
  closest_idx time_data a = Ret r_a ->
  closest_idx time_data b = Ret r_b ->
  r_a <= r_b.
Proof.
  intros Hsorted Hab Ha Hb.
  apply closest_idx_spec in Ha as (t_a & Hta & _ & Hfirst_a).
  apply closest_idx_spec in Hb as (t_b & Htb & Hmin_b & _).
  destruct (Nat.le_gt_cases r_a r_b) as [Hle|Hgt]; [exact Hle|]. exfalso.
  pose proof (Hfirst_a r_b t_b Hgt Htb) as H1.
  pose proof (Hmin_b r_a t_a Hta) as H2.
  pose proof (Hsorted r_b r_a t_b t_a ltac:(lia) Htb Hta) as H3.
  revert H1 H2.
  destruct (Qlt_le_dec (t_a - a) 0) as [Ha1|Ha1], (Qlt_le_dec (t_b - a) 0) as [Ha2|Ha2],
      (Qlt_le_dec (t_a - b) 0) as [Hb1|Hb1], (Qlt_le_dec (t_b - b) 0) as [Hb2|Hb2];
    repeat match goal with
      | H : (?x < 0)%Q |- _ => rewrite (Qabs_neg x) by lra; revert H
      | H : (0 <= ?x)%Q |- _ => rewrite (Qabs_pos x) by lra; revert H
      end; intros; lra.
Qed.

Lemma target_times_loop_increasing (fuel : nat) (current_time max_time interval_seconds : Q)
    (target_times : list Q) :
  (0 < interval_seconds)%Q ->
  target_times_loop fuel current_time max_time interval_seconds = Ret target_times ->
  Forall (fun t => (current_time <= t)%Q) target_times
  /\ StronglySorted Qlt target_times.
Proof.
  intros Hpos. revert current_time target_times.
  induction fuel as [|fuel IH]; intros current_time target_times; cbn [target_times_loop];
    destruct (Qle_bool current_time max_time); try discriminate;
    try (intros [= <-]; split; constructor).
  intros (rest & Hrest & [= <-])%bind_Ret.
  destruct (IH _ _ Hrest) as [Hge Hsorted]. split.
  - constructor; [lra|]. eapply Forall_impl; [exact Hge|]. intros t Ht. cbn in Ht. lra.
  - constructor; [exact Hsorted|]. eapply Forall_impl; [exact Hge|].
    intros t Ht. cbn in Ht. lra.
Qed.

Lemma sampled_indices_sorted (time_data target_times : list Q) (sampled : list nat) :
  nondecreasing time_data ->
  StronglySorted Qlt target_times ->
  mapM (closest_idx time_data) target_times = Ret sampled ->
  StronglySorted le sampled.
Proof.
  intros Hnd Hsorted. revert sampled.
  induction Hsorted as [|a rest Hs IH Hall]; intros sampled; cbn [mapM].
  - intros [= <-]. constructor.
  - intros (r_a & Ha & (rs & Hrs & [= <-])%bind_Ret)%bind_Ret.
    constructor; [apply IH, Hrs|].
    apply mapM_Ret in Hrs. apply Forall_forall. intros r_b Hin.
    destruct (proj1 (list_elem_of_lookup _ _) Hin) as [j Hj].
    destruct (Forall2_lookup_r _ _ _ _ _ Hrs Hj) as (b & Hb & Hrb).
    apply (closest_idx_monotone time_data a b r_a r_b Hnd); [|exact Ha | exact Hrb].
    apply Qlt_le_weak. rewrite Forall_forall in Hall. apply Hall.
    eapply list_elem_of_lookup_2, Hb.
Qed.

Lemma unique_from_sorted (sampled : list nat) (seen : gset nat) :
  StronglySorted le sampled -> StronglySorted lt (unique_from seen sampled).
Proof.
  intros Hsorted. revert seen.
  induction Hsorted as [|x rest Hs IH Hall]; intros seen; cbn [unique_from];
    [constructor|].
  destruct (decide (x ∈ seen)); [apply IH|].
  constructor; [apply IH|]. apply Forall_forall. intros y Hy.
  destruct (unique_from_spec rest ({[x]} ∪ seen)) as [_ Hsub].
  destruct (Hsub y Hy) as [Hin Hnot].
  rewrite Forall_forall in Hall. specialize (Hall y Hin).
  assert (y <> x) by (intros ->; apply Hnot, elem_of_union_l, elem_of_singleton; reflexivity).
  lia.
Qed.

(** X8. On a time series that never decreases, the sampling indices come out
    in strictly increasing order, so the sampled series runs forward in time. *)
Theorem find_sampling_indices_increasing (fuel : nat) (time_data : list Q)
    (interval_seconds : Q) (unique_indices : list nat) :
  nondecreasing time_data ->
  (0 < interval_seconds)%Q ->
  _find_sampling_indices fuel time_data interval_seconds = Ret unique_indices ->
  StronglySorted lt unique_indices.
Proof.
  intros Hnd Hpos. unfold _find_sampling_indices.
  destruct (last time_data) as [max_time|]; [|intros [= <-]; constructor].
  intros (target_times & Ht & (sampled & Hs & [= <-])%bind_Ret)%bind_Ret.
  apply unique_from_sorted.
  apply (sampled_indices_sorted time_data target_times sampled Hnd); [|exact Hs].
  eapply target_times_loop_increasing; eassumption.
Qed.

Lemma find_sampling_indices_increasing_witness :
  StronglySorted lt [0; 2; 3].
Proof.
  apply (find_sampling_indices_increasing 4 [0; 1; 5; 9; 11]%Q 5 [0; 2; 3]).
  - intros i j t_i t_j Hij Hi Hj.
    destruct i as [|[|[|[|[|i]]]]], j as [|[|[|[|[|j]]]]];
      cbn in Hi, Hj; try discriminate; try lia;
      injection Hi as <-; injection Hj as <-; discriminate.
  - reflexivity.
  - vm_compute. reflexivity.
Defined.

(** X9. The search returns no index exactly when the series is empty or ends
    at a negative time. *)
Theorem find_sampling_indices_empty_iff (fuel : nat) (time_data : list Q)
    (interval_seconds : Q) (unique_indices : list nat) :
  _find_sampling_indices fuel time_data interval_seconds = Ret unique_indices ->
  unique_indices = []
  <-> time_data = [] \/ exists max_time, last time_data = Some max_time /\ (max_time < 0)%Q.
Proof.
  unfold _find_sampling_indices.
  destruct (last time_data) as [max_time|] eqn:Hlast.
  - intros (target_times & Ht & (sampled & Hs & [= <-])%bind_Ret)%bind_Ret.
    destruct (Qle_bool 0 max_time) eqn:E.
    + assert (Hcons : exists rest, target_times = 0%Q :: rest).
      { destruct fuel; cbn [target_times_loop] in Ht; rewrite E in Ht; [discriminate|].
        apply bind_Ret in Ht as (rest & _ & [= <-]). eauto. }
      destruct Hcons as [rest ->]. cbn [mapM] in Hs.
      apply bind_Ret in Hs as (i0 & _ & (rs & _ & [= <-])%bind_Ret).
      cbn [unique_from].
      destruct (decide (i0 ∈ (∅ : gset nat))) as [Hin|_];
        [exfalso; exact (not_elem_of_empty (C := gset nat) i0 Hin)|].
      split; [discriminate|]. intros [->|(m & [= <-] & Hneg)]; [discriminate Hlast|].
      apply Qle_bool_iff in E. lra.
    + assert (target_times = []) as ->.
      { destruct fuel; cbn [target_times_loop] in Ht; rewrite E in Ht; congruence. }
      injection Hs as <-. split; [|reflexivity]. intros _. right.
      exists max_time. split; [reflexivity|]. apply Qle_bool_false, E.
  - intros [= <-]. split; [|reflexivity]. intros _. left.
    destruct time_data as [|t rest] using rev_ind; [reflexivity|].
    rewrite last_snoc in Hlast. discriminate.
Qed.

Lemma find_sampling_indices_empty_iff_witness :
  [0; 1]%nat = []
  <-> [0; 5]%Q = [] \/ exists max_time, last [0; 5]%Q = Some max_time /\ (max_time < 0)%Q.
Proof. apply (find_sampling_indices_empty_iff 3 [0; 5]%Q 4 [0; 1]%nat). vm_compute. reflexivity. Defined.

(** ** Derived series, continued *)

Lemma numeric_value_num_of (v : pyval) :
  numeric_or_none v = true -> is_none v = false -> exists x, num_of v = Some x.
Proof. destruct v; try discriminate; cbn; eauto. Qed.

Lemma calculate_pace_values_returns (sampled_time : list Q) (sampled_distance : list pyval) :
  length sampled_distance = length sampled_time ->
  Forall (fun d => numeric_or_none d = true) sampled_distance ->
  exists pace_values,
    _calculate_pace_values sampled_time sampled_distance = Ret pace_values
    /\ length pace_values = length sampled_time.
Proof.
  intros Hlen Htyped.
  assert (Hnum : forall i d, sampled_distance !! i = Some d -> numeric_or_none d = true).
  { intros i d Hd. rewrite Forall_forall in Htyped. apply Htyped.
    eapply list_elem_of_lookup_2, Hd. }
  assert (Hsub : forall a b, numeric_or_none a = true -> numeric_or_none b = true ->
                             is_none a = false -> is_none b = false ->
                             exists dd, py_sub a b = Ret dd).
  { intros a b Ha Hb Hna Hnb.
    destruct (numeric_value_num_of a Ha Hna) as [x Hx],
             (numeric_value_num_of b Hb Hnb) as [y Hy].
    unfold py_sub. rewrite Hx, Hy. eauto. }
  destruct (mapM_total
              (fun i =>
                 if (i =? 0)%nat then
                   if (1 <? length sampled_time)%nat then
                     d0 ← py_index sampled_distance 0;
                     if is_none d0 then Ret ""
                     else
                       d1 ← py_index sampled_distance 1;
                       if is_none d1 then Ret ""
                       else
                         t1 ← py_index sampled_time 1;
                         t0 ← py_index sampled_time 0;
                         dd ← py_sub d1 d0;
                         Ret (pace_token (t1 - t0) dd)
                   else Ret ""
                 else
                   ti ← py_index sampled_time i;
                   tp ← py_index sampled_time (i - 1);
                   di ← py_index sampled_distance i;
                   if is_none di then Ret ""
                   else
                     dp ← py_index sampled_distance (i - 1);
                     if is_none dp then Ret ""
                     else
                       dd ← py_sub di dp;
                       Ret (pace_token (ti - tp) dd))
              (seq 0 (length sampled_time))) as [pace_values Hpv].
  - apply Forall_forall. intros i Hi%elem_of_seq.
    assert (Hget : forall j, j < length sampled_time ->
              (exists t, sampled_time !! j = Some t)
              /\ exists d, sampled_distance !! j = Some d).
    { intros j Hj. split; apply lookup_lt_is_Some_2; lia. }
    destruct (Nat.eqb_spec i 0) as [->|Hi0].
    + destruct (Nat.ltb_spec 1 (length sampled_time)) as [H1|_]; [|eauto].
      destruct (Hget 0 ltac:(lia)) as [[t0 Ht0] [d0 Hd0]].
      destruct (Hget 1 H1) as [[t1 Ht1] [d1 Hd1]].
      rewrite (py_index_lookup _ _ _ Hd0). cbn [mbind outcome_bind].
      destruct (is_none d0) eqn:E0; [eauto|].
      rewrite (py_index_lookup _ _ _ Hd1). cbn [mbind outcome_bind].
      destruct (is_none d1) eqn:E1; [eauto|].
      rewrite (py_index_lookup _ _ _ Ht1), (py_index_lookup _ _ _ Ht0).
      cbn [mbind outcome_bind].
      destruct (Hsub d1 d0 (Hnum _ _ Hd1) (Hnum _ _ Hd0) E1 E0) as [dd ->]. eauto.
    + destruct (Hget i ltac:(lia)) as [[ti Hti] [di Hdi]].
      destruct (Hget (i - 1) ltac:(lia)) as [[tp Htp] [dp Hdp]].
      rewrite (py_index_lookup _ _ _ Hti), (py_index_lookup _ _ _ Htp),
        (py_index_lookup _ _ _ Hdi). cbn [mbind outcome_bind].
      destruct (is_none di) eqn:Ei; [eauto|].
      rewrite (py_index_lookup _ _ _ Hdp). cbn [mbind outcome_bind].
      destruct (is_none dp) eqn:Ep; [eauto|].
      destruct (Hsub di dp (Hnum _ _ Hdi) (Hnum _ _ Hdp) Ei Ep) as [dd ->]. eauto.
  - exists pace_values. split; [exact Hpv|].
    apply mapM_Ret_length in Hpv. rewrite length_seq in Hpv. exact Hpv.
Qed.

(** X10. On distances that are numbers or [None], one per sampled time, the pace
    series is computed without an exception and has one token per sample.
    Floats are exact rationals here: overflow and NaN are not covered. *)
Theorem calculate_pace_values_total (sampled_time : list Q) (sampled_distance : list pyval) :
  length sampled_distance = length sampled_time ->
  Forall (fun d => numeric_or_none d = true) sampled_distance ->
  exists pace_values,
    _calculate_pace_values sampled_time sampled_distance = Ret pace_values
    /\ length pace_values = length sampled_time.
Proof. exact (calculate_pace_values_returns sampled_time sampled_distance). Qed.

Lemma calculate_pace_values_total_witness :
  exists pace_values,
    _calculate_pace_values [0; 5; 10]%Q [VInt 0; VNone; VFloat 90] = Ret pace_values
    /\ length pace_values = length [0; 5; 10]%Q.
Proof.
  apply (calculate_pace_values_total [0; 5; 10]%Q [VInt 0; VNone; VFloat 90]).
  - reflexivity.
  - repeat constructor.
Defined.

Lemma calculate_pace_quantiles_returns (time_data : list Q) (distance_data : list pyval) :
  Forall (fun d => numeric_or_none d = true) distance_data ->
  exists pace_quantiles,
    _calculate_pace_quantiles time_data distance_data = Ret pace_quantiles
    /\ forall q, pace_quantiles = Some q -> map fst q = ["5"; "25"; "50"; "75"; "95"].
Proof.
  intros Htyped. unfold _calculate_pace_quantiles.
  match goal with |- context [foldl ?f _ _] => set (step := f) end.
  assert (Hloop : forall l raw,
            Forall (fun i => 1 <= i < length time_data) l ->
            exists raw', foldl step (Ret raw) l = Ret raw').
  { induction l as [|i l IH]; intros raw Hl; cbn [foldl]; [eauto|].
    inversion Hl as [|? ? [Hi1 Hi2] Hl']; subst.
    destruct (lookup_lt_is_Some_2 time_data i Hi2) as [ti Hti].
    destruct (lookup_lt_is_Some_2 time_data (i - 1) ltac:(lia)) as [tp Htp].
    unfold step at 2. cbn [mbind outcome_bind].
    rewrite (py_index_lookup _ _ _ Hti), (py_index_lookup _ _ _ Htp).
    cbn [mbind outcome_bind].
    destruct (Qle_bool (ti - tp) 0); [apply IH, Hl'|].
    destruct (distance_data !! i) as [di|] eqn:Hdi; [|apply IH, Hl'].
    destruct (distance_data !! (i - 1)) as [dp|] eqn:Hdp; [|apply IH, Hl'].
    destruct (is_none di) eqn:Ei; [apply IH, Hl'|].
    destruct (is_none dp) eqn:Ep; [apply IH, Hl'|]. cbn [orb].
    rewrite Forall_forall in Htyped.
    destruct (numeric_value_num_of di
                (Htyped _ (list_elem_of_lookup_2 _ _ _ Hdi)) Ei) as [x Hx].
    destruct (numeric_value_num_of dp
                (Htyped _ (list_elem_of_lookup_2 _ _ _ Hdp)) Ep) as [y Hy].
    unfold py_sub. rewrite Hx, Hy. cbn [mbind outcome_bind].
    destruct (Qle_bool (x - y) 0); apply IH, Hl'. }
  destruct (Hloop (seq 1 (length time_data - 1)) []) as [raw Hraw].
  { apply Forall_forall. intros i Hi%elem_of_seq. lia. }
  rewrite Hraw. cbn [mbind outcome_bind].
  destruct raw as [|p raw]; eexists; (split; [reflexivity|]).
  - discriminate.
  - intros q [= <-]. apply quantile_dict_levels.
Qed.

(** X11. On distances that are numbers or [None] the pace quantiles are computed
    without an exception, whatever the lengths of the two series; a result,
    when there is one, holds the five levels. Floats are exact rationals
    here: overflow and NaN are not covered. *)
Theorem calculate_pace_quantiles_total (time_data : list Q) (distance_data : list pyval) :
  Forall (fun d => numeric_or_none d = true) distance_data ->
  exists pace_quantiles,
    _calculate_pace_quantiles time_data distance_data = Ret pace_quantiles
    /\ forall q, pace_quantiles = Some q -> map fst q = ["5"; "25"; "50"; "75"; "95"].
Proof. exact (calculate_pace_quantiles_returns time_data distance_data). Qed.

Lemma calculate_pace_quantiles_total_witness :
  exists pace_quantiles,
    _calculate_pace_quantiles [0; 1; 2]%Q [VInt 0; VNone; VInt 7; VInt 9] = Ret pace_quantiles
    /\ forall q, pace_quantiles = Some q -> map fst q = ["5"; "25"; "50"; "75"; "95"].
Proof.
  apply (calculate_pace_quantiles_total [0; 1; 2]%Q [VInt 0; VNone; VInt 7; VInt 9]).
  repeat constructor.
Defined.

(** ** The sampling pipeline, continued *)

Lemma filter_by_moving_get (streams_dict : dict (list pyval)) (k : string) (data : list pyval) :
  Dict.get k (_filter_by_moving streams_dict) = Some data ->
  exists data', Dict.get k streams_dict = Some data'.
Proof.
  unfold _filter_by_moving.
  destruct (Dict.get "moving" streams_dict) as [moving_data|]; [|eauto].
  destruct (negb _); [eauto|].
  destruct (truthy_indices 0 moving_data) as [|i rest]; [discriminate|].
  rewrite get_map_values. destruct (Dict.get k streams_dict); [eauto | discriminate].
Qed.

Lemma filter_by_moving_mem (streams_dict : dict (list pyval)) (k : string) :
  _filter_by_moving streams_dict <> [] ->
  Dict.mem k (_filter_by_moving streams_dict) = Dict.mem k streams_dict.
Proof.
  unfold _filter_by_moving.
  destruct (Dict.get "moving" streams_dict) as [moving_data|]; [|reflexivity].
  destruct (negb _); [reflexivity|].
  destruct (truthy_indices 0 moving_data) as [|i rest]; [congruence|].
  intros _. unfold Dict.mem. rewrite get_map_values.
  destruct (Dict.get k streams_dict); reflexivity.
Qed.

Lemma double_cadence_mem (streams_dict : dict (list pyval)) (k : string) :
  Dict.mem k (_double_cadence_values streams_dict) = Dict.mem k streams_dict.
Proof.
  unfold _double_cadence_values.
  destruct (Dict.get "cadence" streams_dict) as [data|] eqn:E; [|reflexivity].
  unfold Dict.mem. destruct (String.eqb_spec k "cadence") as [->|Hne].
  - rewrite get_set_eq, E. reflexivity.
  - rewrite get_set_ne by exact Hne. reflexivity.
Qed.

Lemma pop_mem {V} (d : dict V) (k k' : string) :
  Dict.mem k (Dict.pop k' d) = negb (String.eqb k k') && Dict.mem k d.
Proof.
  unfold Dict.mem. destruct (String.eqb_spec k k') as [->|Hne].
  - rewrite get_pop_eq. reflexivity.
  - rewrite get_pop_ne by exact Hne. reflexivity.
Qed.

Lemma convert_streams_mem (streams_data : list RawStream) (k : string) :
  Dict.mem k (_convert_streams_to_dict streams_data) = true
  <-> k <> "" /\ List.filter (usable k) streams_data <> [].
Proof.
  unfold Dict.mem. split.
  - destruct (Dict.get k (_convert_streams_to_dict streams_data)) as [data|] eqn:E;
      [|discriminate].
    intros _. destruct (convert_streams_get_nonempty _ _ _ E) as [Hk _].
    split; [exact Hk|]. rewrite (convert_streams_get _ _ Hk) in E.
    intros Hnil. rewrite Hnil in E. discriminate E.
  - intros [Hk Hne]. rewrite (convert_streams_get _ _ Hk).
    destruct (List.filter (usable k) streams_data) as [|s l] using rev_ind; [congruence|].
    rewrite last_snoc. reflexivity.
Qed.

(** A stream reaches the normalised StreamSet only if it was supplied with
    data, and the moving stream never does. *)
Lemma normalised_streams_mem (streams_data : list RawStream) (filter_moving : bool)
    (k : string) :
  Dict.mem k (normalised_streams streams_data filter_moving) = true ->
  k <> "moving" /\ k <> "" /\ List.filter (usable k) streams_data <> [].
Proof.
  unfold normalised_streams. rewrite double_cadence_mem, pop_mem.
  intros [Hk Hmem]%andb_prop. apply negb_true_iff in Hk.
  split; [intros ->; discriminate Hk|].
  apply convert_streams_mem. destruct filter_moving; [|exact Hmem].
  unfold Dict.mem in *.
  destruct (Dict.get k (_filter_by_moving _)) as [data|] eqn:E; [|discriminate].
  destruct (filter_by_moving_get _ _ _ E) as [data' ->]. reflexivity.
Qed.

(** X12. Without a time stream that has data, the pipeline gives the empty
    result for every activity, interval and setting: it neither raises nor
    enters the sampling loop. *)
Theorem sample_streams_common_without_time (float_of_str : string -> option Q)
    (fuel : nat) (streams_data : list RawStream) (interval_seconds : Q)
    (filter_moving include_pace include_velocity : bool) :
  List.filter (usable "time") streams_data = [] ->
  _sample_streams_common float_of_str fuel streams_data interval_seconds
                         filter_moving include_pace include_velocity
  = Ret ([], []).
Proof.
  intros Htime. unfold _sample_streams_common.
  destruct streams_data as [|stream streams]; [reflexivity|].
  destruct (filter_moving && _); [reflexivity|].
  fold (normalised_streams (stream :: streams) filter_moving).
  destruct (Dict.get "time" (normalised_streams (stream :: streams) filter_moving))
    as [[|t0 rest]|] eqn:E; try reflexivity.
  exfalso.
  destruct (normalised_streams_mem (stream :: streams) filter_moving "time") as (_ & _ & H).
  - unfold Dict.mem. rewrite E. reflexivity.
  - exact (H Htime).
Qed.

Lemma sample_streams_common_without_time_witness :
  _sample_streams_common (fun _ => None) 0
    [ {| stream_type := Some "heartrate"; stream_data := [VInt 90; VStr "x"] |};
      {| stream_type := Some "time"; stream_data := [] |} ] (-1) true true true
  = Ret ([], []).
Proof. apply sample_streams_common_without_time. reflexivity. Defined.

(** *** What a non-empty result was built from *)

Lemma set_mem {V} (d : dict V) (k k' : string) (v : V) :
  Dict.mem k (Dict.set k' v d) = String.eqb k k' || Dict.mem k d.
Proof.
  unfold Dict.mem. destruct (String.eqb_spec k k') as [->|Hne].
  - rewrite get_set_eq. reflexivity.
  - rewrite get_set_ne by exact Hne. reflexivity.
Qed.

Ltac eval_eqb :=
  repeat match goal with
    | |- context [String.eqb ?a ?b] =>
        let v := eval vm_compute in (String.eqb a b) in
        change (String.eqb a b) with v
    end.

Lemma sample_streams_common_run (float_of_str : string -> option Q) (fuel : nat)
    (streams_data : list RawStream) (interval_seconds : Q)
    (filter_moving include_pace include_velocity : bool)
    (compact : dict string) (quantiles : dict (dict Q)) :
  _sample_streams_common float_of_str fuel streams_data interval_seconds
                         filter_moving include_pace include_velocity
  = Ret (compact, quantiles) ->
  compact <> [] ->
  exists time_offset raw_rest time_data unique_indices,
    (filter_moving = true ->
     _filter_by_moving (_convert_streams_to_dict streams_data) <> [])
    /\ Dict.get "time" (normalised_streams streams_data filter_moving)
       = Some (time_offset :: raw_rest)
    /\ mapM (fun t => x ← py_float float_of_str t;
                      o ← py_float float_of_str time_offset; Ret (x - o)%Q)
            (time_offset :: raw_rest) = Ret time_data
    /\ _find_sampling_indices fuel time_data interval_seconds = Ret unique_indices
    /\ unique_indices <> []
    /\ build_compact float_of_str
         (Dict.set "time" (map VFloat time_data)
                   (normalised_streams streams_data filter_moving))
         time_data unique_indices interval_seconds include_pace include_velocity
       = Ret compact
    /\ match Dict.get "distance"
               (Dict.set "time" (map VFloat time_data)
                         (normalised_streams streams_data filter_moving)) with
       | Some distance =>
           if include_pace then
             pace_quantiles ← _calculate_pace_quantiles time_data distance;
             match pace_quantiles with
             | Some pq =>
                 Ret (Dict.set "pace_s_per_km" pq
                        (_calculate_quantiles
                           (Dict.set "time" (map VFloat time_data)
                                     (normalised_streams streams_data filter_moving))
                           include_velocity))
             | None =>
                 Ret (_calculate_quantiles
                        (Dict.set "time" (map VFloat time_data)
                                  (normalised_streams streams_data filter_moving))
                        include_velocity)
             end
           else Ret (_calculate_quantiles
                       (Dict.set "time" (map VFloat time_data)
                                 (normalised_streams streams_data filter_moving))
                       include_velocity)
       | None => Ret (_calculate_quantiles
                        (Dict.set "time" (map VFloat time_data)
                                  (normalised_streams streams_data filter_moving))
                        include_velocity)
       end = Ret quantiles.
Proof.
  unfold _sample_streams_common. intros H Hcompact.
  destruct streams_data as [|stream streams]; [injection H as <- _; congruence|].
  fold (normalised_streams (stream :: streams) filter_moving) in H.
  destruct (filter_moving && _) eqn:Hcollapse; [injection H as <- _; congruence|].
  destruct (Dict.get "time" _) as [[|time_offset raw_rest]|] eqn:Htime;
    try (injection H as <- _; congruence).
  apply bind_Ret in H as (time_data & Hrebase & H).
  apply bind_Ret in H as (quantiles_result & Hq & H).
  apply bind_Ret in H as (unique_indices & Hidx & H).
  destruct unique_indices as [|i rest]; [injection H as <- _; congruence|].
  apply bind_Ret in H as (result & Hresult & [= <- <-]).
  exists time_offset, raw_rest, time_data, (i :: rest).
  split.
  { intros ->. cbn [andb] in Hcollapse. intros E. rewrite E in Hcollapse.
    discriminate Hcollapse. }
  repeat split; try assumption. discriminate.
Qed.

(** Which streams the normalised StreamSet of a run holds: those supplied
    with data, the moving stream apart. *)
Lemma normalised_streams_mem_iff (streams_data : list RawStream) (filter_moving : bool)
    (k : string) :
  (filter_moving = true ->
   _filter_by_moving (_convert_streams_to_dict streams_data) <> []) ->
  Dict.mem k (normalised_streams streams_data filter_moving) = true
  <-> k <> "moving" /\ k <> "" /\ List.filter (usable k) streams_data <> [].
Proof.
  intros Hkept. split; [apply normalised_streams_mem|].
  intros (Hmoving & Hk & Hsupplied).
  unfold normalised_streams. rewrite double_cadence_mem, pop_mem.
  apply andb_true_intro. split.
  - apply negb_true_iff. destruct (String.eqb_spec k "moving"); congruence.
  - destruct filter_moving.
    + rewrite filter_by_moving_mem by (apply Hkept; reflexivity).
      apply convert_streams_mem. split; assumption.
    + apply convert_streams_mem. split; assumption.
Qed.

Lemma build_compact_mem (float_of_str : string -> option Q) (streams_dict : dict (list pyval))
    (time_data : list Q) (unique_indices : list nat) (interval_seconds : Q)
    (include_pace include_velocity : bool) (compact : dict string) (k : string) :
  build_compact float_of_str streams_dict time_data unique_indices interval_seconds
                include_pace include_velocity = Ret compact ->
  Dict.mem k compact
  = (String.eqb k "cadence_spm_csv" && Dict.mem "cadence" streams_dict)
    || ((String.eqb k "velocity_smooth_ms_csv"
         && (include_velocity && Dict.mem "velocity_smooth" streams_dict))
        || ((String.eqb k "alt_m_csv" && Dict.mem "altitude" streams_dict)
            || ((String.eqb k "hr_bpm_csv" && Dict.mem "heartrate" streams_dict)
                || ((String.eqb k "pace_s_per_km_csv"
                     && (include_pace && Dict.mem "distance" streams_dict))
                    || (String.eqb k "sampling" || String.eqb k "time_s_csv"))))).
Proof.
  unfold build_compact. intros H.
  apply bind_Ret in H as (sampled_time & _ & H).
  apply bind_Ret in H as (r1 & H1 & H).
  apply bind_Ret in H as (r2 & H2 & H).
  apply bind_Ret in H as (r3 & H3 & H).
  apply bind_Ret in H as (r4 & H4 & H).
  assert (E5 : Dict.mem k compact
               = (String.eqb k "cadence_spm_csv" && Dict.mem "cadence" streams_dict)
                 || Dict.mem k r4).
  { unfold Dict.mem at 2. destruct (Dict.get "cadence" streams_dict).
    - apply bind_Ret in H as (csv & _ & [= <-]). rewrite set_mem, andb_true_r. reflexivity.
    - injection H as <-. rewrite andb_false_r. reflexivity. }
  assert (E4 : Dict.mem k r4
               = (String.eqb k "velocity_smooth_ms_csv"
                  && (include_velocity && Dict.mem "velocity_smooth" streams_dict))
                 || Dict.mem k r3).
  { unfold Dict.mem at 2. destruct (Dict.get "velocity_smooth" streams_dict).
    - destruct include_velocity.
      + apply bind_Ret in H4 as (csv & _ & [= <-]). rewrite set_mem, andb_true_r.
        reflexivity.
      + injection H4 as <-. rewrite andb_false_r. reflexivity.
    - injection H4 as <-. rewrite !andb_false_r. reflexivity. }
  assert (E3 : Dict.mem k r3
               = (String.eqb k "alt_m_csv" && Dict.mem "altitude" streams_dict)
                 || Dict.mem k r2).
  { unfold Dict.mem at 2. destruct (Dict.get "altitude" streams_dict).
    - apply bind_Ret in H3 as (csv & _ & [= <-]). rewrite set_mem, andb_true_r. reflexivity.
    - injection H3 as <-. rewrite andb_false_r. reflexivity. }
  assert (E2 : Dict.mem k r2
               = (String.eqb k "hr_bpm_csv" && Dict.mem "heartrate" streams_dict)
                 || Dict.mem k r1).
  { unfold Dict.mem at 2. destruct (Dict.get "heartrate" streams_dict).
    - apply bind_Ret in H2 as (csv & _ & [= <-]). rewrite set_mem, andb_true_r. reflexivity.
    - injection H2 as <-. rewrite andb_false_r. reflexivity. }
  assert (E1 : Dict.mem k r1
               = (String.eqb k "pace_s_per_km_csv"
                  && (include_pace && Dict.mem "distance" streams_dict))
                 || (String.eqb k "sampling" || String.eqb k "time_s_csv")).
  { unfold Dict.mem at 2. destruct (Dict.get "distance" streams_dict).
    - destruct include_pace.
      + apply bind_Ret in H1 as (pace_values & _ & [= <-]).
        unfold Dict.mem. cbn [Dict.get andb].
        destruct (String.eqb k "sampling"), (String.eqb k "time_s_csv"),
          (String.eqb k "pace_s_per_km_csv"); reflexivity.
      + injection H1 as <-. rewrite andb_false_r. unfold Dict.mem. cbn [Dict.get orb].
        destruct (String.eqb k "sampling"), (String.eqb k "time_s_csv"); reflexivity.
    - injection H1 as <-. rewrite !andb_false_r. unfold Dict.mem. cbn [Dict.get orb].
      destruct (String.eqb k "sampling"), (String.eqb k "time_s_csv"); reflexivity. }
  rewrite E5, E4, E3, E2, E1. reflexivity.
Qed.

(** X13. A compact record holds no key beyond the seven the module writes, and a
    non-empty one always has its sampling label and its time series. *)
Theorem compact_record_keys (float_of_str : string -> option Q) (fuel : nat)
    (streams_data : list RawStream) (interval_seconds : Q)
    (filter_moving include_pace include_velocity : bool)
    (compact : dict string) (quantiles : dict (dict Q)) :
  _sample_streams_common float_of_str fuel streams_data interval_seconds
                         filter_moving include_pace include_velocity
  = Ret (compact, quantiles) ->
  (forall k, Dict.mem k compact = true -> In k compact_keys)
  /\ (compact <> [] ->
      Dict.mem "sampling" compact = true /\ Dict.mem "time_s_csv" compact = true).
Proof.
  intros H.
  assert (Hcases : compact = [] \/ compact <> [])
    by (destruct compact; [left; reflexivity | right; discriminate]).
  destruct Hcases as [->|Hne]; [split; [discriminate | congruence]|].
  destruct (sample_streams_common_run _ _ _ _ _ _ _ _ _ H Hne)
    as (t0 & raw & td & idx & _ & _ & _ & _ & _ & Hbuild & _).
  split.
  - intros k. rewrite (build_compact_mem _ _ _ _ _ _ _ _ k Hbuild). unfold compact_keys, csv_fields.
    intros Hk. repeat (apply orb_prop in Hk as [Hk|Hk]);
      try (apply andb_prop in Hk as [Hk _]); apply String.eqb_eq in Hk; subst k;
      cbn; tauto.
  - intros _. rewrite !(build_compact_mem _ _ _ _ _ _ _ _ _ Hbuild).
    split; eval_eqb; cbn [andb orb]; rewrite ?orb_true_r; reflexivity.
Qed.

Lemma compact_record_keys_witness :
  (forall k, Dict.mem k (fst scenario_result) = true -> In k compact_keys)
  /\ (fst scenario_result <> [] ->
      Dict.mem "sampling" (fst scenario_result) = true
      /\ Dict.mem "time_s_csv" (fst scenario_result) = true).
Proof.
  apply (compact_record_keys (fun _ => None) 3 scenario_streams 5 true true true
           (fst scenario_result) (snd scenario_result)).
  vm_compute. reflexivity.
Defined.

(** X14. In a non-empty compact record a stream's field is present exactly when
    the field is enabled by the flags and a raw stream of the source type
    was supplied with data; the pace field stands for the distance stream. *)
Theorem compact_field_presence (float_of_str : string -> option Q) (fuel : nat)
    (streams_data : list RawStream) (interval_seconds : Q)
    (filter_moving include_pace include_velocity : bool)
    (compact : dict string) (quantiles : dict (dict Q)) (field source : string) :
  _sample_streams_common float_of_str fuel streams_data interval_seconds
                         filter_moving include_pace include_velocity
  = Ret (compact, quantiles) ->
  compact <> [] ->
  In (field, source) field_sources ->
  Dict.mem field compact = true
  <-> field_enabled field include_pace include_velocity = true
      /\ List.filter (usable source) streams_data <> [].
Proof.
  intros H Hne Hin.
  destruct (sample_streams_common_run _ _ _ _ _ _ _ _ _ H Hne)
    as (t0 & raw & td & idx & Hkept & _ & _ & _ & _ & Hbuild & _).
  rewrite (build_compact_mem _ _ _ _ _ _ _ _ field Hbuild), !set_mem.
  pose proof (fun k => normalised_streams_mem_iff streams_data filter_moving k Hkept)
    as Hmem.
  unfold field_sources, sampled_fields, field_enabled in *. cbn [In] in Hin.
  destruct Hin as [[= <- <-]|[[= <- <-]|[[= <- <-]|[[= <- <-]|[[= <- <-]|[]]]]]];
    eval_eqb; cbn [andb orb]; rewrite ?orb_false_r.
  - rewrite andb_true_iff, Hmem. intuition discriminate.
  - rewrite Hmem. intuition discriminate.
  - rewrite Hmem. intuition discriminate.
  - rewrite andb_true_iff, Hmem. intuition discriminate.
  - rewrite Hmem. intuition discriminate.
Qed.

Lemma compact_field_presence_witness :
  Dict.mem "pace_s_per_km_csv" (fst scenario_result) = true
  <-> field_enabled "pace_s_per_km_csv" true true = true
      /\ List.filter (usable "distance") scenario_streams <> [].
Proof.
  apply (compact_field_presence (fun _ => None) 3 scenario_streams 5 true true true
           (fst scenario_result) (snd scenario_result)).
  - vm_compute. reflexivity.
  - discriminate.
  - left. reflexivity.
Defined.

(** *** The first sample *)

Lemma py_round_comp (x y : Q) : (x == y)%Q -> py_round x = py_round y.
Proof.
  intros H. unfold py_round. rewrite (Qfloor_comp x y H).
  assert (E : ((x - inject_Z (Qfloor y)) ?= 1 # 2)%Q = ((y - inject_Z (Qfloor y)) ?= 1 # 2)%Q)
    by (rewrite H; reflexivity).
  rewrite E. reflexivity.
Qed.

Lemma find_sampling_indices_head (fuel : nat) (t0 : Q) (rest : list Q)
    (interval_seconds : Q) (unique_indices : list nat) :
  (t0 == 0)%Q ->
  _find_sampling_indices fuel (t0 :: rest) interval_seconds = Ret unique_indices ->
  unique_indices = [] \/ exists others, unique_indices = 0 :: others.
Proof.
  intros Ht0. unfold _find_sampling_indices.
  destruct (last (t0 :: rest)) as [max_time|]; [|intros [= <-]; left; reflexivity].
  intros (target_times & Ht & (sampled & Hs & [= <-])%bind_Ret)%bind_Ret.
  destruct fuel; cbn [target_times_loop] in Ht;
    destruct (Qle_bool 0 max_time); try discriminate.
  - injection Ht as <-. injection Hs as <-. left. reflexivity.
  - apply bind_Ret in Ht as (later & _ & [= <-]). cbn [mapM] in Hs.
    apply bind_Ret in Hs as (i0 & Hi0 & (rs & _ & [= <-])%bind_Ret).
    cbn [closest_idx] in Hi0. rewrite closest_scan_keeps_exact in Hi0.
    + injection Hi0 as <-. right. cbn [unique_from].
      destruct (decide (0 ∈ (∅ : gset nat))) as [Hin|_];
        [exfalso; exact (not_elem_of_empty (C := gset nat) 0 Hin)|].
      eauto.
    + rewrite Ht0. reflexivity.
  - injection Ht as <-. injection Hs as <-. left. reflexivity.
Qed.

Lemma build_compact_time (float_of_str : string -> option Q)
    (streams_dict : dict (list pyval)) (time_data : list Q) (unique_indices : list nat)
    (interval_seconds : Q) (include_pace include_velocity : bool) (compact : dict string) :
  build_compact float_of_str streams_dict time_data unique_indices interval_seconds
                include_pace include_velocity = Ret compact ->
  exists sampled_time,
    mapM (py_index time_data) unique_indices = Ret sampled_time
    /\ Dict.get "time_s_csv" compact
       = Some (py_join "," (map (fun t => str_of_int (py_round t)) sampled_time))
    /\ Dict.get "sampling" compact
       = Some ("approx_" ++ str_of_int (py_int interval_seconds) ++ "s")%string.
Proof.
  unfold build_compact. intros H.
  apply bind_Ret in H as (sampled_time & Hst & H).
  exists sampled_time. split; [exact Hst|].
  apply bind_Ret in H as (r1 & H1 & H).
  apply bind_Ret in H as (r2 & H2 & H).
  apply bind_Ret in H as (r3 & H3 & H).
  apply bind_Ret in H as (r4 & H4 & H).
  assert (E5 : forall k, k <> "cadence_spm_csv" -> Dict.get k compact = Dict.get k r4).
  { intros k Hk. destruct (Dict.get "cadence" streams_dict).
    - apply bind_Ret in H as (csv & _ & [= <-]). apply get_set_ne, Hk.
    - injection H as <-. reflexivity. }
  assert (E4 : forall k, k <> "velocity_smooth_ms_csv" -> Dict.get k r4 = Dict.get k r3).
  { intros k Hk. destruct (Dict.get "velocity_smooth" streams_dict);
      [destruct include_velocity|].
    - apply bind_Ret in H4 as (csv & _ & [= <-]). apply get_set_ne, Hk.
    - injection H4 as <-. reflexivity.
    - injection H4 as <-. reflexivity. }
  assert (E3 : forall k, k <> "alt_m_csv" -> Dict.get k r3 = Dict.get k r2).
  { intros k Hk. destruct (Dict.get "altitude" streams_dict).
    - apply bind_Ret in H3 as (csv & _ & [= <-]). apply get_set_ne, Hk.
    - injection H3 as <-. reflexivity. }
  assert (E2 : forall k, k <> "hr_bpm_csv" -> Dict.get k r2 = Dict.get k r1).
  { intros k Hk. destruct (Dict.get "heartrate" streams_dict).
    - apply bind_Ret in H2 as (csv & _ & [= <-]). apply get_set_ne, Hk.
    - injection H2 as <-. reflexivity. }
  split.
  - rewrite E5, E4, E3, E2 by discriminate.
    destruct (Dict.get "distance" streams_dict); [destruct include_pace|].
    + apply bind_Ret in H1 as (pace_values & _ & [= <-]). reflexivity.
    + injection H1 as <-. reflexivity.
    + injection H1 as <-. reflexivity.
  - rewrite E5, E4, E3, E2 by discriminate.
    destruct (Dict.get "distance" streams_dict); [destruct include_pace|].
    + apply bind_Ret in H1 as (pace_values & _ & [= <-]). reflexivity.
    + injection H1 as <-. reflexivity.
    + injection H1 as <-. reflexivity.
Qed.

(** X15. Every compact record starts at time zero: the first entry of its time
    series is ["0"], whatever the first raw time stamp was. *)
Theorem compact_time_starts_at_zero (float_of_str : string -> option Q) (fuel : nat)
    (streams_data : list RawStream) (interval_seconds : Q)
    (filter_moving include_pace include_velocity : bool)
    (compact : dict string) (quantiles : dict (dict Q)) (csv : string) :
  _sample_streams_common float_of_str fuel streams_data interval_seconds
                         filter_moving include_pace include_velocity
  = Ret (compact, quantiles) ->
  Dict.get "time_s_csv" compact = Some csv ->
  head (py_split comma csv) = Some "0".
Proof.
  intros H Hcsv.
  assert (Hne : compact <> []) by (intros ->; discriminate Hcsv).
  destruct (sample_streams_common_run _ _ _ _ _ _ _ _ _ H Hne)
    as (t0 & raw & td & idx & _ & _ & Hrebase & Hidx & Hidx_ne & Hbuild & _).
  cbn [mapM] in Hrebase.
  apply bind_Ret in Hrebase as (first & Hfirst & (later & _ & [= <-])%bind_Ret).
  apply bind_Ret in Hfirst as (x & Hx & (o & Ho & [= <-])%bind_Ret).
  assert (x = o) as -> by congruence.
  assert (Hzero : (o - o == 0)%Q) by ring.
  destruct (find_sampling_indices_head _ _ _ _ _ Hzero Hidx) as [->|[others ->]];
    [congruence|].
  destruct (build_compact_time _ _ _ _ _ _ _ _ Hbuild) as (sampled_time & Hst & Htime & _).
  cbn [mapM] in Hst. apply bind_Ret in Hst as (s0 & Hs0 & (ss & _ & [= <-])%bind_Ret).
  injection Hs0 as <-.
  assert (csv = py_join "," (map (fun t => str_of_int (py_round t)) ((o - o)%Q :: ss)))
    as -> by congruence.
  rewrite py_split_join.
  - cbn [map head]. rewrite (py_round_comp _ _ Hzero). reflexivity.
  - discriminate.
  - apply Forall_forall. intros token (t & -> & _)%list_elem_of_fmap.
    apply no_comma_str_of_int.
Qed.

Lemma compact_time_starts_at_zero_witness :
  head (py_split comma "0,2,4") = Some "0".
Proof.
  apply (compact_time_starts_at_zero (fun _ => None) 3
           [ {| stream_type := Some "time"; stream_data := map VInt [100; 101; 102; 103; 104]%Z |} ]
           2 false false false
           [("sampling", "approx_2s"); ("time_s_csv", "0,2,4")]
           [("time_s", [("5", 1 # 5); ("25", 1); ("50", 2); ("75", 3); ("95", 19 # 5)])]%Q).
  - vm_compute. reflexivity.
  - reflexivity.
Defined.

(** *** The quantile summary of a run *)

Lemma calculate_pace_quantiles_levels (time_data : list Q) (distance_data : list pyval)
    (q : dict Q) :
  _calculate_pace_quantiles time_data distance_data = Ret (Some q) ->
  map fst q = ["5"; "25"; "50"; "75"; "95"].
Proof.
  unfold _calculate_pace_quantiles. intros (raw & _ & H)%bind_Ret.
  destruct raw; [discriminate|]. injection H as <-. apply quantile_dict_levels.
Qed.

Lemma rebased_time_quantiles (time_data : list Q) (streams_dict : dict (list pyval))
    (include_velocity : bool) :
  time_data <> [] ->
  Dict.mem "time_s"
    (_calculate_quantiles (Dict.set "time" (map VFloat time_data) streams_dict)
                          include_velocity) = true.
Proof.
  intros Hne. apply calculate_quantiles_mem. split; [|discriminate].
  exists "time", (map VFloat time_data). split; [|split].
  - apply get_Some_In, get_set_eq.
  - reflexivity.
  - destruct time_data as [|t rest]; [congruence|]. discriminate.
Qed.

(** A run that yields no compact record yields no quantiles either. *)
Lemma sample_streams_common_no_compact (float_of_str : string -> option Q)
    (fuel : nat) (streams_data : list RawStream) (interval_seconds : Q)
    (filter_moving include_pace include_velocity : bool) (quantiles : dict (dict Q)) :
  _sample_streams_common float_of_str fuel streams_data interval_seconds
                         filter_moving include_pace include_velocity
  = Ret ([], quantiles) ->
  quantiles = [].
Proof.
  unfold _sample_streams_common.
  destruct streams_data; [intros [= <-]; reflexivity|].
  destruct (filter_moving && _); [intros [= <-]; reflexivity|].
  destruct (Dict.get "time" _) as [[|time_offset raw_rest]|];
    try (intros [= <-]; reflexivity).
  intros (time_data & _ & (quantiles_result & _ & (unique_indices & _ & H)%bind_Ret)
                             %bind_Ret)%bind_Ret.
  destruct unique_indices as [|i rest]; [injection H as <-; reflexivity|].
  apply bind_Ret in H as (result & Hresult & [= -> _]).
  destruct (build_compact_time _ _ _ _ _ _ _ _ Hresult) as (st & _ & Htime & _).
  discriminate Htime.
Qed.

(** A run that yields a compact record yields the quantiles of the time
    stream with it. *)
Lemma sample_streams_common_time_quantiles (float_of_str : string -> option Q)
    (fuel : nat) (streams_data : list RawStream) (interval_seconds : Q)
    (filter_moving include_pace include_velocity : bool)
    (compact : dict string) (quantiles : dict (dict Q)) :
  _sample_streams_common float_of_str fuel streams_data interval_seconds
                         filter_moving include_pace include_velocity
  = Ret (compact, quantiles) ->
  compact <> [] ->
  Dict.mem "time_s" quantiles = true.
Proof.
  intros H Hne.
  destruct (sample_streams_common_run _ _ _ _ _ _ _ _ _ H Hne)
    as (t0 & raw & td & idx & _ & _ & Hrebase & _ & _ & _ & Hq).
  assert (Htd : td <> []).
  { apply mapM_Ret_length in Hrebase. destruct td; [discriminate Hrebase | discriminate]. }
  pose proof (rebased_time_quantiles td (normalised_streams streams_data filter_moving)
                include_velocity Htd) as Htime.
  destruct (Dict.get "distance" _); [destruct include_pace|].
  - apply bind_Ret in Hq as ([pq|] & _ & [= <-]); [|exact Htime].
    rewrite set_mem. exact Htime.
  - injection Hq as <-. exact Htime.
  - injection Hq as <-. exact Htime.
Qed.

(** X16. The two parts of a result are empty together: a run that yields a
    compact record also yields quantiles (those of the time stream at
    least), and a run that yields no compact record yields no quantiles. *)
Theorem sample_streams_common_empty_together (float_of_str : string -> option Q)
    (fuel : nat) (streams_data : list RawStream) (interval_seconds : Q)
    (filter_moving include_pace include_velocity : bool)
    (compact : dict string) (quantiles : dict (dict Q)) :
  _sample_streams_common float_of_str fuel streams_data interval_seconds
                         filter_moving include_pace include_velocity
  = Ret (compact, quantiles) ->
  (compact = [] <-> quantiles = [])
  /\ (compact <> [] -> Dict.mem "time_s" quantiles = true).
Proof.
  intros H.
  pose proof (sample_streams_common_time_quantiles _ _ _ _ _ _ _ _ _ H) as Hfull.
  split; [|exact Hfull]. split.
  - intros ->. exact (sample_streams_common_no_compact _ _ _ _ _ _ _ _ H).
  - intros ->. destruct compact as [|kv compact]; [reflexivity|].
    specialize (Hfull ltac:(discriminate)). discriminate Hfull.
Qed.

Lemma sample_streams_common_empty_together_witness :
  (fst scenario_result = [] <-> snd scenario_result = [])
  /\ (fst scenario_result <> [] -> Dict.mem "time_s" (snd scenario_result) = true).
Proof.
  apply (sample_streams_common_empty_together (fun _ => None) 3 scenario_streams 5
           true true true (fst scenario_result) (snd scenario_result)).
  vm_compute. reflexivity.
Defined.

(** X17. Every entry of the quantile summary of a run, the pace entry included,
    holds the five levels 5, 25, 50, 75 and 95 in this order. *)
Theorem sample_streams_common_quantile_levels (float_of_str : string -> option Q)
    (fuel : nat) (streams_data : list RawStream) (interval_seconds : Q)
    (filter_moving include_pace include_velocity : bool)
    (compact : dict string) (quantiles : dict (dict Q)) (key : string) (q : dict Q) :
  _sample_streams_common float_of_str fuel streams_data interval_seconds
                         filter_moving include_pace include_velocity
  = Ret (compact, quantiles) ->
  Dict.get key quantiles = Some q ->
  map fst q = ["5"; "25"; "50"; "75"; "95"].
Proof.
  intros H Hkey.
  assert (Hne : compact <> []).
  { intros ->. rewrite (sample_streams_common_no_compact _ _ _ _ _ _ _ _ H) in Hkey.
    discriminate Hkey. }
  destruct (sample_streams_common_run _ _ _ _ _ _ _ _ _ H Hne)
    as (t0 & raw & td & idx & _ & _ & _ & _ & _ & _ & Hq).
  assert (Hbase : forall q',
            Dict.get key
              (_calculate_quantiles
                 (Dict.set "time" (map VFloat td)
                           (normalised_streams streams_data filter_moving))
                 include_velocity) = Some q' ->
            map fst q' = ["5"; "25"; "50"; "75"; "95"])
    by (intros q'; apply calculate_quantiles_levels).
  destruct (Dict.get "distance" _); [destruct include_pace|].
  - apply bind_Ret in Hq as ([pq|] & Hpq & [= <-]); [|exact (Hbase q Hkey)].
    destruct (String.eqb_spec key "pace_s_per_km") as [->|Hother].
    + rewrite get_set_eq in Hkey. injection Hkey as <-.
      exact (calculate_pace_quantiles_levels _ _ _ Hpq).
    + rewrite get_set_ne in Hkey by exact Hother. exact (Hbase q Hkey).
  - injection Hq as <-. exact (Hbase q Hkey).
  - injection Hq as <-. exact (Hbase q Hkey).
Qed.

Lemma sample_streams_common_quantile_levels_witness :
  map fst (default [] (Dict.get "pace_s_per_km" (snd scenario_result)))
  = ["5"; "25"; "50"; "75"; "95"].
Proof.
  apply (sample_streams_common_quantile_levels (fun _ => None) 3 scenario_streams 5
           true true true (fst scenario_result) (snd scenario_result) "pace_s_per_km").
  - vm_compute. reflexivity.
  - vm_compute. reflexivity.
Defined.

(** *** The public sampling functions *)

(** X18. When no moving stream with data is supplied, the moving filter has
    nothing to act on: the pipeline gives the same outcome with it and
    without it. *)
Theorem moving_filter_needs_moving_stream (float_of_str : string -> option Q)
    (fuel : nat) (streams_data : list RawStream) (interval_seconds : Q)
    (include_pace include_velocity : bool) :
  List.filter (usable "moving") streams_data = [] ->
  _sample_streams_common float_of_str fuel streams_data interval_seconds
                         true include_pace include_velocity
  = _sample_streams_common float_of_str fuel streams_data interval_seconds
                           false include_pace include_velocity.
Proof.
  intros Hmoving. unfold _sample_streams_common.
  destruct streams_data as [|stream streams]; [reflexivity|].
  assert (Hget : Dict.get "moving" (_convert_streams_to_dict (stream :: streams)) = None).
  { rewrite convert_streams_get by discriminate. rewrite Hmoving. reflexivity. }
  assert (Hsame : _filter_by_moving (_convert_streams_to_dict (stream :: streams))
                  = _convert_streams_to_dict (stream :: streams)).
  { unfold _filter_by_moving. rewrite Hget. reflexivity. }
  cbn [andb]. rewrite Hsame.
  destruct (_convert_streams_to_dict (stream :: streams)) as [|kv d]; reflexivity.
Qed.

Lemma moving_filter_needs_moving_stream_witness :
  _sample_streams_common (fun _ => None) 3 scenario_streams 5 true true false
  = _sample_streams_common (fun _ => None) 3 scenario_streams 5 false true false.
Proof. apply moving_filter_needs_moving_stream. reflexivity. Defined.

Lemma sample_streams_common_flags_off (float_of_str : string -> option Q)
    (fuel : nat) (streams_data : list RawStream) (interval_seconds : Q)
    (filter_moving : bool) (compact : dict string) (quantiles : dict (dict Q)) :
  _sample_streams_common float_of_str fuel streams_data interval_seconds
                         filter_moving false false
  = Ret (compact, quantiles) ->
  Dict.mem "pace_s_per_km_csv" compact = false
  /\ Dict.mem "velocity_smooth_ms_csv" compact = false
  /\ Dict.mem "velocity_smooth_ms" quantiles = false.
Proof.
  intros H.
  assert (Hcases : compact = [] \/ compact <> [])
    by (destruct compact; [left; reflexivity | right; discriminate]).
  destruct Hcases as [->|Hne].
  - rewrite (sample_streams_common_no_compact _ _ _ _ _ _ _ _ H). repeat split.
  - destruct (sample_streams_common_run _ _ _ _ _ _ _ _ _ H Hne)
      as (t0 & raw & td & idx & _ & _ & _ & _ & _ & Hbuild & Hq).
    rewrite !(build_compact_mem _ _ _ _ _ _ _ _ _ Hbuild).
    split; [eval_eqb; reflexivity|]. split; [eval_eqb; reflexivity|].
    assert (quantiles
            = _calculate_quantiles
                (Dict.set "time" (map VFloat td)
                          (normalised_streams streams_data filter_moving))
                false) as ->.
    { destruct (Dict.get "distance" _); congruence. }
    destruct (Dict.mem "velocity_smooth_ms" _) eqn:E; [|reflexivity].
    apply calculate_quantiles_mem in E as [_ E]. discriminate (E eq_refl).
Qed.

(** X19. Sampling without the moving filter never reports pace or velocity:
    neither field is in the compact record, and the quantiles hold no
    velocity entry. *)
Theorem without_moving_filter_omits_pace_and_velocity (float_of_str : string -> option Q)
    (fuel : nat) (streams_data : list RawStream) (interval_seconds : Q)
    (compact : dict string) (quantiles : dict (dict Q)) :
  sample_streams_without_moving_filter float_of_str fuel streams_data interval_seconds
  = Ret (compact, quantiles) ->
  Dict.mem "pace_s_per_km_csv" compact = false
  /\ Dict.mem "velocity_smooth_ms_csv" compact = false
  /\ Dict.mem "velocity_smooth_ms" quantiles = false.
Proof. apply sample_streams_common_flags_off. Qed.

Lemma without_moving_filter_omits_pace_and_velocity_witness :
  Dict.mem "pace_s_per_km_csv" (fst scenario_result_unfiltered) = false
  /\ Dict.mem "velocity_smooth_ms_csv" (fst scenario_result_unfiltered) = false
  /\ Dict.mem "velocity_smooth_ms" (snd scenario_result_unfiltered) = false.
Proof.
  apply (without_moving_filter_omits_pace_and_velocity (fun _ => None) 3 scenario_streams 5).
  vm_compute. reflexivity.
Defined.

(** ** Record assembly, continued *)

Lemma get_not_key {V} (k : string) (d : dict V) :
  ~ In k (map fst d) -> Dict.get k d = None.
Proof.
  induction d as [|[k' v] d IH]; [reflexivity|]. cbn [map fst In Dict.get]. intros H.
  destruct (String.eqb_spec k k') as [->|_]; [tauto|]. apply IH. tauto.
Qed.

Lemma set_keys {V} (k : string) (v : V) (d : dict V) :
  map fst (Dict.set k v d) = if Dict.mem k d then map fst d else map fst d ++ [k].
Proof.
  unfold Dict.mem. induction d as [|[k' v'] d IH]; [reflexivity|].
  cbn [Dict.set Dict.get].
  destruct (String.eqb_spec k k') as [->|Hne]; [reflexivity|].
  cbn [map fst]. rewrite IH. destruct (Dict.get k d); reflexivity.
Qed.

Lemma set_keys_NoDup {V} (k : string) (v : V) (d : dict V) :
  NoDup (map fst d) -> NoDup (map fst (Dict.set k v d)).
Proof.
  intros H. rewrite set_keys. unfold Dict.mem.
  destruct (Dict.get k d) eqn:E; [exact H|].
  apply NoDup_app. split; [exact H|]. split; [|apply NoDup_singleton].
  intros x Hx ->%list_elem_of_singleton.
  apply list_elem_of_In, in_map_iff in Hx as ([k' v'] & Hk & Hin). cbn in Hk. subst k'.
  clear H. induction d as [|[k0 v0] d IH]; [destruct Hin|].
  cbn [Dict.get] in E. destruct (String.eqb_spec k k0) as [->|Hne]; [discriminate|].
  destruct Hin as [[= -> ->]|Hin]; [congruence|]. exact (IH E Hin).
Qed.

Lemma get_filter_values {V} (p : V -> bool) (k : string) (d : dict V) :
  NoDup (map fst d) ->
  Dict.get k (List.filter (fun '(_, v) => p v) d)
  = Dict.get k d ≫= (fun v => if p v then Some v else None).
Proof.
  induction d as [|[k' v] d IH]; [reflexivity|].
  cbn [map fst]. intros [Hnew Hd]%NoDup_cons. specialize (IH Hd).
  cbn [List.filter Dict.get].
  destruct (p v) eqn:Hp; cbn [Dict.get];
    destruct (String.eqb_spec k k') as [->|Hne]; cbn; rewrite ?Hp; try reflexivity;
    try exact IH.
  rewrite IH, get_not_key; [reflexivity|].
  intros Hin. apply Hnew, list_elem_of_In, Hin.
Qed.

Lemma sample_for_activity_run (float_of_str : string -> option Q) (fuel : nat)
    (streams_data : list RawStream) (interval_seconds : Q) (activity_name : pyval)
    (compact_streams : dict string) (quantiles : dict (dict Q)) :
  sample_for_activity float_of_str fuel streams_data interval_seconds activity_name
  = Ret (compact_streams, quantiles) ->
  exists is_running is_rest compact quantiles0,
    _is_running_activity activity_name = Ret is_running
    /\ _is_rest_activity activity_name = Ret is_rest
    /\ _sample_streams_common float_of_str fuel streams_data interval_seconds
                              is_running is_running is_running
       = Ret (compact, quantiles0)
    /\ compact_streams = (if is_rest then Dict.pop "alt_m_csv" compact else compact)
    /\ quantiles
       = (let quantiles1 :=
            if negb is_running then Dict.pop "distance_m" quantiles0 else quantiles0 in
          if is_rest then Dict.pop "altitude_m" quantiles1 else quantiles1).
Proof.
  unfold sample_for_activity.
  intros (is_running & Hrun & (is_rest & Hrest & ([compact quantiles0] & Hcommon & H)
                                 %bind_Ret)%bind_Ret)%bind_Ret.
  injection H as <- <-. exists is_running, is_rest, compact, quantiles0.
  repeat split; assumption.
Qed.

Lemma mem_not_empty {V} (k : string) (d : dict V) :
  Dict.mem k d = true -> Dict.is_empty d = false.
Proof. destruct d; [discriminate | reflexivity]. Qed.

(** The suppression steps never empty a part of the result: the compact
    record and the quantiles of an activity are empty together. *)
Lemma sample_for_activity_empty_together (float_of_str : string -> option Q) (fuel : nat)
    (streams_data : list RawStream) (interval_seconds : Q) (activity_name : pyval)
    (compact_streams : dict string) (quantiles : dict (dict Q)) :
  sample_for_activity float_of_str fuel streams_data interval_seconds activity_name
  = Ret (compact_streams, quantiles) ->
  Dict.is_empty compact_streams = Dict.is_empty quantiles.
Proof.
  intros H.
  destruct (sample_for_activity_run _ _ _ _ _ _ _ H)
    as (is_running & is_rest & compact & quantiles0 & _ & _ & Hcommon & -> & ->).
  assert (Hcases : compact = [] \/ compact <> [])
    by (destruct compact; [left; reflexivity | right; discriminate]).
  destruct Hcases as [->|Hne].
  - rewrite (sample_streams_common_no_compact _ _ _ _ _ _ _ _ Hcommon).
    destruct is_running, is_rest; reflexivity.
  - pose proof (sample_streams_common_time_quantiles _ _ _ _ _ _ _ _ _ Hcommon Hne) as Hq.
    destruct (sample_streams_common_run _ _ _ _ _ _ _ _ _ Hcommon Hne)
      as (t0 & raw & td & idx & _ & _ & _ & _ & _ & Hbuild & _).
    destruct (build_compact_time _ _ _ _ _ _ _ _ Hbuild) as (st & _ & _ & Hsampling).
    assert (Hc : Dict.mem "sampling" compact = true)
      by (unfold Dict.mem; rewrite Hsampling; reflexivity).
    rewrite (mem_not_empty "sampling"), (mem_not_empty "time_s"); [reflexivity| |].
    + cbv zeta. destruct is_running, is_rest; cbn [negb]; rewrite ?pop_mem; eval_eqb;
        cbn [negb andb]; exact Hq.
    + destruct is_rest; rewrite ?pop_mem; eval_eqb; cbn [negb andb]; exact Hc.
Qed.

Lemma Ret_inj {A} (a b : A) : Ret a = Ret b -> a = b.
Proof. congruence. Qed.

Lemma scalar_keys_NoDup : NoDup (map fst scalar_fields).
Proof. apply (bool_decide_unpack _). vm_compute. exact I. Qed.

(** The dictionary of a record before the [None] values are removed. *)
Lemma record_run (float_of_str : string -> option Q) (fuel : nat)
    (activity_data : dict pyval) (streams_data : option (list RawStream))
    (interval_seconds : Q) (record : dict pyval) :
  create_activity_jsonl_object float_of_str fuel activity_data streams_data interval_seconds
  = Ret record ->
  exists jsonl_obj,
    record = List.filter (fun '(_, v) => negb (is_none v)) jsonl_obj
    /\ NoDup (map fst jsonl_obj)
    /\ (forall out inp, In (out, inp) scalar_fields ->
                        Dict.get out jsonl_obj = Some (get_or_none inp activity_data))
    /\ (forall k, In k (map fst jsonl_obj) ->
                  In k (map fst scalar_fields) \/ k = "streams_compact" \/ k = "quantiles")
    /\ match streams_data with
       | None | Some [] =>
           Dict.get "streams_compact" jsonl_obj = None
           /\ Dict.get "quantiles" jsonl_obj = None
       | Some streams =>
           exists compact_streams quantiles,
             sample_for_activity float_of_str fuel streams interval_seconds
                                 (get_or_none "name" activity_data)
             = Ret (compact_streams, quantiles)
             /\ Dict.get "streams_compact" jsonl_obj
                = (if Dict.is_empty compact_streams then None
                   else Some (of_compact compact_streams))
             /\ Dict.get "quantiles" jsonl_obj
                = (if Dict.is_empty quantiles then None else Some (of_quantiles quantiles))
       end.
Proof.
  unfold create_activity_jsonl_object.
  set (base := [("activity_id", _); ("name", _); ("type", _); ("start_date", _);
                ("distance_m", _); ("moving_time_s", _); ("elapsed_time_s", _);
                ("total_elevation_gain_m", _); ("average_speed_ms", _);
                ("max_speed_ms", _); ("average_heartrate_bpm", _);
                ("max_heartrate_bpm", _); ("calories", _)]).
  assert (Hkeys : map fst base = map fst scalar_fields) by reflexivity.
  assert (Hbase : forall out inp, In (out, inp) scalar_fields ->
                    Dict.get out base = Some (get_or_none inp activity_data)).
  { intros out inp Hin. unfold scalar_fields in Hin. cbn [In] in Hin.
    repeat (destruct Hin as [[= <- <-]|Hin]; [reflexivity|]). destruct Hin. }
  assert (Hother : forall out inp, In (out, inp) scalar_fields ->
                     out <> "streams_compact" /\ out <> "quantiles").
  { intros out inp Hin. unfold scalar_fields in Hin. cbn [In] in Hin.
    repeat (destruct Hin as [[= <- <-]|Hin]; [split; discriminate|]). destruct Hin. }
  assert (Hplain : Dict.get "streams_compact" base = None /\ Dict.get "quantiles" base = None)
    by (split; reflexivity).
  intros (jsonl_obj & Hobj & [= <-])%bind_Ret. exists jsonl_obj.
  split; [reflexivity|].
  assert (Hnone : Ret base = Ret jsonl_obj ->
                  NoDup (map fst jsonl_obj)
                  /\ (forall out inp, In (out, inp) scalar_fields ->
                        Dict.get out jsonl_obj = Some (get_or_none inp activity_data))
                  /\ (forall k, In k (map fst jsonl_obj) ->
                        In k (map fst scalar_fields)
                        \/ k = "streams_compact" \/ k = "quantiles")
                  /\ Dict.get "streams_compact" jsonl_obj = None
                     /\ Dict.get "quantiles" jsonl_obj = None).
  { intros [= <-]. rewrite Hkeys. split; [exact scalar_keys_NoDup|].
    split; [exact Hbase|]. split; [tauto | exact Hplain]. }
  destruct streams_data as [[|stream streams]|];
    [destruct (Hnone Hobj) as (? & ? & ? & ?); repeat split; tauto
    | | destruct (Hnone Hobj) as (? & ? & ? & ?); repeat split; tauto].
  clear Hnone.
  apply bind_Ret in Hobj as ([compact_streams quantiles] & Hsample & <-%Ret_inj).
  cbv zeta.
  set (with_streams :=
         if Dict.is_empty compact_streams then base
         else Dict.set "streams_compact" (of_compact compact_streams) base).
  assert (Hkeys1 : NoDup (map fst with_streams)
                   /\ forall k, In k (map fst with_streams) ->
                        In k (map fst scalar_fields) \/ k = "streams_compact").
  { unfold with_streams. destruct (Dict.is_empty compact_streams).
    - rewrite Hkeys. split; [exact scalar_keys_NoDup | tauto].
    - split; [apply set_keys_NoDup; rewrite Hkeys; exact scalar_keys_NoDup|].
      intros k. rewrite set_keys, Hkeys. destruct (Dict.mem _ _); [tauto|].
      intros [Hk|[<-|[]]]%in_app_or; tauto. }
  split; [|split; [|split]].
  - destruct (Dict.is_empty quantiles); [apply Hkeys1 | apply set_keys_NoDup, Hkeys1].
  - intros out inp Hin. destruct (Hother out inp Hin) as [H1 H2].
    assert (E : Dict.get out with_streams = Dict.get out base).
    { unfold with_streams. destruct (Dict.is_empty compact_streams); [reflexivity|].
      apply get_set_ne, H1. }
    destruct (Dict.is_empty quantiles).
    + rewrite E. exact (Hbase out inp Hin).
    + rewrite get_set_ne by exact H2. rewrite E. exact (Hbase out inp Hin).
  - intros k. destruct Hkeys1 as [_ Hk1]. destruct (Dict.is_empty quantiles).
    + intros Hk. destruct (Hk1 k Hk); tauto.
    + rewrite set_keys. destruct (Dict.mem _ _).
      * intros Hk. destruct (Hk1 k Hk); tauto.
      * intros [Hk|[<-|[]]]%in_app_or; [destruct (Hk1 k Hk)|]; tauto.
  - exists compact_streams, quantiles. split; [exact Hsample|].
    assert (E : Dict.get "streams_compact" with_streams
                = if Dict.is_empty compact_streams then None
                  else Some (of_compact compact_streams)).
    { unfold with_streams. destruct (Dict.is_empty compact_streams); [reflexivity|].
      apply get_set_eq. }
    destruct (Dict.is_empty quantiles).
    + split; [exact E|]. unfold with_streams.
      destruct (Dict.is_empty compact_streams); [reflexivity|].
      rewrite get_set_ne by discriminate. reflexivity.
    + split; [rewrite get_set_ne by discriminate; exact E | apply get_set_eq].
Qed.

(** X20. The metadata of a record is the activity's, renamed: each of the
    thirteen scalar fields holds the value the activity has under its source
    key, and is absent when that value is missing or [None]. No value of a
    record is [None], and a record has no field beyond the scalar ones, the
    compact streams and the quantiles. *)
Theorem record_fields (float_of_str : string -> option Q) (fuel : nat)
    (activity_data : dict pyval) (streams_data : option (list RawStream))
    (interval_seconds : Q) (record : dict pyval) :
  create_activity_jsonl_object float_of_str fuel activity_data streams_data interval_seconds
  = Ret record ->
  (forall out inp, In (out, inp) scalar_fields ->
                   Dict.get out record = present (Dict.get inp activity_data))
  /\ (forall k v, In (k, v) record ->
                  is_none v = false
                  /\ (In k (map fst scalar_fields)
                      \/ k = "streams_compact" \/ k = "quantiles")).
Proof.
  intros H. destruct (record_run _ _ _ _ _ _ H) as (jsonl_obj & -> & Hnd & Hscalar & Hkeys & _).
  split.
  - intros out inp Hin.
    rewrite (get_filter_values (fun v => negb (is_none v)) out jsonl_obj Hnd).
    rewrite (Hscalar out inp Hin). unfold present, get_or_none.
    destruct (Dict.get inp activity_data) as [v|]; [|reflexivity].
    cbn. destruct (is_none v); reflexivity.
  - intros k v [Hin Hv]%List.filter_In. split.
    + apply negb_true_iff, Hv.
    + apply Hkeys, in_map_iff. exists (k, v). split; [reflexivity | exact Hin].
Qed.

Lemma record_fields_witness :
  (forall out inp, In (out, inp) scalar_fields ->
                   Dict.get out rest_record = present (Dict.get inp rest_activity))
  /\ (forall k v, In (k, v) rest_record ->
                  is_none v = false
                  /\ (In k (map fst scalar_fields)
                      \/ k = "streams_compact" \/ k = "quantiles")).
Proof.
  apply (record_fields (fun _ => None) 3 rest_activity (Some rest_streams) 2 rest_record).
  vm_compute. reflexivity.
Defined.

(** X21. A record holds compact streams exactly when it holds quantiles. *)
Theorem record_streams_with_quantiles (float_of_str : string -> option Q) (fuel : nat)
    (activity_data : dict pyval) (streams_data : option (list RawStream))
    (interval_seconds : Q) (record : dict pyval) :
  create_activity_jsonl_object float_of_str fuel activity_data streams_data interval_seconds
  = Ret record ->
  Dict.mem "streams_compact" record = Dict.mem "quantiles" record.
Proof.
  intros H. destruct (record_run _ _ _ _ _ _ H) as (jsonl_obj & -> & Hnd & _ & _ & Hstreams).
  unfold Dict.mem.
  rewrite !(get_filter_values (fun v => negb (is_none v)) _ jsonl_obj Hnd).
  destruct streams_data as [[|stream streams]|].
  - destruct Hstreams as [-> ->]. reflexivity.
  - destruct Hstreams as (compact_streams & quantiles & Hsample & -> & ->).
    rewrite (sample_for_activity_empty_together _ _ _ _ _ _ _ Hsample).
    destruct (Dict.is_empty quantiles); reflexivity.
  - destruct Hstreams as [-> ->]. reflexivity.
Qed.

Lemma record_streams_with_quantiles_witness :
  Dict.mem "streams_compact" rest_record = Dict.mem "quantiles" rest_record.
Proof.
  apply (record_streams_with_quantiles (fun _ => None) 3 rest_activity (Some rest_streams) 2).
  vm_compute. reflexivity.
Defined.

(** X22. For an activity that is not a running activity, the compact JSON holds
    neither pace nor velocity, and its quantiles hold neither distance nor
    velocity. *)
Theorem non_running_activity_omits_pace (float_of_str : string -> option Q) (fuel : nat)
    (streams_data : list RawStream) (interval_seconds : Q) (activity_name : pyval)
    (obj : dict pyval) :
  _is_running_activity activity_name = Ret false ->
  create_streams_compact_json float_of_str fuel streams_data interval_seconds activity_name
  = Ret obj ->
  exists compact_streams quantiles,
    obj = [("streams_compact", of_compact compact_streams);
           ("quantiles", of_quantiles quantiles)]
    /\ Dict.mem "pace_s_per_km_csv" compact_streams = false
    /\ Dict.mem "velocity_smooth_ms_csv" compact_streams = false
    /\ Dict.mem "distance_m" quantiles = false
    /\ Dict.mem "velocity_smooth_ms" quantiles = false.
Proof.
  intros Hrun. unfold create_streams_compact_json.
  intros ([compact_streams quantiles] & Hsample & [= <-])%bind_Ret.
  exists compact_streams, quantiles. split; [reflexivity|].
  destruct (sample_for_activity_run _ _ _ _ _ _ _ Hsample)
    as (is_running & is_rest & compact & quantiles0 & Hrun' & _ & Hcommon & -> & ->).
  assert (is_running = false) as -> by congruence.
  destruct (sample_streams_common_flags_off _ _ _ _ _ _ _ Hcommon) as (Hp & Hv & Hq).
  cbv zeta. cbn [negb].
  destruct is_rest; rewrite ?pop_mem, ?Hp, ?Hv, ?Hq; eval_eqb; cbn [negb andb];
    rewrite ?andb_false_r; repeat split; reflexivity.
Qed.

Lemma non_running_activity_omits_pace_witness :
  exists compact_streams quantiles,
    [("streams_compact", of_compact (fst scenario_walk));
     ("quantiles", of_quantiles (snd scenario_walk))]
    = [("streams_compact", of_compact compact_streams);
       ("quantiles", of_quantiles quantiles)]
    /\ Dict.mem "pace_s_per_km_csv" compact_streams = false
    /\ Dict.mem "velocity_smooth_ms_csv" compact_streams = false
    /\ Dict.mem "distance_m" quantiles = false
    /\ Dict.mem "velocity_smooth_ms" quantiles = false.
Proof.
  apply (non_running_activity_omits_pace (fun _ => None) 3 scenario_streams 5
           (VStr "Walk 2 (Polar)")).
  - reflexivity.
  - vm_compute. reflexivity.
Defined.

(** X23. A name that is neither a string nor falsy (a number other than zero, a
    non-empty list) cannot be classified: with streams to sample the record
    assembly raises [AttributeError]. *)
Theorem record_with_unusable_name_raises (float_of_str : string -> option Q) (fuel : nat)
    (activity_data : dict pyval) (stream : RawStream) (streams : list RawStream)
    (interval_seconds : Q) (activity_name : pyval) :
  Dict.get "name" activity_data = Some activity_name ->
  py_truthy activity_name = true ->
  (forall s, activity_name <> VStr s) ->
  create_activity_jsonl_object float_of_str fuel activity_data (Some (stream :: streams))
                               interval_seconds
  = Raise AttributeError.
Proof.
  intros Hname Htruthy Hstr.
  assert (Hn : get_or_none "name" activity_data = activity_name)
    by (unfold get_or_none; rewrite Hname; reflexivity).
  unfold create_activity_jsonl_object, sample_for_activity. cbv zeta. rewrite !Hn.
  unfold _is_running_activity, name_has_prefix. rewrite Htruthy. cbn [negb].
  destruct activity_name; try reflexivity. exfalso. exact (Hstr _ eq_refl).
Qed.

Lemma record_with_unusable_name_raises_witness :
  create_activity_jsonl_object (fun _ => None) 3 [("id", VInt 4); ("name", VInt 2024)]
                               (Some rest_streams) 2
  = Raise AttributeError.
Proof.
  apply (record_with_unusable_name_raises _ _ _ _ _ _ (VInt 2024)).
  - reflexivity.
  - reflexivity.
  - discriminate.
Defined.

(** ** Batch files, continued *)

Section BatchEffects.
Variable json_dumps : pyval -> string.
Variable json_loads : string -> option pyval.

Lemma files_write (filepath text : string) (w : world) :
  files (write filepath text w)
  = <[filepath := (default "" (files w !! filepath) ++ text)%string]> (files w).
Proof. reflexivity. Qed.

Lemma write_all_files (records : list pyval) (filepath : string) (w : world) :
  files (foldl (fun w obj => write filepath (json_dumps obj ++ String newline "") w) w records)
  = match records with
    | [] => files w
    | _ => <[filepath := (default "" (files w !! filepath)
                          ++ batch_text json_dumps records)%string]> (files w)
    end.
Proof.
  revert w. induction records as [|record records IH]; intros w; [reflexivity|].
  cbn [foldl]. rewrite IH, !files_write.
  destruct records as [|record' records].
  - cbn [batch_text foldr]. reflexivity.
  - rewrite lookup_insert_eq, insert_insert_eq. cbn [default from_option id].
    apply (f_equal (fun text => <[filepath := text]> (files w))).
    set (rest := record' :: records). cbn [batch_text foldr].
    rewrite !append_assoc. reflexivity.
Qed.

Lemma write_all_events (records : list pyval) (filepath : string) (w : world) :
  events (foldl (fun w obj => write filepath (json_dumps obj ++ String newline "") w) w records)
  = events w
    ++ map (fun obj => EvWrite filepath (json_dumps obj ++ String newline "")) records.
Proof.
  revert w. induction records as [|record records IH]; intros w; cbn [foldl map].
  - rewrite app_nil_r. reflexivity.
  - rewrite IH. unfold write, log. cbn [events]. rewrite <- app_assoc. reflexivity.
Qed.

Lemma save_jsonl_file_files (jsonl_objects : list pyval) (filepath : string) (w : world) :
  files (save_jsonl_file json_dumps jsonl_objects filepath w)
  = <[filepath := batch_text json_dumps jsonl_objects]> (files w).
Proof.
  unfold save_jsonl_file. rewrite write_all_files. unfold open_w. rewrite files_log.
  cbn [files]. destruct jsonl_objects as [|obj objs]; [reflexivity|].
  rewrite lookup_insert_eq, insert_insert_eq. reflexivity.
Qed.

(** X24. Saving replaces the file: afterwards the target holds one line per
    object, whatever it held before, and every other file is as it was. The
    file is opened once for writing and written once per object, in order. *)
Theorem save_jsonl_file_effect (jsonl_objects : list pyval) (filepath : string) (w : world) :
  files (save_jsonl_file json_dumps jsonl_objects filepath w)
  = <[filepath := batch_text json_dumps jsonl_objects]> (files w)
  /\ events (save_jsonl_file json_dumps jsonl_objects filepath w)
     = events w
       ++ EvOpen filepath "w"
          :: map (fun obj => EvWrite filepath (json_dumps obj ++ String newline ""))
                 jsonl_objects.
Proof.
  split; [apply save_jsonl_file_files|].
  unfold save_jsonl_file. rewrite write_all_events. unfold open_w, log. cbn [events].
  rewrite <- app_assoc. reflexivity.
Qed.

(** *** Loading *)

Lemma load_fold_raise (e : pyexn) (lines : list string) :
  foldl (fun acc line =>
           jsonl_objects ← acc;
           let line := py_strip line in
           if String.eqb line "" then Ret jsonl_objects
           else match json_loads line with
                | Some obj => Ret (jsonl_objects ++ [obj])
                | None => Raise ValueError
                end)
        (Raise e) lines
  = Raise e.
Proof. induction lines as [|line lines IH]; [reflexivity | exact IH]. Qed.

Lemma load_fold_spec (lines : list string) (acc : list pyval) :
  foldl (fun acc line =>
           jsonl_objects ← acc;
           let line := py_strip line in
           if String.eqb line "" then Ret jsonl_objects
           else match json_loads line with
                | Some obj => Ret (jsonl_objects ++ [obj])
                | None => Raise ValueError
                end)
        (Ret acc) lines
  = match mapM json_loads
            (List.filter (fun line => negb (String.eqb line "")) (map py_strip lines)) with
    | Some objs => Ret (acc ++ objs)
    | None => Raise ValueError
    end.
Proof.
  revert acc. induction lines as [|line lines IH]; intros acc; cbn [foldl map List.filter].
  - cbn. rewrite app_nil_r. reflexivity.
  - cbn [mbind outcome_bind]. destruct (String.eqb (py_strip line) ""); cbn [negb].
    + apply IH.
    + cbn [mapM]. destruct (json_loads (py_strip line)) as [obj|]; cbn.
      * rewrite IH. destruct (mapM json_loads _) as [objs|]; cbn; [|reflexivity].
        rewrite <- app_assoc. reflexivity.
      * apply load_fold_raise.
Qed.

(** X25. Loading parses every line that is not blank once stripped, in order:
    blank lines are skipped, and one line that is not valid JSON makes the
    whole load raise [ValueError] instead of returning the other objects.
    Loading changes no file. *)
Theorem load_jsonl_file_parses_nonblank_lines (filepath content : string) (w : world) :
  files w !! filepath = Some content ->
  fst (load_jsonl_file json_loads filepath w)
  = match mapM json_loads (nonblank_lines content) with
    | Some jsonl_objects => Ret jsonl_objects
    | None => Raise ValueError
    end
  /\ files (snd (load_jsonl_file json_loads filepath w)) = files w.
Proof.
  intros Hfile. unfold load_jsonl_file. rewrite files_log, Hfile. cbn [fst snd].
  split; [|reflexivity]. rewrite load_fold_spec. reflexivity.
Qed.
End BatchEffects.

Lemma load_jsonl_file_parses_nonblank_lines_witness :
  fst (load_jsonl_file mini_json.loads "ragged.jsonl" ragged_world)
  = match mapM mini_json.loads
            (nonblank_lines
               (String newline
                  ("  7 " ++ String carriage_return
                     (String newline
                        (String newline ("[null, true]" ++ String newline "   ")))))) with
    | Some jsonl_objects => Ret jsonl_objects
    | None => Raise ValueError
    end
  /\ files (snd (load_jsonl_file mini_json.loads "ragged.jsonl" ragged_world))
     = files ragged_world.
Proof.
  apply (load_jsonl_file_parses_nonblank_lines mini_json.loads "ragged.jsonl").
  vm_compute. reflexivity.
Defined.

Example load_ragged_file :
  fst (load_jsonl_file mini_json.loads "ragged.jsonl" ragged_world)
  = Ret [VInt 7; VList [VNone; VBool true]].
Proof. vm_compute. reflexivity. Qed.

(** ** The heart-rate mutation utility, continued *)

Section ModifyEffects.
Variable json_dumps : pyval -> string.
Variable json_loads : string -> option pyval.
Variable G : Type.
Variable randint : G -> Z -> Z -> Z * G.

(** X26. The utility writes at the very end or not at all: a call that raises
    (empty range, missing input, a line that does not parse, a record of the
    wrong shape) leaves every file as it was, a call that returns has only
    replaced the output file, and no call touches any other file. *)
Theorem modify_writes_only_on_success (jsonl_filepath output_filepath : string)
    (min_hr max_hr : Z) (w w' : world) (g g' : G) (r : outcome unit) :
  modify_heartrate_to_abnormal json_dumps json_loads G randint
                               jsonl_filepath output_filepath min_hr max_hr w g
  = (r, w', g') ->
  (r <> Ret tt -> files w' = files w)
  /\ (r = Ret tt ->
      exists modified_objects,
        files w' = <[output_filepath := batch_text json_dumps modified_objects]> (files w))
  /\ (forall path, path <> output_filepath -> files w' !! path = files w !! path).
Proof.
  unfold modify_heartrate_to_abnormal.
  destruct (max_hr <=? min_hr)%Z.
  { intros [= <- <- <-]. split; [reflexivity|]. split; [discriminate | reflexivity]. }
  rewrite files_log.
  destruct (files w !! jsonl_filepath) as [content|].
  2:{ intros [= <- <- <-]. split; [reflexivity|]. split; [discriminate | reflexivity]. }
  destruct (foldl _ _ _) as [[modified_objects|e|] g2].
  - intros [= <- <- <-]. rewrite !files_log, save_jsonl_file_files, files_log.
    split; [congruence|]. split; [eauto|].
    intros path Hpath. apply lookup_insert_ne. congruence.
  - intros [= <- <- <-]. split; [reflexivity|]. split; [discriminate | reflexivity].
  - intros [= <- <- <-]. split; [reflexivity|]. split; [discriminate | reflexivity].
Qed.

(** X27. In a record only the heart-rate data changes: every key other than the
    compact streams, the quantiles and the two heart-rate scalars keeps its
    value, every compact field other than [hr_bpm_csv] keeps its series, and
    every quantile entry other than [hr_bpm] keeps its levels. *)
Theorem modify_dict_touches_only_heartrate (min_hr max_hr : Z) (modified_obj obj' : dict pyval)
    (g g' : G) :
  modify_dict G randint min_hr max_hr modified_obj g = (Ret obj', g') ->
  (forall k, k <> "streams_compact" -> k <> "quantiles" ->
             k <> "average_heartrate_bpm" -> k <> "max_heartrate_bpm" ->
             Dict.get k obj' = Dict.get k modified_obj)
  /\ (forall streams_compact streams_compact' field,
        Dict.get "streams_compact" modified_obj = Some (VDict streams_compact) ->
        Dict.get "streams_compact" obj' = Some (VDict streams_compact') ->
        field <> "hr_bpm_csv" ->
        Dict.get field streams_compact' = Dict.get field streams_compact)
  /\ (forall quantiles quantiles' key,
        Dict.get "quantiles" modified_obj = Some (VDict quantiles) ->
        Dict.get "quantiles" obj' = Some (VDict quantiles') ->
        key <> "hr_bpm" ->
        Dict.get key quantiles' = Dict.get key quantiles).
Proof.
  assert (Hsame : forall (o : dict pyval),
            (forall k, k <> "streams_compact" -> k <> "quantiles" ->
                       k <> "average_heartrate_bpm" -> k <> "max_heartrate_bpm" ->
                       Dict.get k o = Dict.get k o)
            /\ (forall streams_compact streams_compact' field,
                  Dict.get "streams_compact" o = Some (VDict streams_compact) ->
                  Dict.get "streams_compact" o = Some (VDict streams_compact') ->
                  field <> "hr_bpm_csv" ->
                  Dict.get field streams_compact' = Dict.get field streams_compact)
            /\ (forall quantiles quantiles' key,
                  Dict.get "quantiles" o = Some (VDict quantiles) ->
                  Dict.get "quantiles" o = Some (VDict quantiles') ->
                  key <> "hr_bpm" ->
                  Dict.get key quantiles' = Dict.get key quantiles)).
  { intros o. split; [reflexivity|]. split; intros; congruence. }
  intros H. unfold modify_dict in H.
  destruct (Dict.get "streams_compact" modified_obj) as [[| | | |s|l|streams_compact]|]
    eqn:Hsc in H; try discriminate H; try (injection H as <- _; apply Hsame).
  - destruct (py_contains "hr_bpm_csv" s); [discriminate H|].
    injection H as <- _. apply Hsame.
  - destruct (existsb (is_str "hr_bpm_csv") l); [discriminate H|].
    injection H as <- _. apply Hsame.
  - destruct (Dict.get "hr_bpm_csv" streams_compact) as [hr_csv|];
      [|injection H as <- _; apply Hsame].
    destruct (py_truthy hr_csv); [|injection H as <- _; apply Hsame].
    destruct hr_csv as [| | | |hr_csv| |]; try discriminate H.
    destruct (draw_each G randint min_hr max_hr _ g) as [numeric_hr g2].
    set (new_streams := Dict.set "hr_bpm_csv" _ streams_compact) in H.
    set (o1 := Dict.set "streams_compact" (VDict new_streams) modified_obj) in H.
    assert (Hstreams : forall sc sc' field,
              Dict.get "streams_compact" modified_obj = Some (VDict sc) ->
              Some (VDict new_streams) = Some (VDict sc') ->
              field <> "hr_bpm_csv" -> Dict.get field sc' = Dict.get field sc).
    { intros sc sc' field Hsc0 [= <-] Hfield.
      assert (sc = streams_compact) as -> by congruence. apply get_set_ne, Hfield. }
    destruct numeric_hr as [|x rest].
    + apply pair_equal_spec in H as [<-%Ret_inj _]. split; [|split].
      * intros k Hk _ _ _. apply get_set_ne, Hk.
      * intros sc sc' field Hsc0. unfold o1. rewrite get_set_eq. intros Hsc'.
        exact (Hstreams sc sc' field Hsc0 Hsc').
      * intros quantiles quantiles' key Hq. unfold o1.
        rewrite get_set_ne by discriminate. congruence.
    + set (o2 := if Dict.mem "quantiles" o1 then o1
                 else Dict.set "quantiles" (VDict []) o1) in H.
      assert (Ho2 : forall k, k <> "quantiles" -> Dict.get k o2 = Dict.get k o1).
      { intros k Hk. unfold o2. destruct (Dict.mem "quantiles" o1); [reflexivity|].
        apply get_set_ne, Hk. }
      destruct (Dict.get "quantiles" o2) as [[| | | | | |quantiles0]|] eqn:Hq0;
        try discriminate H.
      apply pair_equal_spec in H as [<-%Ret_inj _]. split; [|split].
      * intros k Hsck Hqk Hak Hmk.
        rewrite !get_refresh_ne, get_set_ne, Ho2 by assumption.
        apply get_set_ne, Hsck.
      * intros sc sc' field Hsc0.
        rewrite !get_refresh_ne, get_set_ne, Ho2 by discriminate.
        unfold o1. rewrite get_set_eq. intros Hsc'.
        exact (Hstreams sc sc' field Hsc0 Hsc').
      * intros quantiles quantiles' key Hq.
        rewrite !get_refresh_ne by discriminate. rewrite get_set_eq. intros [= <-] Hkey.
        rewrite get_set_ne by exact Hkey.
        assert (Hq1 : Dict.get "quantiles" o1 = Some (VDict quantiles))
          by (unfold o1; rewrite get_set_ne by discriminate; exact Hq).
        unfold o2, Dict.mem in Hq0. rewrite Hq1 in Hq0. congruence.
Qed.
End ModifyEffects.

Lemma modify_writes_only_on_success_witness :
  (Raise FileNotFoundError <> Ret tt ->
   files (log (EvOpen "missing.jsonl" "r") ragged_world) = files ragged_world)
  /\ (Raise FileNotFoundError = Ret tt ->
      exists modified_objects,
        files (log (EvOpen "missing.jsonl" "r") ragged_world)
        = <["ragged.jsonl" := batch_text mini_json.dumps modified_objects]>
            (files ragged_world))
  /\ (forall path, path <> "ragged.jsonl" ->
                   files (log (EvOpen "missing.jsonl" "r") ragged_world) !! path
                   = files ragged_world !! path).
Proof.
  apply (modify_writes_only_on_success mini_json.dumps mini_json.loads Z lcg.randint
           "missing.jsonl" "ragged.jsonl" 210 240 ragged_world _ 1%Z 1%Z).
  vm_compute. reflexivity.
Defined.

Lemma modify_dict_touches_only_heartrate_witness :
  (forall k, k <> "streams_compact" -> k <> "quantiles" ->
             k <> "average_heartrate_bpm" -> k <> "max_heartrate_bpm" ->
             Dict.get k hr_record_modified = Dict.get k hr_record)
  /\ (forall streams_compact streams_compact' field,
        Dict.get "streams_compact" hr_record = Some (VDict streams_compact) ->
        Dict.get "streams_compact" hr_record_modified = Some (VDict streams_compact') ->
        field <> "hr_bpm_csv" ->
        Dict.get field streams_compact' = Dict.get field streams_compact)
  /\ (forall quantiles quantiles' key,
        Dict.get "quantiles" hr_record = Some (VDict quantiles) ->
        Dict.get "quantiles" hr_record_modified = Some (VDict quantiles') ->
        key <> "hr_bpm" ->
        Dict.get key quantiles' = Dict.get key quantiles).
Proof.
  apply (modify_dict_touches_only_heartrate Z lcg.randint 210 240 hr_record
           hr_record_modified 1%Z
           (snd (modify_dict Z lcg.randint 210 240 hr_record 1%Z))).
  vm_compute. reflexivity.
Defined.

(** ** Combining activities *)

Lemma record_without_streams (float_of_str : string -> option Q) (fuel : nat)
    (activity : dict pyval) (interval_seconds : Q) :
  create_activity_jsonl_object float_of_str fuel activity None interval_seconds
  = Ret (metadata_record activity).
Proof. reflexivity. Qed.

(** X28. Without a streams dictionary, or with an empty one, combining never
    raises: every activity, whatever it holds, gives its metadata record, in
    the order of the activities. *)
Theorem combine_without_streams (float_of_str : string -> option Q) (fuel : nat)
    (activities : list (dict pyval)) (streams_dict : option (gmap Z (list RawStream)))
    (interval_seconds : Q) :
  streams_dict = None \/ streams_dict = Some ∅ ->
  combine_activities_to_jsonl float_of_str fuel activities streams_dict interval_seconds
  = Ret (map metadata_record activities).
Proof.
  intros Hstreams. unfold combine_activities_to_jsonl.
  assert (Hnone : forall activity_id, streams_of streams_dict activity_id = Ret None).
  { intros activity_id. destruct Hstreams as [->| ->]; [reflexivity|].
    unfold streams_of. destruct (decide (∅ = ∅)) as [_|Hne]; [reflexivity | congruence]. }
  induction activities as [|activity activities IH]; [reflexivity|].
  cbn [mapM map]. rewrite Hnone. cbn [mbind outcome_bind].
  rewrite record_without_streams. cbn [mbind outcome_bind].
  rewrite IH. reflexivity.
Qed.

Lemma combine_without_streams_witness :
  combine_activities_to_jsonl (fun _ => None) 0 two_activities (Some ∅) 5
  = Ret (map metadata_record two_activities).
Proof. apply combine_without_streams. right. reflexivity. Defined.

Example metadata_record_ex :
  map metadata_record two_activities
  = [ [("activity_id", VInt 7); ("name", VStr "Running 3 (Apple JD)");
       ("distance_m", VFloat 5000)];
      [("calories", VInt 120)] ].
Proof. reflexivity. Qed.

(** ** The pipeline on well-typed streams *)

Lemma filter_data_Forall (P : pyval -> Prop) (valid_indices : list nat) (data : list pyval) :
  Forall P data -> Forall P (filter_data valid_indices data).
Proof.
  intros HP. unfold filter_data. apply Forall_forall. intros v Hv.
  apply list_elem_of_omap in Hv as (j & _ & Hj).
  rewrite Forall_forall in HP. apply HP. eapply list_elem_of_lookup_2, Hj.
Qed.

Lemma filter_by_moving_values (P : pyval -> Prop) (streams_dict : dict (list pyval))
    (k : string) (data : list pyval) :
  Dict.get k (_filter_by_moving streams_dict) = Some data ->
  exists data', Dict.get k streams_dict = Some data' /\ (Forall P data' -> Forall P data).
Proof.
  unfold _filter_by_moving.
  destruct (Dict.get "moving" streams_dict) as [moving_data|]; [|eauto].
  destruct (negb _); [eauto|].
  destruct (truthy_indices 0 moving_data) as [|i rest]; [discriminate|].
  rewrite get_map_values. destruct (Dict.get k streams_dict) as [data'|]; [|discriminate].
  intros [= <-]. exists data'. split; [reflexivity|].
  apply (filter_data_Forall P (i :: rest) data').
Qed.

Lemma convert_streams_source (streams_data : list RawStream) (k : string)
    (data : list pyval) :
  Dict.get k (_convert_streams_to_dict streams_data) = Some data ->
  exists stream,
    In stream streams_data /\ stream_type stream = Some k /\ stream_data stream = data.
Proof.
  intros H. destruct (convert_streams_get_nonempty _ _ _ H) as [Hk _].
  rewrite (convert_streams_get _ _ Hk) in H.
  destruct (last (List.filter (usable k) streams_data)) as [stream|] eqn:Hlast;
    [|discriminate].
  injection H as <-. exists stream.
  apply last_Some_elem_of, list_elem_of_In, List.filter_In in Hlast as [Hin Husable].
  split; [exact Hin|]. split; [|reflexivity].
  unfold usable in Husable. destruct (stream_type stream) as [ty|]; [|discriminate].
  destruct (stream_data stream); [discriminate|].
  apply String.eqb_eq in Husable. congruence.
Qed.

(** A property of values that doubling keeps holds of a normalised stream
    when it holds of the raw stream it comes from. *)
Lemma normalised_streams_values (P : pyval -> Prop) (streams_data : list RawStream)
    (filter_moving : bool) (k : string) (data : list pyval) :
  (forall v, P v -> P (times_multiplier v)) ->
  Dict.get k (normalised_streams streams_data filter_moving) = Some data ->
  exists stream,
    In stream streams_data /\ stream_type stream = Some k
    /\ (Forall P (stream_data stream) -> Forall P data).
Proof.
  intros Hdouble. unfold normalised_streams.
  set (filtered := if filter_moving then _ else _).
  assert (Hfiltered : forall data',
            Dict.get k filtered = Some data' ->
            exists stream,
              In stream streams_data /\ stream_type stream = Some k
              /\ (Forall P (stream_data stream) -> Forall P data')).
  { intros data' H. unfold filtered in H. destruct filter_moving.
    - destruct (filter_by_moving_values P _ _ _ H) as (raw & Hraw & HP).
      destruct (convert_streams_source _ _ _ Hraw) as (stream & Hin & Hty & <-). eauto.
    - destruct (convert_streams_source _ _ _ H) as (stream & Hin & Hty & <-). eauto. }
  assert (Hpopped : forall data',
            Dict.get k (Dict.pop "moving" filtered) = Some data' ->
            Dict.get k filtered = Some data').
  { intros data'. destruct (String.eqb_spec k "moving") as [->|Hne].
    - rewrite get_pop_eq. discriminate.
    - rewrite get_pop_ne by exact Hne. tauto. }
  unfold _double_cadence_values.
  destruct (Dict.get "cadence" (Dict.pop "moving" filtered)) as [cadence|] eqn:Hcadence.
  - destruct (String.eqb_spec k "cadence") as [->|Hne].
    + rewrite get_set_eq. intros [= <-].
      destruct (Hfiltered cadence (Hpopped cadence Hcadence)) as (stream & Hin & Hty & HP).
      exists stream. split; [exact Hin|]. split; [exact Hty|]. intros Hraw.
      specialize (HP Hraw). apply Forall_fmap. eapply Forall_impl; [exact HP|].
      intros v Hv. cbn. destruct (_is_numeric_value v); [apply Hdouble|]; exact Hv.
    + rewrite get_set_ne by exact Hne. intros H. exact (Hfiltered data (Hpopped data H)).
  - intros H. exact (Hfiltered data (Hpopped data H)).
Qed.

Lemma numeric_or_none_doubled (v : pyval) :
  numeric_or_none v = true -> numeric_or_none (times_multiplier v) = true.
Proof. destruct v; intros H; try discriminate H; reflexivity. Qed.

Lemma normalised_streams_typed (streams_data : list RawStream) (filter_moving : bool)
    (k : string) (data : list pyval) :
  well_typed streams_data ->
  Dict.get k (normalised_streams streams_data filter_moving) = Some data ->
  Forall (fun v => numeric_or_none v = true) data
  /\ (k = "time" -> Forall (fun v => _is_numeric_value v = true) data).
Proof.
  intros Htyped H. unfold well_typed in Htyped. rewrite Forall_forall in Htyped. split.
  - destruct (normalised_streams_values (fun v => numeric_or_none v = true) _ _ _ _
                numeric_or_none_doubled H) as (stream & Hin & _ & HP).
    apply HP, (Htyped stream), list_elem_of_In, Hin.
  - intros ->.
    destruct (normalised_streams_values (fun v => _is_numeric_value v = true) _ _ _ _
                ltac:(intros [] Hv; try discriminate Hv; reflexivity) H)
      as (stream & Hin & Hty & HP).
    apply HP, (Htyped stream); [apply list_elem_of_In, Hin | exact Hty].
Qed.

Lemma name_has_prefix_returns (prefix : string) (activity_name : pyval) :
  classifiable activity_name = true ->
  exists b, name_has_prefix prefix activity_name = Ret b.
Proof.
  unfold name_has_prefix, classifiable.
  destruct activity_name; intros H; cbv beta iota in H; try (rewrite H; eauto; fail).
  destruct (negb _); eauto.
Qed.

Section PipelineTotal.
Variable float_of_str : string -> option Q.

Lemma py_float_numeric (v : pyval) :
  _is_numeric_value v = true -> exists x, py_float float_of_str v = Ret x.
Proof. destruct v; intros H; try discriminate H; cbn; eauto. Qed.

Lemma format_sampled_rounded_returns (data : list pyval) (indices : list nat) :
  Forall (fun v => numeric_or_none v = true) data ->
  exists csv, _format_sampled_values (_sample_stream_data data indices) format_rounded
              = Ret csv.
Proof.
  intros Htyped. unfold _format_sampled_values.
  destruct (mapM_total (fun v => if is_none v then Ret "" else format_rounded v)
                       (_sample_stream_data data indices)) as [formatted ->];
    [|cbn; eauto].
  apply Forall_forall. intros v Hv. unfold _sample_stream_data in Hv.
  apply list_elem_of_fmap in Hv as (i & -> & _).
  destruct (data !! i) as [x|] eqn:Hx; cbn [default]; [|cbn; eauto].
  rewrite Forall_forall in Htyped.
  specialize (Htyped x (list_elem_of_lookup_2 _ _ _ Hx)).
  destruct x; try discriminate Htyped; cbn; eauto.
Qed.

Lemma format_sampled_velocity_returns (data : list pyval) (indices : list nat) :
  Forall (fun v => numeric_or_none v = true) data ->
  exists csv,
    _format_sampled_values (_sample_stream_data data indices) (format_velocity float_of_str)
    = Ret csv.
Proof.
  intros Htyped. unfold _format_sampled_values.
  destruct (mapM_total
              (fun v => if is_none v then Ret "" else format_velocity float_of_str v)
              (_sample_stream_data data indices)) as [formatted ->];
    [|cbn; eauto].
  apply Forall_forall. intros v Hv. unfold _sample_stream_data in Hv.
  apply list_elem_of_fmap in Hv as (i & -> & _).
  destruct (data !! i) as [x|] eqn:Hx; cbn [default]; [|cbn; eauto].
  rewrite Forall_forall in Htyped.
  specialize (Htyped x (list_elem_of_lookup_2 _ _ _ Hx)).
  destruct x; try discriminate Htyped; cbn; eauto.
Qed.

Lemma sample_stream_data_typed (data : list pyval) (indices : list nat) :
  Forall (fun v => numeric_or_none v = true) data ->
  Forall (fun v => numeric_or_none v = true) (_sample_stream_data data indices).
Proof.
  intros Htyped. apply Forall_forall. intros v Hv. unfold _sample_stream_data in Hv.
  apply list_elem_of_fmap in Hv as (i & -> & _).
  destruct (data !! i) as [x|] eqn:Hx; cbn [default]; [|reflexivity].
  rewrite Forall_forall in Htyped. exact (Htyped x (list_elem_of_lookup_2 _ _ _ Hx)).
Qed.

Lemma build_compact_returns (streams_dict : dict (list pyval)) (time_data : list Q)
    (unique_indices : list nat) (interval_seconds : Q)
    (include_pace include_velocity : bool) :
  Forall (fun i => i < length time_data) unique_indices ->
  (forall k data, Dict.get k streams_dict = Some data -> k <> "time" ->
                  Forall (fun v => numeric_or_none v = true) data) ->
  exists compact,
    build_compact float_of_str streams_dict time_data unique_indices interval_seconds
                  include_pace include_velocity = Ret compact.
Proof.
  intros Hidx Htyped. unfold build_compact.
  destruct (mapM_total (py_index time_data) unique_indices) as [sampled_time Hst].
  { eapply Forall_impl; [exact Hidx|]. intros i Hi. cbn in Hi.
    destruct (lookup_lt_is_Some_2 time_data i Hi) as [t Ht].
    exists t. apply py_index_lookup, Ht. }
  rewrite Hst. cbn [mbind outcome_bind].
  set (r0 := [("sampling", _); ("time_s_csv", _)]). clearbody r0.
  assert (H1 : exists r1,
            match Dict.get "distance" streams_dict with
            | Some distance =>
                if include_pace then
                  pace_values ← _calculate_pace_values sampled_time
                                  (_sample_stream_data distance unique_indices);
                  Ret (Dict.set "pace_s_per_km_csv" (py_join "," pace_values) r0)
                else Ret r0
            | None => Ret r0
            end = Ret r1).
  { destruct (Dict.get "distance" streams_dict) as [distance|] eqn:E; [|eauto].
    destruct include_pace; [|eauto].
    destruct (calculate_pace_values_returns sampled_time
                (_sample_stream_data distance unique_indices)) as (pace_values & -> & _).
    - unfold _sample_stream_data. rewrite length_map.
      symmetry. exact (mapM_Ret_length _ _ _ Hst).
    - apply sample_stream_data_typed, (Htyped _ _ E). discriminate.
    - cbn. eauto. }
  destruct H1 as [r1 ->]. cbn [mbind outcome_bind]. clear r0.
  assert (H2 : exists r2,
            match Dict.get "heartrate" streams_dict with
            | Some heartrate =>
                csv ← _format_sampled_values (_sample_stream_data heartrate unique_indices)
                                             format_rounded;
                Ret (Dict.set "hr_bpm_csv" csv r1)
            | None => Ret r1
            end = Ret r2).
  { destruct (Dict.get "heartrate" streams_dict) as [heartrate|] eqn:E; [|eauto].
    destruct (format_sampled_rounded_returns heartrate unique_indices) as [csv ->];
      [apply (Htyped _ _ E); discriminate | cbn; eauto]. }
  destruct H2 as [r2 ->]. cbn [mbind outcome_bind]. clear r1.
  assert (H3 : exists r3,
            match Dict.get "altitude" streams_dict with
            | Some altitude =>
                csv ← _format_sampled_values (_sample_stream_data altitude unique_indices)
                                             format_rounded;
                Ret (Dict.set "alt_m_csv" csv r2)
            | None => Ret r2
            end = Ret r3).
  { destruct (Dict.get "altitude" streams_dict) as [altitude|] eqn:E; [|eauto].
    destruct (format_sampled_rounded_returns altitude unique_indices) as [csv ->];
      [apply (Htyped _ _ E); discriminate | cbn; eauto]. }
  destruct H3 as [r3 ->]. cbn [mbind outcome_bind]. clear r2.
  assert (H4 : exists r4,
            match Dict.get "velocity_smooth" streams_dict with
            | Some velocity_smooth =>
                if include_velocity then
                  csv ← _format_sampled_values
                          (_sample_stream_data velocity_smooth unique_indices)
                          (format_velocity float_of_str);
                  Ret (Dict.set "velocity_smooth_ms_csv" csv r3)
                else Ret r3
            | None => Ret r3
            end = Ret r4).
  { destruct (Dict.get "velocity_smooth" streams_dict) as [velocity|] eqn:E; [|eauto].
    destruct include_velocity; [|eauto].
    destruct (format_sampled_velocity_returns velocity unique_indices) as [csv ->];
      [apply (Htyped _ _ E); discriminate | cbn; eauto]. }
  destruct H4 as [r4 ->]. cbn [mbind outcome_bind]. clear r3.
  destruct (Dict.get "cadence" streams_dict) as [cadence|] eqn:E; [|eauto].
  destruct (format_sampled_rounded_returns cadence unique_indices) as [csv ->];
    [apply (Htyped _ _ E); discriminate | cbn; eauto].
Qed.

Lemma find_sampling_indices_returns (time_data : list Q) (interval_seconds : Q) :
  (0 < interval_seconds)%Q ->
  exists (fuel0 : nat) (unique_indices : list nat),
    forall fuel, fuel0 <= fuel ->
      _find_sampling_indices fuel time_data interval_seconds = Ret unique_indices.
Proof.
  intros Hpos. unfold _find_sampling_indices.
  destruct (last time_data) as [max_time|] eqn:Hlast; [|exists 0, []; reflexivity].
  set (fuel0 := enough_fuel max_time interval_seconds).
  destruct (target_times_loop_stops fuel0 0 max_time interval_seconds Hpos
              (enough_fuel_spec max_time interval_seconds Hpos)) as [target_times Ht].
  destruct (mapM_total (closest_idx time_data) target_times) as [sampled Hs].
  { apply Forall_forall. intros t _.
    apply closest_idx_total. eapply last_Some_nonempty, Hlast. }
  exists fuel0, (unique_from ∅ sampled). intros fuel Hfuel.
  rewrite (target_times_loop_mono _ _ _ _ _ _ Ht Hfuel). cbn [mbind outcome_bind].
  rewrite Hs. reflexivity.
Qed.

Lemma sample_streams_common_returns (streams_data : list RawStream) (interval_seconds : Q)
    (filter_moving include_pace include_velocity : bool) :
  well_typed streams_data ->
  (0 < interval_seconds)%Q ->
  exists fuel0 result,
    forall fuel, fuel0 <= fuel ->
      _sample_streams_common float_of_str fuel streams_data interval_seconds
                             filter_moving include_pace include_velocity
      = Ret result.
Proof.
  intros Htyped Hpos. unfold _sample_streams_common.
  destruct streams_data as [|stream streams]; [exists 0; eauto|].
  fold (normalised_streams (stream :: streams) filter_moving).
  destruct (filter_moving && _); [exists 0; eauto|].
  pose proof (normalised_streams_typed (stream :: streams) filter_moving) as Hvalues.
  set (streams_dict := normalised_streams (stream :: streams) filter_moving) in *.
  destruct (Dict.get "time" streams_dict) as [[|time_offset raw_rest]|] eqn:Htime;
    try (exists 0; eauto; fail).
  destruct (Hvalues "time" _ Htyped Htime) as [_ Hnum]. specialize (Hnum eq_refl).
  assert (Hoffset : exists o, py_float float_of_str time_offset = Ret o).
  { apply py_float_numeric. inversion Hnum; assumption. }
  destruct Hoffset as [o Ho].
  destruct (mapM_total
              (fun t => x ← py_float float_of_str t;
                        o ← py_float float_of_str time_offset; Ret (x - o)%Q)
              (time_offset :: raw_rest)) as [time_data Hrebase].
  { eapply Forall_impl; [exact Hnum|]. intros t Ht. cbn in Ht.
    destruct (py_float_numeric t Ht) as [x ->]. rewrite Ho. cbn. eauto. }
  rewrite Hrebase. cbn [mbind outcome_bind].
  set (rebased := Dict.set "time" (map VFloat time_data) streams_dict).
  assert (Hrebased : forall k data, Dict.get k rebased = Some data -> k <> "time" ->
                       Forall (fun v => numeric_or_none v = true) data).
  { intros k data Hk Hne. unfold rebased in Hk. rewrite get_set_ne in Hk by exact Hne.
    exact (proj1 (Hvalues k data Htyped Hk)). }
  assert (Hq : exists quantiles_result,
            match Dict.get "distance" rebased with
            | Some distance =>
                if include_pace then
                  pace_quantiles ← _calculate_pace_quantiles time_data distance;
                  match pace_quantiles with
                  | Some pq =>
                      Ret (Dict.set "pace_s_per_km" pq
                             (_calculate_quantiles rebased include_velocity))
                  | None => Ret (_calculate_quantiles rebased include_velocity)
                  end
                else Ret (_calculate_quantiles rebased include_velocity)
            | None => Ret (_calculate_quantiles rebased include_velocity)
            end = Ret quantiles_result).
  { destruct (Dict.get "distance" rebased) as [distance|] eqn:E; [|eauto].
    destruct include_pace; [|eauto].
    destruct (calculate_pace_quantiles_returns time_data distance) as ([pq|] & -> & _);
      [apply (Hrebased _ _ E); discriminate | cbn; eauto | cbn; eauto]. }
  destruct Hq as [quantiles_result ->]. cbn [mbind outcome_bind].
  destruct (find_sampling_indices_returns time_data interval_seconds Hpos)
    as (fuel0 & unique_indices & Hfind).
  destruct (find_sampling_indices_sound _ _ _ _ (Hfind fuel0 (le_n _))) as [Hlt _].
  destruct unique_indices as [|i rest].
  - exists fuel0, ([], []). intros fuel Hfuel. rewrite (Hfind fuel Hfuel). reflexivity.
  - destruct (build_compact_returns rebased time_data (i :: rest) interval_seconds
                include_pace include_velocity Hlt Hrebased) as [compact Hcompact].
    exists fuel0, (compact, quantiles_result). intros fuel Hfuel.
    rewrite (Hfind fuel Hfuel). cbn [mbind outcome_bind]. rewrite Hcompact. reflexivity.
Qed.

(** X29. On well-typed streams and with a positive interval the pipeline
    terminates and raises nothing, whatever the flags: beyond some number of
    loop iterations every call returns one and the same result. Floats are
    exact rationals here: overflow and NaN are not covered. *)
Theorem sample_streams_common_total (streams_data : list RawStream) (interval_seconds : Q)
    (filter_moving include_pace include_velocity : bool) :
  well_typed streams_data ->
  (0 < interval_seconds)%Q ->
  exists fuel0 result,
    forall fuel, fuel0 <= fuel ->
      _sample_streams_common float_of_str fuel streams_data interval_seconds
                             filter_moving include_pace include_velocity
      = Ret result.
Proof. apply sample_streams_common_returns. Qed.

(** X30. A record is assembled without an exception for every activity whose
    name is a string or falsy, when its streams are well typed and the
    interval is positive. Floats are exact rationals here: overflow and NaN
    are not covered. *)
Theorem create_activity_jsonl_object_total (activity_data : dict pyval)
    (streams_data : option (list RawStream)) (interval_seconds : Q) :
  classifiable (get_or_none "name" activity_data) = true ->
  well_typed (default [] streams_data) ->
  (0 < interval_seconds)%Q ->
  exists fuel0 record,
    forall fuel, fuel0 <= fuel ->
      create_activity_jsonl_object float_of_str fuel activity_data streams_data
                                   interval_seconds
      = Ret record.
Proof.
  intros Hname Htyped Hpos. unfold create_activity_jsonl_object.
  destruct streams_data as [[|stream streams]|]; try (exists 0; eauto; fail).
  change (well_typed (stream :: streams)) in Htyped. unfold sample_for_activity.
  pose proof (fun prefix => name_has_prefix_returns prefix _ Hname) as Hclass.
  destruct (Hclass "running") as [is_running Hrun], (Hclass "rest") as [is_rest Hrest].
  unfold _is_running_activity, _is_rest_activity. rewrite Hrun, Hrest.
  cbn [mbind outcome_bind].
  destruct (sample_streams_common_returns (stream :: streams) interval_seconds
              is_running is_running is_running Htyped Hpos)
    as (fuel0 & [compact quantiles] & Hcommon).
  eexists fuel0, _. intros fuel Hfuel. rewrite (Hcommon fuel Hfuel).
  cbn [mbind outcome_bind]. reflexivity.
Qed.
End PipelineTotal.

Lemma sample_streams_common_total_witness :
  exists fuel0 result,
    forall fuel, fuel0 <= fuel ->
      _sample_streams_common (fun _ => None) fuel rest_streams 2 true true true = Ret result.
Proof.
  apply (sample_streams_common_total (fun _ => None) rest_streams 2 true true true).
  - repeat constructor; intros [=].
  - reflexivity.
Defined.

Lemma create_activity_jsonl_object_total_witness :
  exists fuel0 record,
    forall fuel, fuel0 <= fuel ->
      create_activity_jsonl_object (fun _ => None) fuel rest_activity (Some rest_streams) 2
      = Ret record.
Proof.
  apply (create_activity_jsonl_object_total (fun _ => None) rest_activity
           (Some rest_streams) 2).
  - reflexivity.
  - repeat constructor; intros [=].
  - reflexivity.
Defined.

(** ** Alignment of the compact record with the raw streams *)

Lemma truthy_is_meaningful (moving_data : list pyval) :
  existsb py_truthy moving_data = true -> existsb is_meaningful moving_data = true.
Proof.
  intros (v & Hin & Hv)%existsb_exists. apply existsb_exists.
  exists v. split; [exact Hin|]. destruct v; try reflexivity; try discriminate Hv.
  exact Hv.
Qed.

(** What the moving filter leaves under a key, when it leaves anything. *)
Lemma filter_by_moving_series (streams_data : list RawStream) (k : string) :
  k <> "" ->
  _filter_by_moving (_convert_streams_to_dict streams_data) <> [] ->
  Dict.get k (_filter_by_moving (_convert_streams_to_dict streams_data))
  = series_seen true streams_data <$> supplied k streams_data.
Proof.
  intros Hk Hkept. unfold series_seen, supplied.
  rewrite <- !convert_streams_get by (exact Hk || discriminate).
  set (streams_dict := _convert_streams_to_dict streams_data) in *.
  destruct (Dict.get "moving" streams_dict) as [moving_data|] eqn:Hmoving.
  - cbn [andb fmap option_fmap option_map].
    destruct (existsb py_truthy moving_data) eqn:Htruthy.
    + rewrite (filter_by_moving_keep_where _ _ Hmoving Htruthy), get_map_values.
      reflexivity.
    + assert (Hsame : _filter_by_moving streams_dict = streams_dict).
      { unfold _filter_by_moving in *. rewrite Hmoving in *.
        destruct (negb (existsb is_meaningful moving_data)); [reflexivity|].
        destruct (truthy_indices 0 moving_data) as [|i rest] eqn:Hidx; [congruence|].
        apply (f_equal (fun l => match l with [] => true | _ => false end)) in Hidx.
        assert (Hnil : truthy_indices 0 moving_data = [])
          by (apply truthy_indices_nil; exact Htruthy).
        rewrite Hnil in Hidx. discriminate Hidx. }
      rewrite Hsame. destruct (Dict.get k streams_dict); reflexivity.
  - unfold _filter_by_moving. rewrite Hmoving.
    destruct (Dict.get k streams_dict); reflexivity.
Qed.

(** The normalised StreamSet in terms of the raw streams: under each key
    the series the sampler indexes, doubled where it is the cadence. *)
Lemma normalised_streams_get (streams_data : list RawStream) (filter_moving : bool)
    (k : string) :
  (filter_moving = true ->
   _filter_by_moving (_convert_streams_to_dict streams_data) <> []) ->
  k <> "moving" -> k <> "" ->
  Dict.get k (normalised_streams streams_data filter_moving)
  = (fun raw =>
       if String.eqb k "cadence"
       then map (fun value => if _is_numeric_value value then times_multiplier value
                              else value)
                (series_seen filter_moving streams_data raw)
       else series_seen filter_moving streams_data raw)
      <$> supplied k streams_data.
Proof.
  intros Hkept Hmoving Hk. unfold normalised_streams.
  set (filtered := if filter_moving then _ else _).
  assert (Hfiltered : forall k', k' <> "" ->
            Dict.get k' filtered
            = series_seen filter_moving streams_data <$> supplied k' streams_data).
  { intros k' Hk'. unfold filtered. destruct filter_moving.
    - apply filter_by_moving_series; [exact Hk' | apply Hkept; reflexivity].
    - rewrite (convert_streams_get _ _ Hk'). unfold series_seen, supplied.
      destruct (last (List.filter (usable k') streams_data)); [|reflexivity].
      cbn. destruct (stream_data <$> last _); reflexivity. }
  unfold _double_cadence_values.
  rewrite (get_pop_ne "cadence" "moving") by discriminate.
  rewrite (Hfiltered "cadence") by discriminate.
  destruct (String.eqb_spec k "cadence") as [->|Hne].
  - destruct (supplied "cadence" streams_data) as [raw|] eqn:Hcadence;
      cbn [fmap option_fmap option_map].
    + apply get_set_eq.
    + rewrite get_pop_ne by discriminate. rewrite Hfiltered by discriminate.
      rewrite Hcadence. reflexivity.
  - destruct (supplied "cadence" streams_data) as [raw|]; cbn [fmap option_fmap option_map].
    + rewrite get_set_ne by exact Hne. rewrite get_pop_ne by exact Hmoving.
      apply Hfiltered, Hk.
    + rewrite get_pop_ne by exact Hmoving. apply Hfiltered, Hk.
Qed.

Lemma doubled_missing (data : list pyval) (i : nat) :
  missing_at data i ->
  missing_at (map (fun value => if _is_numeric_value value then times_multiplier value
                                else value) data) i.
Proof.
  unfold missing_at. rewrite list_lookup_fmap.
  intros [-> | ->]; [left | right]; reflexivity.
Qed.

(** A sample without a distance gets the empty pace token. *)
Lemma pace_values_missing (sampled_time : list Q) (sampled_distance : list pyval)
    (pace_values : list string) (j : nat) :
  _calculate_pace_values sampled_time sampled_distance = Ret pace_values ->
  j < length sampled_time ->
  sampled_distance !! j = Some VNone ->
  pace_values !! j = Some "".
Proof.
  unfold _calculate_pace_values. intros H Hj Hd. apply mapM_Ret in H.
  destruct (Forall2_lookup_l _ _ _ j j H) as (tok & Htok & Hf);
    [rewrite lookup_seq_lt by exact Hj; reflexivity|].
  rewrite Htok. f_equal.
  destruct (lookup_lt_is_Some_2 sampled_time j Hj) as [t_j Ht_j].
  destruct (Nat.eqb_spec j 0) as [->|Hpos].
  - destruct (1 <? length sampled_time)%nat; [|congruence].
    rewrite (py_index_lookup _ _ _ Hd) in Hf. cbn in Hf. congruence.
  - destruct (lookup_lt_is_Some_2 sampled_time (j - 1) ltac:(lia)) as [t_p Ht_p].
    rewrite (py_index_lookup _ _ _ Ht_j), (py_index_lookup _ _ _ Ht_p),
      (py_index_lookup _ _ _ Hd) in Hf.
    cbn in Hf. congruence.
Qed.

Lemma build_compact_pace (float_of_str : string -> option Q)
    (streams_dict : dict (list pyval)) (time_data : list Q) (unique_indices : list nat)
    (interval_seconds : Q) (include_pace include_velocity : bool)
    (compact : dict string) (csv : string) :
  build_compact float_of_str streams_dict time_data unique_indices interval_seconds
                include_pace include_velocity = Ret compact ->
  Dict.get "pace_s_per_km_csv" compact = Some csv ->
  exists distance sampled_time pace_values,
    Dict.get "distance" streams_dict = Some distance
    /\ length sampled_time = length unique_indices
    /\ _calculate_pace_values sampled_time (_sample_stream_data distance unique_indices)
       = Ret pace_values
    /\ csv = py_join "," pace_values.
Proof.
  unfold build_compact. intros H Hcsv.
  apply bind_Ret in H as (sampled_time & Hst & H).
  apply mapM_Ret_length in Hst.
  apply bind_Ret in H as (r1 & H1 & H).
  apply bind_Ret in H as (r2 & H2 & H).
  apply bind_Ret in H as (r3 & H3 & H).
  apply bind_Ret in H as (r4 & H4 & H).
  assert (E5 : Dict.get "pace_s_per_km_csv" compact = Dict.get "pace_s_per_km_csv" r4).
  { destruct (Dict.get "cadence" streams_dict).
    - apply bind_Ret in H as (c & _ & <-%Ret_inj). apply get_set_ne. discriminate.
    - apply Ret_inj in H as <-. reflexivity. }
  assert (E4 : Dict.get "pace_s_per_km_csv" r4 = Dict.get "pace_s_per_km_csv" r3).
  { destruct (Dict.get "velocity_smooth" streams_dict); [destruct include_velocity|].
    - apply bind_Ret in H4 as (c & _ & <-%Ret_inj). apply get_set_ne. discriminate.
    - apply Ret_inj in H4 as <-. reflexivity.
    - apply Ret_inj in H4 as <-. reflexivity. }
  assert (E3 : Dict.get "pace_s_per_km_csv" r3 = Dict.get "pace_s_per_km_csv" r2).
  { destruct (Dict.get "altitude" streams_dict).
    - apply bind_Ret in H3 as (c & _ & <-%Ret_inj). apply get_set_ne. discriminate.
    - apply Ret_inj in H3 as <-. reflexivity. }
  assert (E2 : Dict.get "pace_s_per_km_csv" r2 = Dict.get "pace_s_per_km_csv" r1).
  { destruct (Dict.get "heartrate" streams_dict).
    - apply bind_Ret in H2 as (c & _ & <-%Ret_inj). apply get_set_ne. discriminate.
    - apply Ret_inj in H2 as <-. reflexivity. }
  rewrite E5, E4, E3, E2 in Hcsv.
  destruct (Dict.get "distance" streams_dict) as [distance|]; [destruct include_pace|].
  - apply bind_Ret in H1 as (pace_values & Hpace & <-%Ret_inj).
    rewrite get_set_eq in Hcsv. injection Hcsv as <-.
    exists distance, sampled_time, pace_values. repeat split; [lia | exact Hpace].
  - apply Ret_inj in H1 as <-. discriminate Hcsv.
  - apply Ret_inj in H1 as <-. discriminate Hcsv.
Qed.

(** C3. Whenever the pipeline returns a non-empty compact record for some
    raw streams, the record was sampled at the de-duplicated resample
    indices of the rebased time stream of those streams; every [_csv] field
    of it splits into exactly one entry per index; and where the raw stream
    behind a field (the distance stream for the pace) has no value at a
    resample index, [None] or nothing at that position of the series the
    sampler indexes, the entry at that position is the empty token. *)
Theorem compact_csv_fields_aligned (float_of_str : string -> option Q) (fuel : nat)
    (streams_data : list RawStream) (interval_seconds : Q)
    (filter_moving include_pace include_velocity : bool)
    (compact : dict string) (quantiles : dict (dict Q)) :
  _sample_streams_common float_of_str fuel streams_data interval_seconds
                         filter_moving include_pace include_velocity
  = Ret (compact, quantiles) ->
  compact <> [] ->
  exists raw_time time_offset later time_data unique_indices,
    supplied "time" streams_data = Some raw_time
    /\ series_seen filter_moving streams_data raw_time = time_offset :: later
    /\ mapM (fun t => x ← py_float float_of_str t;
                      o ← py_float float_of_str time_offset; Ret (x - o)%Q)
            (time_offset :: later) = Ret time_data
    /\ _find_sampling_indices fuel time_data interval_seconds = Ret unique_indices
    /\ unique_indices <> []
    /\ NoDup unique_indices
    /\ (forall field csv,
          In field csv_fields -> Dict.get field compact = Some csv ->
          length (py_split comma csv) = length unique_indices)
    /\ (forall field source raw csv j i,
          In (field, source) field_sources ->
          supplied source streams_data = Some raw ->
          Dict.get field compact = Some csv ->
          unique_indices !! j = Some i ->
          missing_at (series_seen filter_moving streams_data raw) i ->
          py_split comma csv !! j = Some "").
Proof.
  intros H Hcompact.
  destruct (sample_streams_common_run _ _ _ _ _ _ _ _ _ H Hcompact)
    as (time_offset & later & time_data & unique_indices
        & Hkept & Htime & Hrebase & Hidx & Hne & Hbuild & _).
  pose proof (normalised_streams_get streams_data filter_moving) as Hget.
  rewrite (Hget "time" Hkept) in Htime by discriminate.
  destruct (supplied "time" streams_data) as [raw_time|] eqn:Hraw; [|discriminate Htime].
  cbn in Htime. injection Htime as Htime.
  exists raw_time, time_offset, later, time_data, unique_indices.
  destruct (find_sampling_indices_sound _ _ _ _ Hidx) as [_ Hnodup].
  destruct (build_compact_aligned _ _ _ _ _ _ _ _ Hne Hbuild) as [Haligned Hmarks].
  split; [reflexivity|]. split; [exact Htime|]. split; [exact Hrebase|].
  split; [exact Hidx|]. split; [exact Hne|]. split; [exact Hnodup|].
  split; [exact Haligned|].
  intros field source raw csv j i Hin Hsupplied Hcsv Hj Hmissing.
  assert (Hsource : source <> "moving" /\ source <> "" /\ source <> "time").
  { unfold field_sources, sampled_fields in Hin. cbn [In] in Hin.
    repeat (destruct Hin as [[= <- <-]|Hin]; [repeat split; discriminate|]).
    destruct Hin. }
  destruct Hsource as (Hs1 & Hs2 & Hs3).
  pose proof (Hget source Hkept Hs1 Hs2) as Hdata. rewrite Hsupplied in Hdata.
  cbn [fmap option_fmap option_map] in Hdata.
  set (data := if String.eqb source "cadence" then _ else _) in Hdata.
  assert (Hdata_missing : missing_at data i).
  { unfold data. destruct (String.eqb source "cadence");
      [apply doubled_missing|]; exact Hmissing. }
  assert (Hstream :
            Dict.get source
              (Dict.set "time" (map VFloat time_data)
                        (normalised_streams streams_data filter_moving)) = Some data)
    by (rewrite get_set_ne by exact Hs3; exact Hdata).
  unfold field_sources in Hin. destruct Hin as [[= <- <-]|Hin].
  - destruct (build_compact_pace _ _ _ _ _ _ _ _ _ Hbuild Hcsv)
      as (distance & sampled_time & pace_values & Hdistance & Hlen & Hpace & ->).
    assert (distance = data) as -> by congruence.
    assert (Hjlt : j < length sampled_time)
      by (rewrite Hlen; eapply lookup_lt_Some, Hj).
    destruct (pace_values_no_comma _ _ _ Hpace) as [Hplen Hcommas].
    rewrite py_split_join; [| |exact Hcommas].
    + eapply pace_values_missing; [exact Hpace | exact Hjlt|].
      eapply sample_stream_data_missing; eassumption.
    + destruct pace_values; [cbn [length] in Hplen; lia | discriminate].
  - exact (Hmarks field source csv data j i Hin Hcsv Hstream Hj Hdata_missing).
Qed.

Lemma compact_csv_fields_aligned_witness :
  exists raw_time time_offset later time_data unique_indices,
    supplied "time" gappy_streams = Some raw_time
    /\ series_seen true gappy_streams raw_time = time_offset :: later
    /\ mapM (fun t => x ← py_float (fun _ => None) t;
                      o ← py_float (fun _ => None) time_offset; Ret (x - o)%Q)
            (time_offset :: later) = Ret time_data
    /\ _find_sampling_indices 6 time_data 1 = Ret unique_indices
    /\ unique_indices <> []
    /\ NoDup unique_indices
    /\ (forall field csv,
          In field csv_fields -> Dict.get field (fst gappy_result) = Some csv ->
          length (py_split comma csv) = length unique_indices)
    /\ (forall field source raw csv j i,
          In (field, source) field_sources ->
          supplied source gappy_streams = Some raw ->
          Dict.get field (fst gappy_result) = Some csv ->
          unique_indices !! j = Some i ->
          missing_at (series_seen true gappy_streams raw) i ->
          py_split comma csv !! j = Some "").
Proof.
  apply (compact_csv_fields_aligned (fun _ => None) 6 gappy_streams 1 true true true
           (fst gappy_result) (snd gappy_result)).
  - vm_compute. reflexivity.
  - discriminate.
Defined.

Example gappy_result_fields :
  fst gappy_result
  = [("sampling", "approx_1s"); ("time_s_csv", "0,2,3,4,5");
     ("pace_s_per_km_csv", "333,333,,,333"); ("hr_bpm_csv", "100,102,,104,105");
     ("alt_m_csv", "8,,,,"); ("cadence_spm_csv", "160,,166,168,170")].
Proof. reflexivity. Qed.

(** ** The heart-rate mutation utility on a batch file *)

Section Utility.
Variable json_dumps : pyval -> string.
Variable json_loads : string -> option pyval.
Variable G : Type.
Variable randint : G -> Z -> Z -> Z * G.

(** Once a line has failed, the remaining lines change nothing. *)
Lemma modify_fold_failed (min_hr max_hr : Z) (lines : list string)
    (acc : outcome (list pyval)) (g : G) :
  (forall modified_objects, acc <> Ret modified_objects) ->
  foldl
    (fun '(acc, g) line =>
       match acc with
       | Ret modified_objects =>
           let line := py_strip line in
           if String.eqb line "" then (acc, g)
           else match json_loads line with
                | None => (Raise ValueError, g)
                | Some obj =>
                    let '(r, g) := modify_object G randint min_hr max_hr obj g in
                    (modified_obj ← r; Ret (modified_objects ++ [modified_obj]), g)
                end
       | _ => (acc, g)
       end)
    (acc, g) lines
  = (acc, g).
Proof.
  intros Hacc. induction lines as [|line lines IH]; [reflexivity|].
  cbn [foldl]. destruct acc as [modified_objects|e|]; [|exact IH | exact IH].
  exfalso. exact (Hacc modified_objects eq_refl).
Qed.

(** A run over the lines that returns has parsed every non-blank line and
    rewritten each parsed value in turn. *)
Lemma modify_fold_spec (min_hr max_hr : Z) (lines : list string)
    (acc modified_objects : list pyval) (g g' : G) :
  foldl
    (fun '(acc, g) line =>
       match acc with
       | Ret modified_objects =>
           let line := py_strip line in
           if String.eqb line "" then (acc, g)
           else match json_loads line with
                | None => (Raise ValueError, g)
                | Some obj =>
                    let '(r, g) := modify_object G randint min_hr max_hr obj g in
                    (modified_obj ← r; Ret (modified_objects ++ [modified_obj]), g)
                end
       | _ => (acc, g)
       end)
    (Ret acc, g) lines
  = (Ret modified_objects, g') ->
  exists objs modified,
    mapM json_loads
         (List.filter (fun line => negb (String.eqb line "")) (map py_strip lines))
    = Some objs
    /\ modified_objects = acc ++ modified
    /\ Forall2 (fun obj modified_obj =>
                  exists g1 g2,
                    modify_object G randint min_hr max_hr obj g1 = (Ret modified_obj, g2))
               objs modified.
Proof.
  revert acc g. induction lines as [|line lines IH]; intros acc g; cbn [foldl].
  - intros [= <- _]. exists [], []. rewrite app_nil_r. repeat split. constructor.
  - cbn [map List.filter]. destruct (String.eqb (py_strip line) "") eqn:Hblank;
      cbn [negb].
    + apply IH.
    + destruct (json_loads (py_strip line)) as [obj|] eqn:Hobj.
      * destruct (modify_object G randint min_hr max_hr obj g) as [r g1] eqn:Hrun.
        destruct r as [modified_obj|e|].
        -- cbn [mbind outcome_bind]. intros H.
           destruct (IH _ _ H) as (objs & modified & Hobjs & -> & Hall).
           exists (obj :: objs), (modified_obj :: modified).
           split; [cbn [mapM]; rewrite Hobj, Hobjs; reflexivity|].
           split; [rewrite <- app_assoc; reflexivity|].
           constructor; [eauto | exact Hall].
        -- cbn [mbind outcome_bind]. rewrite modify_fold_failed by discriminate.
           discriminate.
        -- cbn [mbind outcome_bind]. rewrite modify_fold_failed by discriminate.
           discriminate.
      * rewrite modify_fold_failed by discriminate. discriminate.
Qed.

(** A record with heart rates that [modify_dict] returns for: its quantile
    summary was absent or an object, since anything else raises. *)
Lemma modify_dict_returned (min_hr max_hr : Z) (obj obj' : dict pyval) (g g' : G)
    (streams_compact : dict pyval) (hr_csv : string) :
  modify_dict G randint min_hr max_hr obj g = (Ret obj', g') ->
  Dict.get "streams_compact" obj = Some (VDict streams_compact) ->
  Dict.get "hr_bpm_csv" streams_compact = Some (VStr hr_csv) ->
  hr_tokens hr_csv <> [] ->
  Dict.get "quantiles" obj = None
  \/ exists quantiles, Dict.get "quantiles" obj = Some (VDict quantiles).
Proof.
  intros H Hsc Hhr Htokens.
  destruct (Dict.get "quantiles" obj) as [v|] eqn:Hq; [|left; reflexivity].
  assert (Hcases : (exists quantiles, v = VDict quantiles)
                   \/ forall quantiles, v <> VDict quantiles)
    by (destruct v; try (right; discriminate); left; eauto).
  destruct Hcases as [[quantiles ->]|Hother]; [right; eauto|].
  exfalso. unfold modify_dict in H. rewrite Hsc, Hhr in H.
  assert (Htruthy : py_truthy (VStr hr_csv) = true).
  { cbn [py_truthy]. destruct (String.eqb_spec hr_csv "") as [->|_]; [|reflexivity].
    exfalso. apply Htokens. reflexivity. }
  rewrite Htruthy in H. fold (hr_tokens hr_csv) in H.
  pose proof (draw_each_length G randint min_hr max_hr (hr_tokens hr_csv) g) as Hlen.
  destruct (draw_each G randint min_hr max_hr (hr_tokens hr_csv) g) as [numeric_hr g2].
  cbn [fst] in Hlen.
  destruct numeric_hr as [|x rest];
    [destruct (hr_tokens hr_csv); [congruence | discriminate Hlen]|].
  set (o1 := Dict.set "streams_compact" _ obj) in H.
  assert (Hq1 : Dict.get "quantiles" o1 = Some v)
    by (unfold o1; rewrite get_set_ne by discriminate; exact Hq).
  unfold Dict.mem in H. rewrite Hq1 in H. rewrite Hq1 in H.
  destruct v; try discriminate H. exact (Hother _ eq_refl).
Qed.

Lemma modify_object_refreshes (min_hr max_hr : Z) (obj modified_obj : pyval) (g g' : G) :
  modify_object G randint min_hr max_hr obj g = (Ret modified_obj, g') ->
  scalars_refreshed obj modified_obj.
Proof.
  intros H record streams_compact hr_csv -> Hsc Hhr Htokens.
  cbn [modify_object] in H.
  destruct (modify_dict G randint min_hr max_hr record g) as [r g1] eqn:Hrun.
  destruct r as [record'|e|]; try discriminate H.
  cbn [mbind outcome_bind] in H. injection H as <- <-.
  pose proof (modify_dict_returned _ _ _ _ _ _ _ _ Hrun Hsc Hhr Htokens) as Hq.
  destruct (modify_dict_spec G randint min_hr max_hr record g _ _ Hsc Hhr Htokens Hq)
    as (record'' & Hrun' & Hcsv & _ & Havg & Hmax).
  assert (record'' = record') as -> by congruence.
  set (new_hr := fst (draw_each G randint min_hr max_hr (hr_tokens hr_csv) g)) in *.
  pose proof (draw_each_length G randint min_hr max_hr (hr_tokens hr_csv) g) as Hlen.
  fold new_hr in Hlen.
  assert (Hne : new_hr <> []).
  { destruct new_hr; [|discriminate].
    destruct (hr_tokens hr_csv); [congruence | discriminate Hlen]. }
  exists record',
    (Dict.set "hr_bpm_csv" (VStr (py_join "," (map str_of_int new_hr))) streams_compact),
    new_hr.
  split; [reflexivity|]. split; [exact Hlen|].
  split; [exact Hcsv|]. split; [apply get_set_eq|]. split.
  - intros _ Hmem. rewrite <- (py_int_mean new_hr Hne). exact (Havg Hmem).
  - intros Hmem. exists (py_max new_hr). destruct (py_max_spec new_hr Hne) as [Hin Hall].
    split; [exact (Hmax Hmem) | split; assumption].
Qed.

(** C7, as amended. Every call of the utility that returns has parsed the
    non-blank lines of the input file and written one rewritten value per
    parsed value to the output file; in the rewritten value of a record
    with heart rates the series holds the new integers, an
    average-heart-rate scalar present at top level is their mean truncated
    to an integer (the quotient of their sum by their count, rounded toward
    zero; stated for integers whose float sum is exact), and a
    maximum-heart-rate scalar present at top level is their maximum. *)
Theorem modify_refreshes_scalars (jsonl_filepath output_filepath content : string)
    (min_hr max_hr : Z) (w w' : world) (g g' : G) :
  modify_heartrate_to_abnormal json_dumps json_loads G randint
                               jsonl_filepath output_filepath min_hr max_hr w g
  = (Ret tt, w', g') ->
  files w !! jsonl_filepath = Some content ->
  exists objs modified_objects,
    mapM json_loads (nonblank_lines content) = Some objs
    /\ files w' !! output_filepath = Some (batch_text json_dumps modified_objects)
    /\ Forall2 scalars_refreshed objs modified_objects.
Proof.
  unfold modify_heartrate_to_abnormal. intros H Hcontent.
  destruct (max_hr <=? min_hr)%Z; [discriminate H|].
  rewrite files_log, Hcontent in H.
  destruct (foldl _ _ _) as [[modified_objects|e|] g2] eqn:Hfold; try discriminate H.
  injection H as <- <-.
  apply modify_fold_spec in Hfold as (objs & modified & Hobjs & Hmod & Hall).
  cbn [app] in Hmod. subst modified_objects.
  exists objs, modified. split; [exact Hobjs|]. split.
  - rewrite files_log. apply save_jsonl_file_content.
  - eapply Forall2_impl; [exact Hall|].
    intros obj modified_obj (g1 & g3 & Hrun). eapply modify_object_refreshes, Hrun.
Qed.
End Utility.

Lemma modify_refreshes_scalars_witness :
  exists objs modified_objects,
    mapM mini_json.loads (nonblank_lines (batch_text mini_json.dumps sample_batch))
    = Some objs
    /\ files (snd (fst (modify_heartrate_to_abnormal mini_json.dumps mini_json.loads Z
                          lcg.randint "activities.jsonl" "abnormal.jsonl" 210 240
                          batch_world 1%Z)))
         !! "abnormal.jsonl"
       = Some (batch_text mini_json.dumps modified_objects)
    /\ Forall2 scalars_refreshed objs modified_objects.
Proof.
  apply (modify_refreshes_scalars mini_json.dumps mini_json.loads Z lcg.randint
           "activities.jsonl" "abnormal.jsonl"
           (batch_text mini_json.dumps sample_batch) 210 240 batch_world
           (snd (fst (modify_heartrate_to_abnormal mini_json.dumps mini_json.loads Z
                        lcg.randint "activities.jsonl" "abnormal.jsonl" 210 240
                        batch_world 1%Z)))
           1%Z
           (snd (modify_heartrate_to_abnormal mini_json.dumps mini_json.loads Z
                   lcg.randint "activities.jsonl" "abnormal.jsonl" 210 240
                   batch_world 1%Z))).
  - vm_compute. reflexivity.
  - vm_compute. reflexivity.
Defined.

(** C7, as stated, fails: on the batch file the new values of the first
    record are 216 and 221 and the average written for it is 218, not
    their mean 218.5. *)
Lemma stored_average_is_not_the_mean :
  exists first second,
    fst (fst (modify_heartrate_to_abnormal mini_json.dumps mini_json.loads Z lcg.randint
                "activities.jsonl" "abnormal.jsonl" 210 240 batch_world 1%Z))
    = Ret tt
    /\ fst (load_jsonl_file mini_json.loads "abnormal.jsonl"
              (snd (fst (modify_heartrate_to_abnormal mini_json.dumps mini_json.loads Z
                           lcg.randint "activities.jsonl" "abnormal.jsonl" 210 240
                           batch_world 1%Z))))
       = Ret [VDict first; second]
    /\ Dict.get "streams_compact" first
       = Some (VDict [("sampling", VStr "approx_5s"); ("time_s_csv", VStr "0,5");
                      ("hr_bpm_csv", VStr "216,221")])
    /\ Dict.get "average_heartrate_bpm" first = Some (VInt 218)
    /\ ~ (inject_Z 218 == np.mean [inject_Z 216; inject_Z 221])%Q.
Proof.
  vm_compute. eexists _, _. split; [reflexivity|]. split; [reflexivity|].
  split; [reflexivity|]. split; [reflexivity|]. discriminate.
Qed.

(** C6. The utility on a record with a missing heart-rate sample: the series
    ["140,,160"] has three entries, one per entry of the time series
    ["0,5,10"]; the series written for it, ["216,221"], has two, so the
    empty entry was dropped and the series no longer lines up with the
    time series. *)
Lemma missing_sample_changes_the_count :
  exists record streams_compact,
    fst (fst (modify_heartrate_to_abnormal mini_json.dumps mini_json.loads Z lcg.randint
                "gaps.jsonl" "abnormal.jsonl" 210 240 gap_world 1%Z))
    = Ret tt
    /\ fst (load_jsonl_file mini_json.loads "gaps.jsonl" gap_world)
       = Ret [VDict [("activity_id", VInt 9);
                     ("streams_compact",
                      VDict [("time_s_csv", VStr "0,5,10");
                             ("hr_bpm_csv", VStr "140,,160")])]]
    /\ fst (load_jsonl_file mini_json.loads "abnormal.jsonl"
              (snd (fst (modify_heartrate_to_abnormal mini_json.dumps mini_json.loads Z
                           lcg.randint "gaps.jsonl" "abnormal.jsonl" 210 240
                           gap_world 1%Z))))
       = Ret [VDict record]
    /\ Dict.get "streams_compact" record = Some (VDict streams_compact)
    /\ Dict.get "time_s_csv" streams_compact = Some (VStr "0,5,10")
    /\ Dict.get "hr_bpm_csv" streams_compact = Some (VStr "216,221")
    /\ length (py_split comma "140,,160") = 3
    /\ length (py_split comma "0,5,10") = 3
    /\ length (py_split comma "216,221") = 2.
Proof.
  vm_compute. eexists _, _. repeat (split; [reflexivity|]). reflexivity.
Qed.
